(** * ArcLink client: protocol engine of [obspy/arclink/client.py]

    A shallow embedding of the request engine of the ArcLink/WebDC client
    ([Client._readln], [_hello], [_bye], [_request], [_fetch], [getRouting],
    [_findRoute], [getQC] and [Client.__init__]) together with the facts the
    specification states about it.

    Python 2 [str] values are byte strings and are modelled by [string];
    integers by [Z]; the key store, a [dict], by [gmap string string] living
    in a heap of dictionary objects, because the constructor's default
    dictionary is one object shared between instances.  The routing table is
    an association list in the order in which the [dict] is iterated.

    The Telnet connection is an oracle: [replies] lists what the successive
    calls of [Telnet.read_until] return (data up to the sentinel, or whatever
    had arrived when the timeout struck; the empty string once the list is
    exhausted) and [streams] lists the bytes seen by the successive
    [makefile()] objects, each ending in end-of-file.  Everything the client
    does on the connection is appended to [log].  Opening a connection always
    succeeds; printing under [debug] and the [time.sleep] pauses are not
    modelled.  Loops that Python writes as [while] take a number of turns
    they may use; [OutOfFuel] is the run that has not ended within them. *)

From Stdlib Require Import ZArith List String Ascii Bool Lia.
From Stdlib Require Import Sorting.Sorted Sorting.Permutation.
From stdpp Require Import gmap strings pretty.

Open Scope string_scope.
Open Scope Z_scope.

(** ** Python built-ins used by the client *)

Module Py.

(** [str.isspace] on one byte: space, [\t], [\n], [\v], [\f], [\r]. *)
Definition is_space (c : ascii) : bool :=
  let n := N_of_ascii c in
  (n =? 32)%N || ((9 <=? n)%N && (n <=? 13)%N).

Fixpoint lstrip (s : string) : string :=
  match s with
  | EmptyString => EmptyString
  | String c s' => if is_space c then lstrip s' else s
  end.

Fixpoint rstrip (s : string) : string :=
  match s with
  | EmptyString => EmptyString
  | String c s' =>
      match rstrip s' with
      | EmptyString => if is_space c then EmptyString else String c EmptyString
      | r => String c r
      end
  end.

(** [s.strip()] *)
Definition strip (s : string) : string := rstrip (lstrip s).

(** [needle in hay] *)
Fixpoint contains (needle hay : string) : bool :=
  String.prefix needle hay ||
  match hay with
  | EmptyString => false
  | String _ h => contains needle h
  end.

(** [s.split(sep)] for a one-character separator: never the empty list. *)
Fixpoint split (sep : ascii) (s : string) : list string :=
  match s with
  | EmptyString => [EmptyString]
  | String c s' =>
      if Ascii.eqb c sep then EmptyString :: split sep s'
      else match split sep s' with
           | h :: t => String c h :: t
           | [] => [String c EmptyString]
           end
  end.

(** [s.split(sep, 1)]: cut at the first separator only. *)
Fixpoint split1 (sep : ascii) (s : string) : list string :=
  match s with
  | EmptyString => [EmptyString]
  | String c s' =>
      if Ascii.eqb c sep then [EmptyString; s']
      else match split1 sep s' with
           | h :: t => String c h :: t
           | [] => [String c EmptyString]
           end
  end.

Definition digit (c : ascii) : option Z :=
  let n := N_of_ascii c in
  if ((48 <=? n)%N && (n <=? 57)%N)%bool then Some (Z.of_N (n - 48)) else None.

Fixpoint digits (acc : Z) (s : string) : option Z :=
  match s with
  | EmptyString => Some acc
  | String c s' =>
      match digit c with
      | Some d => digits (10 * acc + d) s'
      | None => None
      end
  end.

Definition unsigned (s : string) : option Z :=
  match s with
  | EmptyString => None
  | _ => digits 0 s
  end.

(** [int(s)] in base ten: surrounding white space, an optional sign, at least
    one digit.  [None] stands for the [ValueError]. *)
Definition int (s : string) : option Z :=
  match strip s with
  | String "-" r => Z.opp <$> unsigned r
  | String "+" r => unsigned r
  | r => unsigned r
  end.

(** ['%d' % n] *)
Definition fmt_d (n : Z) : string := pretty n.

(** ['%s' % x] where [x] may be [None]. *)
Definition fmt_s (x : option string) : string := default "None" x.

(** [s[:-3]] *)
Definition drop_last3 (s : string) : string :=
  substring 0 (String.length s - 3) s.

(** [s[:n]] and [s[n:]] at once. *)
Fixpoint cut (n : nat) (s : string) : string * string :=
  match n, s with
  | S n', String c r => let (a, b) := cut n' r in (String c a, b)
  | _, _ => (EmptyString, s)
  end.

End Py.

(** ** [fnmatch.fnmatch] of the standard library

    [fnmatch(name, pat)] translates the shell pattern into a regular
    expression anchored at both ends ([fnmatch.translate]) and matches the
    name against it; on POSIX [os.path.normcase] is the identity, so the
    match is case sensitive.  [*] matches any run of bytes, [?] one byte,
    [[seq]] one byte of the set, [[!seq]] one byte outside it; a [[] that is
    never closed stands for itself.  Inside a set [a-b] is a range.  The
    regular expression is compiled before it is used ([re.compile]); a set
    with a range whose ends are out of order is refused there with
    [re.error: bad character range], whatever the name is. *)

Module Fnmatch.

Inductive glob : Type :=
| GStar
| GAny
| GSet (negated : bool) (items : list (ascii * ascii))
| GLit (c : ascii).

(** The scan for the closing bracket in [translate]: the text before the
    next []], [None] when there is none.  In [bracket] the scan starts after
    an optional [!] and an optional immediate []], which belong to the set. *)
Fixpoint upto_close (s : string) : option string :=
  match s with
  | EmptyString => None
  | String c r =>
      if Ascii.eqb c "]" then Some EmptyString
      else String c <$> upto_close r
  end.

Definition bracket (s : string) : option string :=
  match s with
  | String "!" (String "]" r) => (fun t => String "!" (String "]" t)) <$> upto_close r
  | String "!" r => String "!" <$> upto_close r
  | String "]" r => String "]" <$> upto_close r
  | _ => upto_close s
  end.

(** Members of a set as the regular-expression engine reads them. *)
Fixpoint set_items (s : string) : list (ascii * ascii) :=
  match s with
  | EmptyString => []
  | String lo r =>
      match r with
      | String "-" (String hi r') => (lo, hi) :: set_items r'
      | _ => (lo, lo) :: set_items r
      end
  end.

Definition set_of (stuff : string) : glob :=
  match stuff with
  | String "!" r => GSet true (set_items r)
  | _ => GSet false (set_items stuff)
  end.

(** [translate]: [skip] counts the bytes of a set still to be passed over. *)
Fixpoint translate (skip : nat) (pat : string) : list glob :=
  match pat with
  | EmptyString => []
  | String c r =>
      match skip with
      | S k => translate k r
      | O =>
          if Ascii.eqb c "*" then GStar :: translate 0 r
          else if Ascii.eqb c "?" then GAny :: translate 0 r
          else if Ascii.eqb c "[" then
            match bracket r with
            | Some stuff => set_of stuff :: translate (S (String.length stuff)) r
            | None => GLit "[" :: translate 0 r
            end
          else GLit c :: translate 0 r
      end
  end.

Definition in_range (c : ascii) (r : ascii * ascii) : bool :=
  ((N_of_ascii (fst r) <=? N_of_ascii c)%N && (N_of_ascii c <=? N_of_ascii (snd r))%N)%bool.

Fixpoint matches (p : list glob) (s : string) : bool :=
  match p with
  | [] => match s with EmptyString => true | _ => false end
  | GStar :: p' =>
      (fix star (s : string) : bool :=
         matches p' s ||
         match s with
         | EmptyString => false
         | String _ s' => star s'
         end) s
  | GAny :: p' =>
      match s with
      | EmptyString => false
      | String _ s' => matches p' s'
      end
  | GSet neg items :: p' =>
      match s with
      | EmptyString => false
      | String c s' => xorb neg (existsb (in_range c) items) && matches p' s'
      end
  | GLit c :: p' =>
      match s with
      | EmptyString => false
      | String c' s' => Ascii.eqb c c' && matches p' s'
      end
  end.

(** What [re.compile] refuses in the translation of a shell pattern: a
    range whose upper end is before the lower end.  The other members of a
    set are single bytes, which the translation escapes where needed. *)
Definition range_ok (r : ascii * ascii) : bool :=
  (N_of_ascii (fst r) <=? N_of_ascii (snd r))%N.

Definition compiles (p : list glob) : bool :=
  forallb (fun g => match g with
                    | GSet _ items => forallb range_ok items
                    | _ => true
                    end) p.

(** A pattern that [re.compile] accepts. *)
Definition well_formed (pat : string) : bool := compiles (translate 0 pat).

(** [fnmatch(name, pat)]; [None] is [re.error]. *)
Definition fnmatch (name pat : string) : option bool :=
  let p := translate 0 pat in
  if compiles p then Some (matches p name) else None.

(** A pattern without [*], [?] and [[] is a literal. *)
Fixpoint literal (pat : string) : bool :=
  match pat with
  | EmptyString => true
  | String c r =>
      negb (Ascii.eqb c "*") && negb (Ascii.eqb c "?") && negb (Ascii.eqb c "[")
      && literal r
  end.

End Fnmatch.

(** ** The world the client runs in *)

Inductive event : Type :=
| Connect (h : string) (p : Z)
| Send (line : string)
| Close.

Inductive file : Type :=
| Unreadable
| Lines (ls : list string).

(** [self._client]: the Telnet object. *)
Record Telnet : Type := {
  host : string;
  port : Z;
  sock : bool
}.

(** The attributes of a [Client] instance.  [dcid_keys] is a reference to a
    dictionary object of the heap. *)
Record Client : Type := {
  user : string;
  password : string;
  institution : string;
  init_host : string;
  init_port : Z;
  dcid_keys : nat;
  _client : Telnet
}.

Record World : Type := {
  log : list event;
  replies : list string;
  streams : list string;
  warned : list string;
  heap : gmap nat (gmap string string);
  disk : gmap string file
}.

Record State : Type := {
  self : Client;
  world : World
}.

Inductive exn : Type :=
| ArcLinkException (msg : string)
| Exception (msg : string)
| Builtin (name : string).

Inductive outcome (A : Type) : Type :=
| Ret (a : A) (s : State)
| Raise (e : exn) (s : State)
| OutOfFuel.

Arguments Ret {A} a s.
Arguments Raise {A} e s.
Arguments OutOfFuel {A}.

Definition M (A : Type) : Type := State -> outcome A.

Definition ret {A : Type} (a : A) : M A := fun s => Ret a s.

Definition raise {A : Type} (e : exn) : M A := fun s => Raise e s.

Definition bind {A B : Type} (m : M A) (k : A -> M B) : M B :=
  fun s =>
    match m s with
    | Ret a s' => k a s'
    | Raise e s' => Raise e s'
    | OutOfFuel => OutOfFuel
    end.

Notation "'let*' x ':=' m 'in' k" := (bind m (fun x => k))
  (at level 10, x name, m at level 100, k at level 200).
Notation "m >> k" := (bind m (fun _ => k))
  (at level 90, right associativity).

(** Results of pure code that may raise. *)
Definition lift {A : Type} (err : string) (o : option A) : M A :=
  match o with
  | Some a => ret a
  | None => raise (Builtin err)
  end.

(** *** Updates of the state *)

Definition set_telnet (t : Telnet) (c : Client) : Client :=
  {| user := user c; password := password c; institution := institution c;
     init_host := init_host c; init_port := init_port c;
     dcid_keys := dcid_keys c; _client := t |}.

Definition set_log (l : list event) (w : World) : World :=
  {| log := l; replies := replies w; streams := streams w;
     warned := warned w; heap := heap w; disk := disk w |}.

Definition set_replies (l : list string) (w : World) : World :=
  {| log := log w; replies := l; streams := streams w;
     warned := warned w; heap := heap w; disk := disk w |}.

Definition set_streams (l : list string) (w : World) : World :=
  {| log := log w; replies := replies w; streams := l;
     warned := warned w; heap := heap w; disk := disk w |}.

Definition set_warned (l : list string) (w : World) : World :=
  {| log := log w; replies := replies w; streams := streams w;
     warned := l; heap := heap w; disk := disk w |}.

Definition set_heap (h : gmap nat (gmap string string)) (w : World) : World :=
  {| log := log w; replies := replies w; streams := streams w;
     warned := warned w; heap := h; disk := disk w |}.

Definition emit (e : event) : M unit :=
  fun s => Ret tt {| self := self s; world := set_log (log (world s) ++ [e])%list (world s) |}.

(** [self._client.host = h; self._client.port = p] *)
Definition set_endpoint (h : string) (p : Z) : M unit :=
  fun s => Ret tt {| self := set_telnet {| host := h; port := p; sock := sock (_client (self s)) |} (self s);
                     world := world s |}.

Definition set_sock (b : bool) : M unit :=
  fun s => Ret tt {| self := set_telnet {| host := host (_client (self s)); port := port (_client (self s)); sock := b |} (self s);
                     world := world s |}.

Definition get_self : M Client := fun s => Ret (self s) s.

(** [warnings.warn(msg)] *)
Definition warn (msg : string) : M unit :=
  fun s => Ret tt {| self := self s; world := set_warned (warned (world s) ++ [msg])%list (world s) |}.

(** [Telnet.read_until]: the next answer of the oracle. *)
Definition read_until : M string :=
  fun s =>
    match replies (world s) with
    | [] => Ret EmptyString s
    | r :: rest => Ret r {| self := self s; world := set_replies rest (world s) |}
    end.

(** [get_socket().makefile('rb+')]: the bytes the file object will deliver. *)
Definition makefile : M string :=
  fun s =>
    match streams (world s) with
    | [] => Ret EmptyString s
    | f :: rest => Ret f {| self := self s; world := set_streams rest (world s) |}
    end.

(** The dictionary [self.dcid_keys] refers to. *)
Definition keystore (c : Client) (w : World) : gmap string string :=
  default ∅ (heap w !! dcid_keys c).

(** *** File objects *)

Definition LF : ascii := "010".
Definition CR : ascii := "013".
Definition CRLF : string := String CR (String LF EmptyString).

(** [fd.readline(n)]: at most [n] bytes, stopping after a line feed or at
    end-of-file; the result and what is left to read. *)
Fixpoint readline (n : nat) (fd : string) : string * string :=
  match n, fd with
  | S n', String c r =>
      if Ascii.eqb c LF then (String c EmptyString, r)
      else let (l, r') := readline n' r in (String c l, r')
  | _, _ => (EmptyString, fd)
  end.

(** [fd.read(n)]: [n] bytes, fewer only at end-of-file. *)
Definition read (n : Z) (fd : string) : string * string := Py.cut (Z.to_nat n) fd.

Definition len (s : string) : Z := Z.of_nat (String.length s).

(** ** What the client takes from other modules

    The conversions of [UTCDateTime], the XML readers of [lxml], the cipher of
    [obspy.arclink.decrypt] and the module constant [DCID_KEY_FILE] are not
    part of the client's source.  [None] and [XmlError] stand for an exception
    raised inside them. *)

Inductive xml (A : Type) : Type :=
| XmlError
| Xml (a : A).

Arguments XmlError {A}.
Arguments Xml {A} a.

(** An element is read through [get]; [arclinks ns] are the children
    [ns0:arclink] of a route. *)
Record RouteElem : Type := {
  rget : string -> option string;
  arclinks : string -> list (string -> option string)
}.

Record RoutingDoc : Type := {
  nsmap_values : list string;
  route_elems : string -> list RouteElem
}.

Record Lib : Type := {
  utc : Type;
  shift : utc -> Z -> utc;
  formatArcLink : utc -> string;
  UTCDateTime : option string -> option utc;
  line_message : string -> xml (option string);
  volume_dcid : string -> xml (option string);
  etree_fromstring : string -> xml RoutingDoc;
  SSLWrapper : string -> string -> option string;
  DCID_KEY_FILE : string
}.

Definition MAX_REQUESTS : Z := 50.

Definition _ROUTING_NS_1_0 : string := "http://geofon.gfz-potsdam.de/ns/Routing/1.0/".
Definition _ROUTING_NS_0_1 : string := "http://geofon.gfz-potsdam.de/ns/routing/0.1/".

Definition quoted (s : string) : string := String "034" s +:+ String "034" EmptyString.

Definition of_xml {A : Type} (x : xml A) : M A :=
  match x with
  | Xml a => ret a
  | XmlError => raise (Builtin "XMLSyntaxError")
  end.

(** ** The engine *)

Section Engine.

Context (L : Lib).

(** [request_data]: the two times, then the codes ([request_data[2:]]). *)
Record request_data : Type := {
  starttime : utc L;
  endtime : utc L;
  codes : list string
}.

(** [dict] items of a routing table entry; [Here] is the empty dictionary,
    which stands for the node that answered. *)
Record RouteEntry : Type := {
  priority : Z;
  r_start : utc L;
  r_end : option (utc L);
  r_host : string;
  r_port : Z
}.

Inductive item : Type :=
| Here
| Node (e : RouteEntry).

Definition routing_table : Type := list (string * list RouteEntry).

(** *** Lines in and out *)

Definition _reconnect : M unit :=
  let* c := get_self in
  emit (Connect (host (_client c)) (port (_client c))) >> set_sock true.

Definition _writeln (buffer : string) : M unit := emit (Send buffer).

Definition _readln (value : string) : M string :=
  let* line := read_until in
  let line := Py.strip line in
  if negb (Py.contains value line) then
    raise (ArcLinkException
             ("Timeout waiting for expected " +:+ value +:+ ", got " +:+ line))
  else ret line.

Definition _hello : M unit :=
  _reconnect >>
  _writeln "HELLO" >>
  _readln ")" >>
  _readln "" >>
  let* c := get_self in
  (if String.eqb (password c) "" then _writeln ("USER " +:+ user c)
   else _writeln ("USER " +:+ user c +:+ " " +:+ password c)) >>
  _readln "OK" >>
  _writeln ("INSTITUTION " +:+ institution c) >>
  _readln "OK" >>
  ret tt.

Definition _bye : M unit :=
  _writeln "BYE" >> emit Close >> set_sock false.

(** *** [_request] *)

(** The loop that waits for the request id. *)
Fixpoint status_id (fuel : nat) : M Z :=
  match fuel with
  | O => fun _ => OutOfFuel
  | S n =>
      let* status := _readln "" in
      match Py.int status with
      | Some req_id => ret req_id
      | None =>
          if Py.contains "ERROR" status then
            _bye >> raise (ArcLinkException "Error requesting status id")
          else status_id n
      end
  end.

(** The loop that polls until [ready="true"]. *)
Fixpoint poll (fuel : nat) (req_id : Z) (_loops : Z) (_old_xml_doc : option string) : M string :=
  match fuel with
  | O => fun _ => OutOfFuel
  | S n =>
      _writeln ("STATUS " +:+ Py.fmt_d req_id) >>
      let* xml_doc := _readln "END" in
      if Py.contains ("ready=" +:+ quoted "true") xml_doc then ret xml_doc
      else
        let same := bool_decide (_old_xml_doc = Some xml_doc) in
        let _loops := if same then _loops + 1 else 0 in
        let _old_xml_doc := if same then _old_xml_doc else Some xml_doc in
        if MAX_REQUESTS <? _loops then
          warn "MAX_REQUESTS exceeded - breaking current request loop" >>
          ret xml_doc
        else poll n req_id _loops _old_xml_doc
  end.

Definition err_codes : list string :=
  ["DENIED"; "CANCELLED"; "CANCEL"; "ERROR"; "RETRY"; "WARN"; "UNSET"].

(** The two lines under every [# cleanup]. *)
Definition cleanup (req_id : Z) : M unit :=
  _writeln ("PURGE " +:+ Py.fmt_d req_id) >> _bye.

(** [# check for errors]: the [for] loop and the [if]/[elif] chain. *)
Definition check (req_id : Z) (xml_doc : string) : M unit :=
  match find (fun err_code => Py.contains ("status=" +:+ quoted err_code) xml_doc) err_codes with
  | Some err_code =>
      cleanup req_id >>
      let* msg := of_xml (line_message L (Py.drop_last3 xml_doc)) in
      raise (ArcLinkException (err_code +:+ " " +:+ Py.fmt_s msg))
  | None =>
      if Py.contains ("status=" +:+ quoted "NODATA") xml_doc then
        cleanup req_id >> raise (ArcLinkException "No data available")
      else if Py.contains ("id=" +:+ quoted "NODATA") xml_doc
              || Py.contains ("id=" +:+ quoted "ERROR") xml_doc then
        cleanup req_id >>
        let* msg := of_xml (line_message L (Py.drop_last3 xml_doc)) in
        raise (ArcLinkException (Py.fmt_s msg))
      else if negb (Py.contains "<line content" xml_doc) then
        cleanup req_id >> raise (ArcLinkException "No content")
      else ret tt
  end.

(** [while len(data) < length]: read the body in pieces of at most 4096 bytes. *)
Fixpoint read_body (fuel : nat) (length : Z) (data fd : string) : option (string * string) :=
  if len data <? length then
    match fuel with
    | O => None
    | S n =>
        let (buf, fd) := read (Z.min 4096 (length - len data)) fd in
        read_body n length (data +:+ buf) fd
    end
  else Some (data, fd).

(** [DOWNLOAD] up to the check of the trailer. *)
Definition download (fuel : nat) (req_id : Z) : M string :=
  _writeln ("DOWNLOAD " +:+ Py.fmt_d req_id) >>
  let* fd := makefile in
  let (l, fd) := readline 100 fd in
  let* length := lift "ValueError" (Py.int l) in
  match read_body fuel length EmptyString fd with
  | None => fun _ => OutOfFuel
  | Some (data, fd) =>
      let (buf, _) := readline 100 fd in
      let buf := Py.strip buf in
      if negb (String.eqb buf "END") || negb (len data =? length) then
        raise (Exception "Wrong length!")
      else ret data
  end.

(** [# check for encryption] *)
Definition decrypt (xml_doc data : string) : M string :=
  if Py.contains ("encrypted=" +:+ quoted "true") xml_doc then
    let* dcid := of_xml (volume_dcid L (Py.drop_last3 xml_doc)) in
    fun s =>
      match dcid ≫= (fun d => keystore (self s) (world s) !! d) with
      | Some key => lift "DecryptionError" (SSLWrapper L key data) s
      | None =>
          (warn ("Could not decrypt waveform data for dcid " +:+ Py.fmt_s dcid +:+ ".") >>
           ret data) s
      end
  else ret data.

(** The request line: both times moved outwards by one second. *)
Definition request_line (rd : request_data) : string :=
  formatArcLink L (shift L (starttime rd) (-1)) +:+ " " +:+
  formatArcLink L (shift L (endtime rd) 1) +:+ " " +:+
  String.concat " " (codes rd).

(** Everything up to the release of a successful request. *)
Definition transfer (fuel : nat) (request_type : string) (rd : request_data) : M (string * string) :=
  _hello >>
  _writeln request_type >>
  _writeln (request_line rd) >>
  _writeln "END" >>
  _readln "OK" >>
  let* req_id := status_id fuel in
  let* xml_doc := poll fuel req_id 0 None in
  check req_id xml_doc >>
  let* data := download fuel req_id in
  _writeln ("PURGE " +:+ Py.fmt_d req_id) >>
  _bye >>
  ret (xml_doc, data).

Definition _request (fuel : nat) (request_type : string) (rd : request_data) : M string :=
  let* r := transfer fuel request_type rd in
  decrypt (fst r) (snd r).

(** *** [getRouting] *)

(** [result[id] = value] on a dictionary kept in the order of first insertion. *)
Fixpoint dict_set {V : Type} (k : string) (v : V) (d : list (string * V)) : list (string * V) :=
  match d with
  | [] => [(k, v)]
  | (k', v') :: d' => if String.eqb k' k then (k, v) :: d' else (k', v') :: dict_set k v d'
  end.

(** [d[k]] *)
Fixpoint dict_get {V : Type} (k : string) (d : list (string * V)) : option V :=
  match d with
  | [] => None
  | (k', v) :: d' => if String.eqb k' k then Some v else dict_get k d'
  end.

(** The body of [for node in route.xpath('ns0:arclink', ...)]. *)
Definition arclink_entry (node : string -> option string) : exn + RouteEntry :=
  let priority := default (-1) (node "priority" ≫= Py.int) in
  match UTCDateTime L (node "start") with
  | None => inl (Builtin "TypeError")
  | Some start =>
      let end_ :=
        match node "end" with
        | Some (String c e) => Some <$> UTCDateTime L (Some (String c e))
        | _ => Some None
        end in
      match end_ with
      | None => inl (Builtin "TypeError")
      | Some end_ =>
          match node "address" with
          | None => inl (Builtin "AttributeError")
          | Some address =>
              let address := hd EmptyString (Py.split "," address) in
              let parts := Py.split ":" address in
              match nth_error parts 1 with
              | None => inl (Builtin "IndexError")
              | Some p =>
                  match Py.int (Py.strip p) with
                  | None => inl (Builtin "ValueError")
                  | Some port =>
                      inr {| priority := priority; r_start := start; r_end := end_;
                             r_host := Py.strip (hd EmptyString parts); r_port := port |}
                  end
              end
          end
      end
  end.

Fixpoint arclink_entries (nodes : list (string -> option string)) : exn + list RouteEntry :=
  match nodes with
  | [] => inr []
  | node :: rest =>
      match arclink_entry node with
      | inl e => inl e
      | inr temp =>
          match arclink_entries rest with
          | inl e => inl e
          | inr l => inr (temp :: l)
          end
      end
  end.

(** The key of a route: networks and stations only in schema 0.1. *)
Definition route_id (xml_ns : string) (route : RouteElem) : exn + string :=
  if String.eqb xml_ns _ROUTING_NS_0_1 then
    match rget route "net_code", rget route "sta_code" with
    | Some n, Some s => inr (n +:+ "." +:+ s +:+ "..")
    | _, _ => inl (Builtin "TypeError")
    end
  else
    match rget route "networkCode", rget route "stationCode",
          rget route "locationCode", rget route "streamCode" with
    | Some n, Some s, Some l, Some c => inr (n +:+ "." +:+ s +:+ "." +:+ l +:+ "." +:+ c)
    | _, _, _, _ => inl (Builtin "TypeError")
    end.

(** [# convert into dictionary] *)
Fixpoint routing_dict (xml_ns : string) (routes : list RouteElem) (result : routing_table) : exn + routing_table :=
  match routes with
  | [] => inr result
  | route :: rest =>
      match route_id xml_ns route with
      | inl e => inl e
      | inr id =>
          match arclink_entries (arclinks route xml_ns) with
          | inl e => inl e
          | inr l => routing_dict xml_ns rest (dict_set id l result)
          end
      end
  end.

Definition of_sum {A : Type} (r : exn + A) : M A :=
  match r with
  | inl e => raise e
  | inr a => ret a
  end.

(** [getRouting]; [fetch] is [self._fetch].  The text of the unknown name
    spaces is left out of the message. *)
Definition getRouting (fetch : string -> request_data -> bool -> M string)
    (network station : string) (starttime endtime : utc L)
    (modified_after : option (utc L)) : M routing_table :=
  let rtype := "REQUEST ROUTING " in
  let rtype :=
    match modified_after with
    | Some t => rtype +:+ "modified_after=" +:+ formatArcLink L t +:+ " "
    | None => rtype
    end in
  let rdata := {| starttime := starttime; endtime := endtime; codes := [network; station] |} in
  let* result := fetch rtype rdata false in
  let* xml_doc := of_xml (etree_fromstring L result) in
  if bool_decide (_ROUTING_NS_1_0 ∈ nsmap_values xml_doc) then
    of_sum (routing_dict _ROUTING_NS_1_0 (route_elems xml_doc _ROUTING_NS_1_0) [])
  else if bool_decide (_ROUTING_NS_0_1 ∈ nsmap_values xml_doc) then
    of_sum (routing_dict _ROUTING_NS_0_1 (route_elems xml_doc _ROUTING_NS_0_1) [])
  else raise (ArcLinkException "Unknown routing namespace").

(** *** [_findRoute] *)

(** The condition under which a key is passed over for one of its parts:
    [parts[i] and sel != '*' and not fnmatch(parts[i], sel)].  The pattern is
    compiled only when the first two tests have passed. *)
Definition skips (part sel : string) : exn + bool :=
  if negb (String.eqb part "") && negb (String.eqb sel "*") then
    match Fnmatch.fnmatch part sel with
    | Some b => inr (negb b)
    | None => inl (Builtin "re.error")
    end
  else inr false.

(** One turn of [for key in routes]: [inr false] is [continue]. *)
Definition key_fits (key net sta cha loc : string) : exn + bool :=
  let parts := Py.split "." key in
  match nth_error parts 0 with
  | None => inl (Builtin "IndexError")
  | Some p0 =>
      match skips p0 net with
      | inl e => inl e
      | inr true => inr false
      | inr false =>
          match nth_error parts 1 with
          | None => inl (Builtin "IndexError")
          | Some p1 =>
              match skips p1 sta with
              | inl e => inl e
              | inr true => inr false
              | inr false =>
                  match nth_error parts 2 with
                  | None => inl (Builtin "IndexError")
                  | Some p2 =>
                      match skips p2 loc with
                      | inl e => inl e
                      | inr true => inr false
                      | inr false =>
                          match nth_error parts 3 with
                          | None => inl (Builtin "IndexError")
                          | Some p3 =>
                              match skips p3 cha with
                              | inl e => inl e
                              | inr true => inr false
                              | inr false => inr true
                              end
                          end
                      end
                  end
              end
          end
      end
  end.

Fixpoint fitting_keys (ks : list string) (net sta cha loc : string) : exn + list string :=
  match ks with
  | [] => inr []
  | key :: rest =>
      match key_fits key net sta cha loc with
      | inl e => inl e
      | inr b =>
          match fitting_keys rest net sta cha loc with
          | inl e => inl e
          | inr keys => inr (if b then key :: keys else keys)
          end
      end
  end.

(** [# merge all] *)
Fixpoint merge (routes : routing_table) (keys : list string) : exn + list item :=
  match keys with
  | [] => inr []
  | key :: rest =>
      match dict_get key routes with
      | None => inl (Builtin "KeyError")
      | Some temp =>
          match merge routes rest with
          | inl e => inl e
          | inr out => inr ((match temp with [] => [Here] | _ => map Node temp end) ++ out)%list
          end
      end
  end.

(** [x.get('priority', 1000)] *)
Definition sort_key (x : item) : Z :=
  match x with
  | Here => 1000
  | Node e => priority e
  end.

(** [list.sort] with a comparison function is stable: an element stays in
    front of the later ones that compare equal. *)
Fixpoint insert_sorted (x : item) (l : list item) : list item :=
  match l with
  | [] => [x]
  | y :: l' => if sort_key x <=? sort_key y then x :: y :: l' else y :: insert_sorted x l'
  end.

Fixpoint sort (l : list item) : list item :=
  match l with
  | [] => []
  | x :: l' => insert_sorted x (sort l')
  end.

(** [_findRoute]: [None] is the [False] returned when no key fits. *)
Definition _findRoute (routes : routing_table) (rd : request_data) : exn + option (list item) :=
  match firstn 4 (codes rd ++ [EmptyString; EmptyString])%list with
  | [net; sta; cha; loc] =>
      match fitting_keys (map fst routes) net sta cha loc with
      | inl e => inl e
      | inr [] => inr None
      | inr keys =>
          match merge routes keys with
          | inl e => inl e
          | inr out => inr (Some (sort out))
          end
      end
  | _ => inl (Builtin "ValueError")
  end.

(** *** [_fetch] *)

Definition no_route {A : Type} (rd : request_data) : M A :=
  let* net := lift "IndexError" (nth_error (codes rd) 0) in
  let* sta := lift "IndexError" (nth_error (codes rd) 1) in
  raise (ArcLinkException ("Could not find route to " +:+ net +:+ "." +:+ sta)).

Fixpoint _fetch (fuel : nat) (request_type : string) (rd : request_data) (route : bool) : M string :=
  if negb route then _request fuel request_type rd
  else
    match fuel with
    | O => fun _ => OutOfFuel
    | S n =>
        let* network := lift "IndexError" (nth_error (codes rd) 0) in
        let* station := lift "IndexError" (nth_error (codes rd) 1) in
        let* routes := getRouting (_fetch n) network station (starttime rd) (endtime rd) None in
        let* table := of_sum (_findRoute routes rd) in
        match table with
        | None | Some [] =>
            let* c := get_self in
            if negb (String.eqb (host (_client c)) (init_host c))
               && negb (port (_client c) =? init_port c) then
              set_endpoint (init_host c) (init_port c) >>
              _fetch n request_type rd route
            else no_route rd
        | Some (item :: _) =>
            match item with
            | Here => _request fuel request_type rd
            | Node e =>
                let* c := get_self in
                if String.eqb (r_host e) (host (_client c))
                   && (r_port e =? port (_client c)) then
                  _request fuel request_type rd
                else
                  set_endpoint (r_host e) (r_port e) >>
                  _reconnect >>
                  _request fuel request_type rd
            end
        end
    end.

(** *** [getQC] *)

Inductive pyval : Type :=
| PyNone
| PyBool (b : bool)
| PyInt (n : Z)
| PyStr (s : string).

(** [v is True] *)
Definition is_True (v : pyval) : bool :=
  match v with
  | PyBool true => true
  | _ => false
  end.

Definition getQC_rtype (parameters : string) (outages logs : pyval) : string :=
  let rtype := "REQUEST QC" in
  let rtype := if is_True outages then rtype +:+ " outages=true" else rtype +:+ " outages=false" in
  let rtype := if is_True logs then rtype +:+ " logs=false" else rtype +:+ " logs=false" in
  rtype +:+ " parameters=" +:+ parameters.

Definition getQC (fuel : nat) (network station location channel : string)
    (starttime endtime : utc L) (parameters : string) (outages logs : pyval) : M string :=
  let rtype := getQC_rtype parameters outages logs in
  let rdata := {| starttime := starttime; endtime := endtime;
                  codes := [network; station; channel; location] |} in
  _fetch fuel rtype rdata false.

(** *** [Client.__init__] *)

(** The dictionary that [dcid_keys={}] creates once, when the [def] statement
    is executed. *)
Definition DEFAULT_DCID_KEYS : nat := 0%nat.

Record init_args : Type := {
  arg_host : string;
  arg_port : Z;
  arg_user : string;
  arg_password : string;
  arg_institution : string;
  arg_dcid_keys : option nat;
  arg_dcid_key_file : option string
}.

(** [self.dcid_keys[key] = value] *)
Definition store_key (key value : string) : M unit :=
  fun s =>
    Ret tt {| self := self s;
              world := set_heap (<[dcid_keys (self s) := <[key := value]> (keystore (self s) (world s))]>
                                   (heap (world s))) (world s) |}.

(** [for line in lines] *)
Fixpoint load_keys (lines : list string) : M unit :=
  match lines with
  | [] => ret tt
  | line :: rest =>
      match Py.split1 "=" line with
      | [key; value] =>
          let key := Py.strip key in
          let* c := get_self in
          (fun s =>
             if bool_decide (is_Some (keystore c (world s) !! key)) then Ret tt s
             else store_key key (Py.strip value) s) >>
          load_keys rest
      | _ => raise (Builtin "ValueError")
      end
  end.

Definition key_file_of (a : init_args) (w : World) : option string :=
  match arg_dcid_key_file a with
  | Some (String c f) => Some (String c f)
  | _ =>
      match disk w !! DCID_KEY_FILE L with
      | Some _ => Some (DCID_KEY_FILE L)
      | None => None
      end
  end.

Definition new_client (a : init_args) : Client :=
  {| user := arg_user a; password := arg_password a; institution := arg_institution a;
     init_host := arg_host a; init_port := arg_port a;
     dcid_keys := default DEFAULT_DCID_KEYS (arg_dcid_keys a);
     _client := {| host := arg_host a; port := arg_port a; sock := true |} |}.

Definition __init__ (a : init_args) (w : World) : outcome unit :=
  (emit (Connect (arg_host a) (arg_port a)) >>
   _hello >>
   fun s =>
     match key_file_of a (world s) with
     | None => Ret tt s
     | Some dcid_key_file =>
         match disk (world s) !! dcid_key_file with
         | Some (Lines lines) => load_keys lines s
         | _ => Ret tt s
         end
     end) {| self := new_client a; world := w |}.

End Engine.

(** ** A test bench

    Stand-ins for the external modules and a scripted server, used to run the
    engine on concrete sessions. *)

Module Demo.

Definition attrs (l : list (string * string)) : string -> option string :=
  fun k => dict_get k l.

Definition no_routes : RoutingDoc :=
  {| nsmap_values := [_ROUTING_NS_1_0]; route_elems := fun _ => [] |}.

Definition lib : Lib :=
  {| utc := Z;
     shift := Z.add;
     formatArcLink := pretty;
     UTCDateTime := fun o => o ≫= Py.int;
     line_message := fun _ => Xml (Some "access denied");
     volume_dcid := fun doc => if Py.contains "BIA" doc then Xml (Some "BIA") else Xml (Some "ODC");
     etree_fromstring := fun _ => Xml no_routes;
     SSLWrapper := fun key data => Some ("plain(" +:+ key +:+ "," +:+ data +:+ ")");
     DCID_KEY_FILE := "/home/obspy/dcidpasswords.txt" |}.

Definition nl (s : string) : string := s +:+ CRLF.

(** What the server says during [_hello] and up to the request id. *)
Definition greeting (id : string) : list string :=
  [nl "ArcLink v1.2 (2011.046)"; nl "GFZ"; nl "OK"; nl "OK"; nl "OK"; nl id].

Definition status_doc (ready attributes : string) : string :=
  nl ("<arclink><request ready=" +:+ quoted ready +:+ "><volume " +:+ attributes +:+
      "><line " +:+ "content=" +:+ quoted "GE APE" +:+ " status=" +:+ quoted "OK" +:+
      "/></volume></request></arclink>END").

Definition waiting : string :=
  nl ("<arclink><request ready=" +:+ quoted "false" +:+ "></request></arclink>END").

Definition client (h : string) (p : Z) : Client :=
  {| user := "test@obspy.org"; password := ""; institution := "Anonymous";
     init_host := "webdc.eu"; init_port := 18002; dcid_keys := DEFAULT_DCID_KEYS;
     _client := {| host := h; port := p; sock := false |} |}.

Definition server (rs fs : list string) (keys : gmap string string) : World :=
  {| log := []; replies := rs; streams := fs; warned := [];
     heap := {[ DEFAULT_DCID_KEYS := keys ]}; disk := ∅ |}.

Definition rdata : request_data lib :=
  Build_request_data lib 100 200 ["GE"; "APE"; "BHZ"; ""].

(** A waveform request whose download ends in a wrong trailer. *)
Definition bad_trailer : State :=
  {| self := client "webdc.eu" 18002;
     world := server (greeting "7" ++ [status_doc "true" ""])%list
                     ["3" +:+ CRLF +:+ "abcXYZ" +:+ CRLF] ∅ |}.

(** An encrypted volume of the data centre [BIA]. *)
Definition encrypted (keys : gmap string string) : State :=
  {| self := client "webdc.eu" 18002;
     world := server (greeting "7" ++
                      [waiting;
                       status_doc "true" ("encrypted=" +:+ quoted "true" +:+
                                          " dcid=" +:+ quoted "BIA")])%list
                     ["3" +:+ CRLF +:+ "abcEND" +:+ CRLF] keys |}.

Definition waveform : string := "REQUEST WAVEFORM format=MSEED".

(** A client that has been sent to another node, and a network in which
    every routing request is answered by an empty table; the answers of two
    request cycles are at hand. *)
Definition moved (h : string) (p : Z) : State :=
  {| self := client h p;
     world := server (greeting "7" ++ [status_doc "true" ""] ++
                      greeting "8" ++ [status_doc "true" ""])%list
                     ["3" +:+ CRLF +:+ "<r>END" +:+ CRLF; "3" +:+ CRLF +:+ "<r>END" +:+ CRLF] ∅ |}.

(** A route of schema 1.0 with two nodes; the second has no priority. *)
Definition first_node : string -> option string :=
  attrs [("priority", "1"); ("start", "0"); ("address", "h1.example.org:18001")].

Definition second_node : string -> option string :=
  attrs [("start", "0"); ("address", "h2.example.org:18002")].

Definition ape_route : RouteElem :=
  {| rget := attrs [("networkCode", "GE"); ("stationCode", "APE");
                    ("locationCode", ""); ("streamCode", "")];
     arclinks := fun _ => [first_node; second_node] |}.

(** Constructor arguments: everything left at its default but the key file. *)
Definition args (key_file : option string) : init_args :=
  {| arg_host := "webdc.eu"; arg_port := 18002; arg_user := "ObsPy client";
     arg_password := ""; arg_institution := "Anonymous";
     arg_dcid_keys := None; arg_dcid_key_file := key_file |}.

(** A machine with a key file in the home directory and a server that greets
    two clients. *)
Definition home : World :=
  {| log := [];
     replies := [nl "ArcLink v1.2 (2011.046)"; nl "GFZ"; nl "OK"; nl "OK";
                 nl "ArcLink v1.2 (2011.046)"; nl "GFZ"; nl "OK"; nl "OK"];
     streams := []; warned := [];
     heap := {[ DEFAULT_DCID_KEYS := ∅ ]};
     disk := {[ "/home/obspy/dcidpasswords.txt" :=
                  Lines ["BIA=OfH9ekhi" +:+ String LF ""; "ODC = abc" +:+ String LF ""] ]} |}.

(** The state in which a run ended. *)
Definition final {A : Type} (o : outcome A) : State :=
  match o with
  | Ret _ s => s
  | Raise _ s => s
  | OutOfFuel => {| self := client "" 0; world := server [] [] ∅ |}
  end.

Definition sends (w : World) : list string :=
  flat_map (fun e => match e with Send l => [l] | _ => [] end) (log w).

Definition connects (w : World) : list (string * Z) :=
  flat_map (fun e => match e with Connect h p => [(h, p)] | _ => [] end) (log w).

End Demo.

(** ** Notions used in the statements *)

(** [after m P]: whenever [m] returns or raises, [P] relates the state before
    to the state at that point. *)
Definition after {A : Type} (m : M A) (P : State -> State -> Prop) : Prop :=
  forall s,
    match m s with
    | Ret _ s' => P s s'
    | Raise _ s' => P s s'
    | OutOfFuel => True
    end.

(** The log only grows. *)
Definition grows (s s' : State) : Prop :=
  exists l, log (world s') = (log (world s) ++ l)%list.

(** The client still points at the same node, with the same configuration. *)
Definition same_target (s s' : State) : Prop :=
  host (_client (self s')) = host (_client (self s)) /\
  port (_client (self s')) = port (_client (self s)) /\
  init_host (self s') = init_host (self s) /\
  init_port (self s') = init_port (self s) /\
  dcid_keys (self s') = dcid_keys (self s).

Definition status_cmd (req_id : Z) : event := Send ("STATUS " +:+ Py.fmt_d req_id).

(** The state after [k] rounds of [STATUS] answered by the oracle. *)
Definition polled (k : nat) (req_id : Z) (s : State) : State :=
  {| self := self s;
     world := set_replies (drop k (replies (world s)))
                (set_log (log (world s) ++ repeat (status_cmd req_id) k)%list (world s)) |}.

Definition stall_warning : string := "MAX_REQUESTS exceeded - breaking current request loop".

Definition warned_with (msg : string) (s : State) : State :=
  {| self := self s; world := set_warned (warned (world s) ++ [msg])%list (world s) |}.

(** A status document that ends in [END] and is not marked ready. *)
Definition not_ready (d : string) : Prop :=
  Py.contains "END" (Py.strip d) = true /\
  Py.contains ("ready=" +:+ quoted "true") (Py.strip d) = false.

(** The state once [DOWNLOAD] has been sent and the file object made. *)
Definition downloading (req_id : Z) (s : State) : State :=
  {| self := self s;
     world := set_streams (tl (streams (world s)))
                (set_log (log (world s) ++ [Send ("DOWNLOAD " +:+ Py.fmt_d req_id)])%list (world s)) |}.

(** The state after the two lines of a [# cleanup] and [_bye]. *)
Definition released (req_id : Z) (s : State) : State :=
  {| self := set_telnet {| host := host (_client (self s)); port := port (_client (self s));
                           sock := false |} (self s);
     world := set_log (log (world s) ++
                       [Send ("PURGE " +:+ Py.fmt_d req_id); Send "BYE"; Close])%list (world s) |}.

(** A complete line, line feed included, of at most [n] bytes. *)
Fixpoint line_within (n : nat) (l : string) : bool :=
  match n, l with
  | S n', String c r =>
      if Ascii.eqb c LF then String.eqb r EmptyString else line_within n' r
  | _, _ => false
  end.

(** Heap and disk are untouched. *)
Definition same_store (s s' : State) : Prop :=
  heap (world s') = heap (world s) /\ disk (world s') = disk (world s).

(** What a key file says about the archive id [k]: the value of the first
    line whose key is [k]. *)
Fixpoint file_entry (k : string) (lines : list string) : option string :=
  match lines with
  | [] => None
  | line :: rest =>
      match Py.split1 "=" line with
      | [key; value] =>
          if String.eqb (Py.strip key) k then Some (Py.strip value) else file_entry k rest
      | _ => None
      end
  end.

(** The state after [self._client.host] and [port] have been set back to
    the node the client was created with. *)
Definition at_origin (s : State) : State :=
  {| self := set_telnet {| host := init_host (self s); port := init_port (self s);
                           sock := sock (_client (self s)) |} (self s);
     world := world s |}.

(** A relation that all the steps of a request respect. *)
Record stable (P : State -> State -> Prop) : Prop := {
  st_refl : forall s, P s s;
  st_trans : forall s1 s2 s3, P s1 s2 -> P s2 s3 -> P s1 s3;
  st_emit : forall e, after (emit e) P;
  st_sock : forall b, after (set_sock b) P;
  st_warn : forall m, after (warn m) P;
  st_read : after read_until P;
  st_file : after makefile P
}.

(** Unfold [+:+] on a string whose first byte is known. *)
Ltac sapp :=
  repeat match goal with
         | |- context [String ?c ?a +:+ ?b] =>
             change (String c a +:+ b) with (String c (a +:+ b))
         | |- context [EmptyString +:+ ?b] => change (EmptyString +:+ b) with b
         end.

(** No white space in a sentinel. *)
Fixpoint no_space (v : string) : bool :=
  match v with
  | EmptyString => true
  | String c r => negb (Py.is_space c) && no_space r
  end.

(** ** States named in the further properties *)

(** One more event in the log. *)
Definition logged (e : event) (s : State) : State :=
  {| self := self s; world := set_log (log (world s) ++ [e])%list (world s) |}.

(** One answer of the oracle consumed. *)
Definition popped (s : State) : State :=
  {| self := self s; world := set_replies (tl (replies (world s))) (world s) |}.

(** The [USER] line of the handshake. *)
Definition user_line (c : Client) : string :=
  if String.eqb (password c) "" then "USER " +:+ user c
  else "USER " +:+ user c +:+ " " +:+ password c.

(** The state after a handshake that went through. *)
Definition handshaken (s : State) : State :=
  {| self := set_telnet {| host := host (_client (self s)); port := port (_client (self s));
                           sock := true |} (self s);
     world := set_replies (drop 4 (replies (world s)))
                (set_log (log (world s) ++
                          [Connect (host (_client (self s))) (port (_client (self s)));
                           Send "HELLO"; Send (user_line (self s));
                           Send ("INSTITUTION " +:+ institution (self s))])%list (world s)) |}.

(** The [i]-th answer still to come, stripped. *)
Definition answer (i : nat) (s : State) : string :=
  Py.strip (nth i (replies (world s)) EmptyString).

Definition timeout_msg (value line : string) : exn :=
  ArcLinkException ("Timeout waiting for expected " +:+ value +:+ ", got " +:+ line).

(** The socket marked open or closed. *)
Definition socked (b : bool) (s : State) : State :=
  {| self := set_telnet {| host := host (_client (self s)); port := port (_client (self s));
                           sock := b |} (self s);
     world := world s |}.

(** The state in which a handshake stopped: [sent] of its four events are in
    the log and [consumed] answers have been read. *)
Definition handshake_cut (sent consumed : nat) (s : State) : State :=
  {| self := set_telnet {| host := host (_client (self s)); port := port (_client (self s));
                           sock := true |} (self s);
     world := set_replies (drop consumed (replies (world s)))
                (set_log (log (world s) ++
                          firstn sent
                            [Connect (host (_client (self s))) (port (_client (self s)));
                             Send "HELLO"; Send (user_line (self s));
                             Send ("INSTITUTION " +:+ institution (self s))])%list (world s)) |}.

(** [k] answers of the oracle consumed. *)
Definition consumed (k : nat) (s : State) : State :=
  {| self := self s; world := set_replies (drop k (replies (world s))) (world s) |}.

(** The state after [_bye]. *)
Definition said_bye (s : State) : State :=
  socked false (logged Close (logged (Send "BYE") s)).

(** A line that is neither a request id nor an error report. *)
Definition is_noise (line : string) : bool :=
  match Py.int line with
  | Some _ => false
  | None => negb (Py.contains "ERROR" line)
  end.

(** A status document that the check lets through: no terminal status, no
    [NODATA], no error entry, and a line with content. *)
Definition passes (xml_doc : string) : bool :=
  match find (fun err_code => Py.contains ("status=" +:+ quoted err_code) xml_doc) err_codes with
  | Some _ => false
  | None =>
      negb (Py.contains ("status=" +:+ quoted "NODATA") xml_doc)
      && negb (Py.contains ("id=" +:+ quoted "NODATA") xml_doc
               || Py.contains ("id=" +:+ quoted "ERROR") xml_doc)
      && Py.contains "<line content" xml_doc
  end.

(** The state after a request that ran to its end: handshake, request,
    one round of [STATUS], download and release. *)
Definition completed (request_type line : string) (req_id : Z) (s : State) : State :=
  {| self := set_telnet {| host := host (_client (self s)); port := port (_client (self s));
                           sock := false |} (self s);
     world := set_streams (tl (streams (world s)))
                (set_replies (drop 7 (replies (world s)))
                   (set_log (log (world s) ++
                             [Connect (host (_client (self s))) (port (_client (self s)));
                              Send "HELLO"; Send (user_line (self s));
                              Send ("INSTITUTION " +:+ institution (self s));
                              Send request_type; Send line; Send "END";
                              Send ("STATUS " +:+ Py.fmt_d req_id);
                              Send ("DOWNLOAD " +:+ Py.fmt_d req_id);
                              Send ("PURGE " +:+ Py.fmt_d req_id);
                              Send "BYE"; Close])%list (world s))) |}.

(** The state after [_fetch] has pointed the client at another node and
    opened the connection. *)
Definition retargeted (h : string) (p : Z) (s : State) : State :=
  {| self := set_telnet {| host := h; port := p; sock := true |} (self s);
     world := set_log (log (world s) ++ [Connect h p])%list (world s) |}.

(** The byte [c] does not occur in [s]. *)
Fixpoint free_of (c : ascii) (s : string) : bool :=
  match s with
  | EmptyString => true
  | String x r => negb (Ascii.eqb x c) && free_of c r
  end.

(** A second test bench, with library functions as small as they can be: every
    routing request is answered by the document given, and every date is
    read as the same moment.  [lib] answers with the route of
    [Demo.ape_route]. *)
Module Routed.

Definition doc : RoutingDoc :=
  {| nsmap_values := [_ROUTING_NS_1_0]; route_elems := fun _ => [Demo.ape_route] |}.

Definition answering (d : RoutingDoc) : Lib :=
  {| utc := Z;
     shift := Z.add;
     formatArcLink := fun _ => "2009,8,20,4,3,12";
     UTCDateTime := fun o => match o with Some _ => Some 0 | None => None end;
     line_message := fun _ => Xml None;
     volume_dcid := fun _ => Xml None;
     etree_fromstring := fun _ => Xml d;
     SSLWrapper := fun _ data => Some data;
     DCID_KEY_FILE := "dcidpasswords.txt" |}.

Definition lib : Lib := answering doc.

Definition rdata : request_data lib :=
  Build_request_data lib 100 200 ["GE"; "APE"; "BHZ"; ""].

Definition first_entry : RouteEntry lib :=
  Build_RouteEntry lib 1 0 None "h1.example.org" 18001.

Definition second_entry : RouteEntry lib :=
  Build_RouteEntry lib (-1) 0 None "h2.example.org" 18002.

(** The same with an empty routing table for every request. *)
Definition nowhere : Lib := answering Demo.no_routes.

Definition nowhere_rdata : request_data nowhere :=
  Build_request_data nowhere 100 200 ["GE"; "APE"; "BHZ"; ""].

End Routed.

(** ** [saveWaveform] *)

(** [s.endswith(suffix)]: a tail of [s] is [suffix]. *)
Fixpoint endswith (s suffix : string) : bool :=
  String.eqb s suffix ||
  match s with
  | EmptyString => false
  | String _ r => endswith r suffix
  end.

(** The argument [filename]: a string, an open file, or anything else. *)
Inductive file_arg : Type :=
| FileName (name : string)
| FileHandle (fd : nat)
| NoFile.

(** What the last lines of [saveWaveform] do: [fh.write(data)], on the file
    opened under the name or on the handle given. *)
Record written : Type := {
  w_file : file_arg;
  w_data : string
}.

Section Waveform.

Context (L : Lib).

(** The module [bz2] when it can be imported: its function [decompress],
    which fails on data that is not a bzip2 stream. *)
Context (bz2 : option (string -> option string)).

(** [filename += suffix] unless the name ends with it; a handle stays. *)
Definition with_suffix (filename : file_arg) (suffix : string) : file_arg :=
  match filename with
  | FileName f => if negb (endswith f suffix) then FileName (f +:+ suffix) else FileName f
  | other => other
  end.

Definition saveWaveform (fuel : nat) (filename : file_arg)
    (network station location channel : string) (starttime endtime : utc L)
    (format : string) (compressed route unpack : bool) : M written :=
  match filename with
  | NoFile => raise (Builtin "TypeError")
  | _ =>
      let rtype := "REQUEST WAVEFORM format=" +:+ format in
      let compressed := compressed && bool_decide (is_Some bz2) in
      let rtype := if compressed then rtype +:+ " compression=bzip2" else rtype in
      let rdata := {| starttime := starttime; endtime := endtime;
                      codes := [network; station; channel; location] |} in
      let* data := _fetch L fuel rtype rdata route in
      if String.prefix "Salted__" data then
        let filename :=
          if compressed then with_suffix filename ".bz2.openssl"
          else with_suffix filename ".openssl" in
        (if unpack then warn "Cannot unpack encrypted waveforms." else ret tt) >>
        ret {| w_file := filename; w_data := data |}
      else if compressed then
        if unpack then
          match bz2 with
          | Some decompress =>
              let* data := lift "IOError" (decompress data) in
              ret {| w_file := filename; w_data := data |}
          | None => raise (Builtin "NameError")
          end
        else ret {| w_file := with_suffix filename ".bz2"; w_data := data |}
      else ret {| w_file := filename; w_data := data |}
  end.

End Waveform.

(** The request type of a waveform request. *)
Definition waveform_rtype (format : string) (packed : bool) : string :=
  if packed then ("REQUEST WAVEFORM format=" +:+ format) +:+ " compression=bzip2"
  else "REQUEST WAVEFORM format=" +:+ format.

(** A key store of the heap and a key file for it. *)
Definition keyed (w : World) (keys : gmap string string) : World :=
  set_heap (<[DEFAULT_DCID_KEYS := keys]> (heap w)) w.

(** Equality of two states given field by field. *)
Ltac state_eq :=
  cbv beta iota delta
    [handshaken handshake_cut popped logged socked set_telnet set_log set_replies
     set_streams set_warned user_line
     self world log replies streams warned heap disk _client host port sock
     user password institution init_host init_port dcid_keys];
  repeat rewrite <- app_assoc; cbv beta iota delta [app firstn].

(** Unfold the named states down to the record fields. *)
Ltac states_open :=
  cbv beta iota delta
    [completed said_bye downloading released polled warned_with consumed
     handshaken handshake_cut popped logged socked status_cmd set_telnet set_log
     set_replies set_streams set_warned user_line
     self world log replies streams warned heap disk _client host port sock
     user password institution init_host init_port dcid_keys].

(** ** The rule of the route search, in the words of its description *)

(** A part of a key fits a field of the selector: the part is empty, or the
    field is [*], or the part matches the field read as a shell pattern. *)
Definition part_fits (part sel : string) : bool :=
  String.eqb part "" || String.eqb sel "*" ||
  match Fnmatch.fnmatch part sel with
  | Some true => true
  | _ => false
  end.

(** A key matches when its four parts fit network, station, location and
    channel, in this order. *)
Definition key_matches (key net sta cha loc : string) : bool :=
  match Py.split "." key with
  | p0 :: p1 :: p2 :: p3 :: _ =>
      part_fits p0 net && part_fits p1 sta && part_fits p2 loc && part_fits p3 cha
  | _ => false
  end.

(** What an entry of the table gives to the candidates: its nodes, or the
    mark of the node that answered when it has none. *)
Definition items_of (L : Lib) (entries : list (RouteEntry L)) : list (item L) :=
  match entries with
  | [] => [Here L]
  | _ => map (Node L) entries
  end.

(** ** The stall counter, in the words of its description *)

(** The answers to the first [k] rounds of [STATUS], the latest first. *)
Fixpoint heard (k : nat) (s : State) : list string :=
  match k with
  | O => []
  | S k' => answer k' s :: heard k' s
  end.

(** The number of documents immediately before [doc] that are equal to it;
    [before] has the latest first. *)
Fixpoint repeats (doc : string) (before : list string) : Z :=
  match before with
  | d :: rest => if String.eqb d doc then 1 + repeats doc rest else 0
  | [] => 0
  end.

(** The variables of the polling loop after the documents [before]. *)
Definition tracks (before : list string) (j : Z) (old : option string) : Prop :=
  match before with
  | [] => old = None /\ j = 0
  | d :: rest => old = Some d /\ j = repeats d rest
  end.

(** A round of [STATUS] after which the loop goes on: the answer is complete,
    not ready, and has not been repeated too often. *)
Definition goes_on (before : list string) (s : State) (i : nat) : Prop :=
  Py.contains "END" (answer i s) = true /\
  Py.contains ("ready=" +:+ quoted "true") (answer i s) = false /\
  repeats (answer i s) (heard i s ++ before) <= MAX_REQUESTS.

(** [_request] from the request line on, after the handshake and the line
    with the request type. *)
Definition after_type (L : Lib) (fuel : nat) (rd : request_data L) : M string :=
  let* r := (_writeln (request_line L rd) >>
             _writeln "END" >>
             _readln "OK" >>
             let* req_id := status_id fuel in
             let* xml_doc := poll fuel req_id 0 None in
             check L req_id xml_doc >>
             let* data := download fuel req_id in
             _writeln ("PURGE " +:+ Py.fmt_d req_id) >>
             _bye >>
             ret (xml_doc, data)) in
  decrypt L (fst r) (snd r).

(** * Properties *)

(** ** Strings *)

Lemma prefix_app (n b : string) : String.prefix n (n +:+ b) = true.
Proof.
  induction n as [|c n IH]; simpl.
  - destruct b; reflexivity.
  - destruct (ascii_dec c c); [exact IH | congruence].
Qed.

Lemma prefix_inv (n h : string) : String.prefix n h = true -> exists b, h = n +:+ b.
Proof.
  revert h. induction n as [|c n IH]; intros h H.
  - exists h. reflexivity.
  - destruct h as [|c' h]; simpl in H; [discriminate|].
    destruct (ascii_dec c c') as [->|]; [|discriminate].
    destruct (IH _ H) as [b ->]. exists b. reflexivity.
Qed.

Lemma contains_prefix (n h : string) : String.prefix n h = true -> Py.contains n h = true.
Proof. intros H. destruct h; cbn [Py.contains]; rewrite H; reflexivity. Qed.

Lemma contains_intro (n a b : string) : Py.contains n (a +:+ n +:+ b) = true.
Proof.
  induction a as [|c a IH].
  - change (EmptyString +:+ n +:+ b) with (n +:+ b).
    apply contains_prefix, prefix_app.
  - change (String c a +:+ n +:+ b) with (String c (a +:+ n +:+ b)).
    cbn [Py.contains]. rewrite IH. apply orb_true_r.
Qed.

Lemma contains_inv (n h : string) :
  Py.contains n h = true -> exists a b, h = a +:+ n +:+ b.
Proof.
  induction h as [|c h IH]; cbn [Py.contains]; intros H.
  - apply orb_true_iff in H as [H|H]; [|discriminate].
    destruct (prefix_inv _ _ H) as [b Hb]. exists EmptyString, b. exact Hb.
  - apply orb_true_iff in H as [H|H].
    + destruct (prefix_inv _ _ H) as [b Hb]. exists EmptyString, b. exact Hb.
    + destruct (IH H) as (a & b & ->). exists (String c a), b. reflexivity.
Qed.

Lemma contains_spec (n h : string) :
  Py.contains n h = true <-> exists a b, h = a +:+ n +:+ b.
Proof.
  split; [apply contains_inv|]. intros (a & b & ->). apply contains_intro.
Qed.

(** Stripping does not hide or reveal a sentinel without white space. *)
Lemma prefix_cons (c c' : ascii) (v s : string) :
  String.prefix (String c' v) (String c s) = Ascii.eqb c' c && String.prefix v s.
Proof.
  simpl. destruct (ascii_dec c' c) as [->|N].
  - rewrite Ascii.eqb_refl. reflexivity.
  - apply Ascii.eqb_neq in N. rewrite N. reflexivity.
Qed.

Lemma contains_lstrip (v s : string) :
  no_space v = true -> Py.contains v (Py.lstrip s) = Py.contains v s.
Proof.
  intros Hv. destruct v as [|c' v].
  - destruct (Py.lstrip s), s; reflexivity.
  - induction s as [|c s IH]; [reflexivity|]. simpl Py.lstrip.
    destruct (Py.is_space c) eqn:E; [|reflexivity].
    rewrite IH. cbn [Py.contains]. rewrite prefix_cons.
    cbn [no_space] in Hv. apply andb_true_iff in Hv as [Hc _].
    destruct (Ascii.eqb c' c) eqn:Ec; [|reflexivity].
    apply Ascii.eqb_eq in Ec. subst c'. rewrite E in Hc. discriminate.
Qed.

Lemma prefix_rstrip (v s : string) :
  no_space v = true -> String.prefix v (Py.rstrip s) = String.prefix v s.
Proof.
  revert v. induction s as [|c s IH]; intros v Hv; [reflexivity|].
  destruct v as [|c' v]; [destruct (Py.rstrip (String c s)); reflexivity|].
  cbn [no_space] in Hv. apply andb_true_iff in Hv as [Hc Hv].
  rewrite prefix_cons, <- (IH v Hv). cbn [Py.rstrip].
  destruct (Py.rstrip s) as [|x r] eqn:Er.
  - destruct (Py.is_space c) eqn:E.
    + destruct (Ascii.eqb c' c) eqn:Ec; [|reflexivity].
      apply Ascii.eqb_eq in Ec. subst c'. rewrite E in Hc. discriminate.
    + rewrite prefix_cons. reflexivity.
  - rewrite prefix_cons. reflexivity.
Qed.

Lemma contains_rstrip (v s : string) :
  no_space v = true -> Py.contains v (Py.rstrip s) = Py.contains v s.
Proof.
  intros Hv. induction s as [|c s IH]; [reflexivity|].
  cbn [Py.contains]. rewrite <- (prefix_rstrip v (String c s) Hv), <- IH.
  cbn [Py.rstrip]. destruct (Py.rstrip s) as [|x r] eqn:Er.
  - destruct (Py.is_space c).
    + cbn [Py.contains]. destruct (String.prefix v ""); reflexivity.
    + reflexivity.
  - reflexivity.
Qed.

Lemma contains_strip (v s : string) :
  no_space v = true -> Py.contains v (Py.strip s) = Py.contains v s.
Proof.
  intros Hv. unfold Py.strip. rewrite contains_rstrip, contains_lstrip; auto.
Qed.

(** ** [_readln] *)

(** The state after one answer of the oracle has been consumed. *)
Lemma read_until_eq (s : State) :
  read_until s =
  Ret (hd EmptyString (replies (world s)))
      {| self := self s; world := set_replies (tl (replies (world s))) (world s) |}.
Proof.
  destruct s as [c [lg rs fs wn hp dk]]. unfold read_until. simpl.
  destruct rs; reflexivity.
Qed.

Lemma readln_eq (value : string) (s : State) :
  _readln value s =
  let line := Py.strip (hd EmptyString (replies (world s))) in
  let s' := {| self := self s; world := set_replies (tl (replies (world s))) (world s) |} in
  if Py.contains value line then Ret line s'
  else Raise (ArcLinkException ("Timeout waiting for expected " +:+ value +:+ ", got " +:+ line)) s'.
Proof.
  unfold _readln, bind. rewrite read_until_eq. cbv zeta.
  destruct (Py.contains value _); reflexivity.
Qed.

(** Claim C10.  A line read that expects a sentinel succeeds exactly when the
    stripped answer contains the sentinel somewhere as a substring, and raises
    the [ArcLinkException] "Timeout waiting for expected ..." exactly when it
    does not; for a sentinel without white space, as all those of the client
    are, that is when the sentinel is absent from what was read.  An error
    line in which [OK] occurs inside another word is accepted where [OK] is
    expected. *)
Theorem readln_accepts_substring (value : string) (s : State) :
  let raw := hd EmptyString (replies (world s)) in
  let line := Py.strip raw in
  let s' := {| self := self s; world := set_replies (tl (replies (world s))) (world s) |} in
  ((exists a b, line = a +:+ value +:+ b) <-> _readln value s = Ret line s') /\
  (~ (exists a b, line = a +:+ value +:+ b) <->
   _readln value s =
   Raise (ArcLinkException ("Timeout waiting for expected " +:+ value +:+ ", got " +:+ line)) s') /\
  (no_space value = true ->
   ((exists a b, raw = a +:+ value +:+ b) <-> (exists a b, line = a +:+ value +:+ b))) /\
  _readln "OK" {| self := Demo.client "webdc.eu" 18002;
                  world := Demo.server [Demo.nl "ERROR: TOKEN EXPIRED"] [] ∅ |} =
  Ret "ERROR: TOKEN EXPIRED"
      {| self := Demo.client "webdc.eu" 18002; world := Demo.server [] [] ∅ |}.
Proof.
  cbv zeta. rewrite readln_eq. cbv zeta. rewrite <- !contains_spec.
  split; [|split; [|split]].
  - destruct (Py.contains value _); split; intros H; try reflexivity; discriminate.
  - destruct (Py.contains value _); split; intros H; try reflexivity; try discriminate.
    exfalso. apply H. reflexivity.
  - intros Hv. rewrite (contains_strip _ _ Hv). reflexivity.
  - reflexivity.
Qed.

Lemma readln_accepts_substring_witness :
  let s := {| self := Demo.client "webdc.eu" 18002;
              world := Demo.server [Demo.nl "ERROR: TOKEN EXPIRED"] [] ∅ |} in
  no_space "OK" = true /\
  ((exists a b, Demo.nl "ERROR: TOKEN EXPIRED" = a +:+ "OK" +:+ b) <->
   (exists a b, "ERROR: TOKEN EXPIRED" = a +:+ "OK" +:+ b)).
Proof.
  cbv zeta. split; [reflexivity|].
  exact (proj1 (proj2 (proj2 (readln_accepts_substring "OK"
           {| self := Demo.client "webdc.eu" 18002;
              world := Demo.server [Demo.nl "ERROR: TOKEN EXPIRED"] [] ∅ |}))) eq_refl).
Defined.

(** ** What every step preserves *)

Lemma after_bind {A B : Type} (P : State -> State -> Prop) (m : M A) (k : A -> M B) :
  (forall s1 s2 s3, P s1 s2 -> P s2 s3 -> P s1 s3) ->
  after m P -> (forall a, after (k a) P) -> after (bind m k) P.
Proof.
  intros T Hm Hk s. unfold bind. specialize (Hm s).
  destruct (m s) as [a s1|e s1|]; auto.
  specialize (Hk a s1). destruct (k a s1); eauto.
Qed.

Lemma grows_refl (s : State) : grows s s.
Proof. exists []. symmetry. apply app_nil_r. Qed.

Lemma grows_trans (s1 s2 s3 : State) : grows s1 s2 -> grows s2 s3 -> grows s1 s3.
Proof.
  intros [l1 H1] [l2 H2]. exists (l1 ++ l2)%list.
  rewrite H2, H1. symmetry. apply app_assoc.
Qed.

Lemma same_target_refl (s : State) : same_target s s.
Proof. repeat split. Qed.

Lemma same_target_trans (s1 s2 s3 : State) :
  same_target s1 s2 -> same_target s2 s3 -> same_target s1 s3.
Proof. unfold same_target. intuition congruence. Qed.

Lemma grows_stable : stable grows.
Proof.
  split.
  - apply grows_refl.
  - apply grows_trans.
  - intros e s. exists [e]. reflexivity.
  - intros b s. exists []. simpl. symmetry. apply app_nil_r.
  - intros m s. exists []. simpl. symmetry. apply app_nil_r.
  - intros s. unfold read_until. destruct (replies (world s)); [apply grows_refl|].
    exists []. simpl. symmetry. apply app_nil_r.
  - intros s. unfold makefile. destruct (streams (world s)); [apply grows_refl|].
    exists []. simpl. symmetry. apply app_nil_r.
Qed.

Lemma same_target_stable : stable same_target.
Proof.
  split.
  - apply same_target_refl.
  - apply same_target_trans.
  - intros e s. repeat split.
  - intros b s. repeat split.
  - intros m s. repeat split.
  - intros s. unfold read_until. destruct (replies (world s)); repeat split.
  - intros s. unfold makefile. destruct (streams (world s)); repeat split.
Qed.

Section Stable.

Context (L : Lib) (P : State -> State -> Prop) (HP : stable P).

Lemma after_ret {A : Type} (a : A) : after (ret a) P.
Proof. intros s. apply (st_refl P HP). Qed.

Lemma after_raise {A : Type} (e : exn) : after (@raise A e) P.
Proof. intros s. apply (st_refl P HP). Qed.

Lemma after_get_self : after get_self P.
Proof. intros s. apply (st_refl P HP). Qed.

Lemma after_lift {A : Type} (err : string) (o : option A) : after (lift err o) P.
Proof. destruct o; [apply after_ret | apply after_raise]. Qed.

Lemma after_of_xml {A : Type} (x : xml A) : after (of_xml x) P.
Proof. destruct x; [apply after_raise | apply after_ret]. Qed.

Lemma after_of_sum {A : Type} (x : exn + A) : after (of_sum x) P.
Proof. destruct x; [apply after_raise | apply after_ret]. Qed.

Lemma after_seq {A B : Type} (m : M A) (k : A -> M B) :
  after m P -> (forall a, after (k a) P) -> after (bind m k) P.
Proof. apply after_bind, (st_trans P HP). Qed.

Lemma after_writeln (buffer : string) : after (_writeln buffer) P.
Proof. apply (st_emit P HP). Qed.

Lemma after_readln (value : string) : after (_readln value) P.
Proof.
  unfold _readln. apply after_seq; [apply (st_read P HP)|].
  intros a. destruct (negb _); [apply after_raise | apply after_ret].
Qed.

Lemma after_reconnect : after _reconnect P.
Proof.
  unfold _reconnect. apply after_seq; [apply after_get_self|]. intros c.
  apply after_seq; [apply (st_emit P HP) | intros; apply (st_sock P HP)].
Qed.

Lemma after_bye : after _bye P.
Proof.
  unfold _bye. apply after_seq; [apply after_writeln|]. intros _.
  apply after_seq; [apply (st_emit P HP) | intros; apply (st_sock P HP)].
Qed.

Lemma after_hello : after _hello P.
Proof.
  unfold _hello.
  repeat (first [ apply after_reconnect | apply after_writeln
                | apply after_readln | apply after_get_self | apply after_ret
                | apply after_seq; [|intros ?] ]).
  destruct (String.eqb _ _); apply after_writeln.
Qed.

Lemma after_status_id (fuel : nat) : after (status_id fuel) P.
Proof.
  induction fuel as [|n IH]; [intros s; exact I|]. simpl.
  apply after_seq; [apply after_readln|]. intros status.
  destruct (Py.int status); [apply after_ret|].
  destruct (Py.contains _ _); [|exact IH].
  apply after_seq; [apply after_bye | intros; apply after_raise].
Qed.

Lemma after_poll (fuel : nat) (req_id _loops : Z) (old : option string) :
  after (poll fuel req_id _loops old) P.
Proof.
  revert _loops old. induction fuel as [|n IH]; intros _loops old; [intros s; exact I|].
  simpl. apply after_seq; [apply after_writeln|]. intros _.
  apply after_seq; [apply after_readln|]. intros xml_doc.
  destruct (Py.contains _ _); [apply after_ret|].
  destruct (MAX_REQUESTS <? _); [|apply IH].
  apply after_seq; [apply (st_warn P HP) | intros; apply after_ret].
Qed.

Lemma after_cleanup (req_id : Z) : after (cleanup req_id) P.
Proof.
  unfold cleanup. apply after_seq; [apply after_writeln | intros; apply after_bye].
Qed.

Lemma after_check (req_id : Z) (xml_doc : string) : after (check L req_id xml_doc) P.
Proof.
  unfold check.
  repeat first [ apply after_cleanup | apply after_raise
               | apply after_ret | apply after_of_xml
               | match goal with |- after (match ?x with _ => _ end) _ => destruct x end
               | apply after_seq; [|intros ?] ].
Qed.

Lemma after_download (fuel : nat) (req_id : Z) : after (download fuel req_id) P.
Proof.
  unfold download. apply after_seq; [apply after_writeln|]. intros _.
  apply after_seq; [apply (st_file P HP)|]. intros fd.
  destruct (readline 100 fd) as [l fd1].
  apply after_seq; [apply after_lift|]. intros length.
  destruct (read_body fuel length EmptyString fd1) as [[data fd2]|]; [|intros s; exact I].
  destruct (readline 100 fd2) as [buf fd3].
  destruct (_ || _); [apply after_raise | apply after_ret].
Qed.

Lemma after_decrypt (xml_doc data : string) : after (decrypt L xml_doc data) P.
Proof.
  unfold decrypt. destruct (Py.contains _ _); [|apply after_ret].
  apply after_seq; [apply after_of_xml|]. intros dcid s.
  destruct (dcid ≫= _).
  - apply after_lift.
  - apply (after_seq (warn _) (fun _ => ret data)); [apply (st_warn P HP) | intros; apply after_ret].
Qed.

Lemma after_transfer (fuel : nat) (request_type : string) (rd : request_data L) :
  after (transfer L fuel request_type rd) P.
Proof.
  unfold transfer.
  repeat first [ apply after_hello | apply after_writeln
               | apply after_readln | apply after_status_id | apply after_poll
               | apply after_check | apply after_download | apply after_bye | apply after_ret
               | apply after_seq; [|intros ?] ].
Qed.

Lemma after_request (fuel : nat) (request_type : string) (rd : request_data L) :
  after (_request L fuel request_type rd) P.
Proof.
  unfold _request. apply after_seq; [apply after_transfer | intros; apply after_decrypt].
Qed.

End Stable.

(** ** Polling *)

Lemma polled_once (req_id : Z) (s : State) :
  {| self := self s;
     world := set_replies (tl (replies (world s)))
                (set_log (log (world s) ++ [status_cmd req_id])%list (world s)) |}
  = polled 1 req_id s.
Proof.
  unfold polled. destruct s as [c [lg rs fs wn hp dk]]; simpl. destruct rs; reflexivity.
Qed.

Lemma polled_succ (k : nat) (req_id : Z) (s : State) :
  polled k req_id (polled 1 req_id s) = polled (S k) req_id s.
Proof.
  unfold polled, set_replies, set_log. destruct s as [c [lg rs fs wn hp dk]]; simpl.
  rewrite <- app_assoc. simpl.
  replace (drop k (drop 1 rs)) with (drop (S k) rs); [reflexivity|].
  destruct rs; simpl; [|reflexivity]. destruct k; reflexivity.
Qed.

(** One round answered by a document that is not ready. *)
Lemma poll_round (n : nat) (req_id j : Z) (old : option string) (d : string)
    (rest : list string) (s : State) :
  not_ready d ->
  replies (world s) = d :: rest ->
  poll (S n) req_id j old s =
  let same := bool_decide (old = Some (Py.strip d)) in
  let j' := if same then j + 1 else 0 in
  if MAX_REQUESTS <? j' then Ret (Py.strip d) (warned_with stall_warning (polled 1 req_id s))
  else poll n req_id j' (Some (Py.strip d)) (polled 1 req_id s).
Proof.
  intros [Hend Hready] Hrs. cbn [poll]. unfold bind at 1. unfold _writeln at 1, emit.
  unfold bind at 1. rewrite readln_eq. cbn [world self replies set_log].
  fold (status_cmd req_id). rewrite polled_once, Hrs. cbn [hd]. rewrite Hend, Hready.
  destruct (bool_decide (old = Some (Py.strip d))) eqn:E.
  - apply bool_decide_eq_true in E. subst old.
    destruct (MAX_REQUESTS <? j + 1); reflexivity.
  - destruct (MAX_REQUESTS <? 0); reflexivity.
Qed.

Lemma poll_repeat (k n : nat) (req_id j : Z) (d : string) (rest : list string) (s : State) :
  not_ready d ->
  replies (world s) = (repeat d k ++ rest)%list ->
  j + Z.of_nat k <= MAX_REQUESTS ->
  poll (k + n) req_id j (Some (Py.strip d)) s =
  poll n req_id (j + Z.of_nat k) (Some (Py.strip d)) (polled k req_id s).
Proof.
  intros Hd. revert j s. induction k as [|k IH]; intros j s Hrs Hj.
  - simpl. rewrite Z.add_0_r. f_equal. unfold polled, set_replies, set_log.
    destruct s as [c [lg rs fs wn hp dk]]; simpl. rewrite app_nil_r. reflexivity.
  - change (S k + n)%nat with (S (k + n)).
    rewrite (poll_round _ _ _ _ d (repeat d k ++ rest)%list); [|exact Hd|exact Hrs].
    cbv zeta. rewrite bool_decide_eq_true_2 by reflexivity.
    destruct (MAX_REQUESTS <? j + 1) eqn:E; [apply Z.ltb_lt in E; lia|].
    rewrite IH.
    + rewrite polled_succ. f_equal. lia.
    + unfold polled; simpl. rewrite Hrs. reflexivity.
    + lia.
Qed.

Lemma polled_add (a b : nat) (req_id : Z) (s : State) :
  polled a req_id (polled b req_id s) = polled (b + a) req_id s.
Proof.
  unfold polled, set_replies, set_log. destruct s as [c [lg rs fs wn hp dk]]; simpl.
  rewrite <- app_assoc, <- repeat_app, drop_drop. reflexivity.
Qed.

(** Claim C5 as stated fails: after 51 identical documents that are not ready
    the client sends a 52nd [STATUS]; here the answer to it is ready, and
    polling ends normally, without the warning. *)
Lemma poll_51_identical_goes_on :
  let s := {| self := Demo.client "webdc.eu" 18002;
              world := Demo.server (repeat Demo.waiting 51 ++ [Demo.status_doc "true" ""])%list [] ∅ |} in
  exists s',
    poll 60 7 0 None s = Ret (Py.strip (Demo.status_doc "true" "")) s' /\
    warned (world s') = [] /\
    Demo.sends (world s') = repeat "STATUS 7" 52.
Proof.
  cbv zeta. eexists. split; [vm_compute; reflexivity|]. split; vm_compute; reflexivity.
Qed.

(** ** Download *)

Lemma str_app_nil_r (a : string) : a +:+ EmptyString = a.
Proof. induction a as [|c a IH]; sapp; [reflexivity | f_equal; exact IH]. Qed.

Lemma str_app_assoc (a b c : string) : (a +:+ b) +:+ c = a +:+ b +:+ c.
Proof. induction a as [|x a IH]; sapp; [reflexivity | f_equal; exact IH]. Qed.

Lemma len_app (a b : string) : len (a +:+ b) = len a + len b.
Proof.
  unfold len. induction a as [|x a IH]; sapp; simpl String.length; [lia|].
  rewrite !Nat2Z.inj_succ. lia.
Qed.

Lemma len_nonneg (a : string) : 0 <= len a.
Proof. unfold len. lia. Qed.

Lemma cut_app (n : nat) (fd : string) :
  fst (Py.cut n fd) +:+ snd (Py.cut n fd) = fd.
Proof.
  revert fd. induction n as [|n IH]; intros [|c r]; simpl; try reflexivity.
  specialize (IH r). destruct (Py.cut n r) as [a b]. simpl in *. sapp. rewrite IH. reflexivity.
Qed.

Lemma cut_exact (a b : string) : Py.cut (String.length a) (a +:+ b) = (a, b).
Proof.
  induction a as [|c a IH]; sapp; simpl.
  - destruct b; reflexivity.
  - rewrite IH. reflexivity.
Qed.

Lemma cut_len (n : nat) (fd : string) :
  len (fst (Py.cut n fd)) = Z.min (Z.of_nat n) (len fd).
Proof.
  unfold len. revert fd. induction n as [|n IH]; intros [|c r]; simpl; try lia.
  specialize (IH r). destruct (Py.cut n r) as [a b]. simpl in *. lia.
Qed.

Lemma readline_line (n : nat) (l rest : string) :
  line_within n l = true -> readline n (l +:+ rest) = (l, rest).
Proof.
  revert l. induction n as [|n IH]; intros [|c r] H; simpl in H; try discriminate.
  sapp. simpl. destruct (Ascii.eqb c LF).
  - apply String.eqb_eq in H. subst r. reflexivity.
  - rewrite (IH _ H). reflexivity.
Qed.

(** A stream that ends before the announced length: the loop never ends. *)
Lemma read_body_short (fuel : nat) (length : Z) (data fd : string) :
  len data + len fd < length -> read_body fuel length data fd = None.
Proof.
  revert data fd. induction fuel as [|n IH]; intros data fd H; simpl.
  - pose proof (len_nonneg fd). destruct (len data <? length) eqn:E; [reflexivity|].
    apply Z.ltb_ge in E. lia.
  - pose proof (len_nonneg fd). destruct (len data <? length) eqn:E;
      [|apply Z.ltb_ge in E; lia].
    unfold read. pose proof (cut_app (Z.to_nat (Z.min 4096 (length - len data))) fd) as Hc.
    destruct (Py.cut _ fd) as [buf fd']. simpl in Hc. apply IH.
    rewrite len_app. rewrite <- Hc, len_app in H. lia.
Qed.

(** Enough bytes: the loop returns exactly the announced number of them. *)
Lemma read_body_full (fuel : nat) (length : Z) (data body rest : string) :
  len data + len body = length ->
  (String.length body <= fuel)%nat ->
  read_body fuel length data (body +:+ rest) = Some (data +:+ body, rest).
Proof.
  revert data body. induction fuel as [|n IH]; intros data body Hl Hf.
  - destruct body; [|simpl in Hf; lia]. sapp. simpl.
    replace (len data <? length) with false; [rewrite str_app_nil_r; reflexivity|].
    symmetry. apply Z.ltb_ge. unfold len in *. simpl in Hl. lia.
  - cbn [read_body]. destruct (len data <? length) eqn:E.
    + apply Z.ltb_lt in E. unfold read.
      set (k := Z.to_nat (Z.min 4096 (length - len data))).
      assert (Hk : (1 <= k <= String.length body)%nat) by (unfold len in *; lia).
      pose proof (cut_app k body) as Hc. pose proof (cut_len k body) as Hn.
      destruct (Py.cut k body) as [buf body'] eqn:Eb. simpl in Hc, Hn.
      assert (Hcut : Py.cut k (body +:+ rest) = (buf, body' +:+ rest)).
      { rewrite <- Hc, str_app_assoc.
        replace k with (String.length buf); [apply cut_exact|].
        unfold len in Hn. lia. }
      rewrite Hcut. rewrite IH.
      * rewrite str_app_assoc, Hc. reflexivity.
      * rewrite len_app. rewrite <- Hc, len_app in Hl. lia.
      * assert (len body = len buf + len body') by (rewrite <- Hc at 1; apply len_app).
        unfold len in *. lia.
    + apply Z.ltb_ge in E. pose proof (len_nonneg body).
      assert (body = EmptyString) by (destruct body; [reflexivity | unfold len in *; simpl in *; lia]).
      subst body. sapp. rewrite str_app_nil_r. reflexivity.
Qed.

Lemma download_eq (fuel : nat) (req_id : Z) (s : State) :
  download fuel req_id s =
  let (l, fd) := readline 100 (hd EmptyString (streams (world s))) in
  match Py.int l with
  | None => Raise (Builtin "ValueError") (downloading req_id s)
  | Some length =>
      match read_body fuel length EmptyString fd with
      | None => OutOfFuel
      | Some (data, fd) =>
          let (buf, _) := readline 100 fd in
          if negb (String.eqb (Py.strip buf) "END") || negb (len data =? length) then
            Raise (Exception "Wrong length!") (downloading req_id s)
          else Ret data (downloading req_id s)
      end
  end.
Proof.
  unfold download, bind, _writeln, emit, makefile, downloading.
  destruct s as [c [lg rs fs wn hp dk]].
  cbn [world self streams log set_streams set_log replies warned heap disk].
  destruct fs as [|f fs]; cbn [hd tl streams set_streams set_log world].
  - destruct (readline 100 EmptyString) as [l fd].
    destruct (Py.int l) as [length|]; [|reflexivity]. cbn [lift ret].
    destruct (read_body fuel length EmptyString fd) as [[data fd2]|]; [|reflexivity].
    destruct (readline 100 fd2) as [buf fd3]. destruct (_ || _); reflexivity.
  - destruct (readline 100 f) as [l fd].
    destruct (Py.int l) as [length|]; [|reflexivity]. cbn [lift ret].
    destruct (read_body fuel length EmptyString fd) as [[data fd2]|]; [|reflexivity].
    destruct (readline 100 fd2) as [buf fd3]. destruct (_ || _); reflexivity.
Qed.

(** A well-formed frame: the announced length on a line of at most 100 bytes,
    that many bytes, and a line that reads [END].  The payload is the body. *)
Lemma download_frame (fuel : nat) (req_id : Z) (s : State)
    (l body t more : string) (fs : list string) :
  streams (world s) = (l +:+ body +:+ t +:+ more) :: fs ->
  line_within 100 l = true ->
  Py.int l = Some (len body) ->
  line_within 100 t = true ->
  Py.strip t = "END" ->
  (String.length body <= fuel)%nat ->
  download fuel req_id s = Ret body (downloading req_id s).
Proof.
  intros Hs Hl Hn Ht He Hf. rewrite download_eq, Hs. cbn [hd].
  rewrite (readline_line _ _ _ Hl), Hn.
  rewrite (read_body_full fuel (len body) EmptyString body (t +:+ more));
    [|reflexivity|exact Hf].
  sapp. rewrite (readline_line _ _ _ Ht), He, Z.eqb_refl. reflexivity.
Qed.

(** Any other trailer after the body is the error [Wrong length!]. *)
Lemma download_wrong_trailer (fuel : nat) (req_id : Z) (s : State)
    (l body t more : string) (fs : list string) :
  streams (world s) = (l +:+ body +:+ t +:+ more) :: fs ->
  line_within 100 l = true ->
  Py.int l = Some (len body) ->
  line_within 100 t = true ->
  Py.strip t <> "END" ->
  (String.length body <= fuel)%nat ->
  download fuel req_id s = Raise (Exception "Wrong length!") (downloading req_id s).
Proof.
  intros Hs Hl Hn Ht He Hf. rewrite download_eq, Hs. cbn [hd].
  rewrite (readline_line _ _ _ Hl), Hn.
  rewrite (read_body_full fuel (len body) EmptyString body (t +:+ more));
    [|reflexivity|exact Hf].
  sapp. rewrite (readline_line _ _ _ Ht).
  destruct (String.eqb (Py.strip t) "END") eqn:E; [|reflexivity].
  apply String.eqb_eq in E. contradiction.
Qed.

(** A stream that ends before the announced number of bytes has arrived. *)
Lemma download_short (fuel : nat) (req_id : Z) (s : State)
    (l rest : string) (fs : list string) (n : Z) :
  streams (world s) = (l +:+ rest) :: fs ->
  line_within 100 l = true ->
  Py.int l = Some n ->
  len rest < n ->
  download fuel req_id s = OutOfFuel.
Proof.
  intros Hs Hl Hn Hlt. rewrite download_eq, Hs. cbn [hd].
  rewrite (readline_line _ _ _ Hl), Hn, read_body_short; [reflexivity|].
  unfold len at 1. simpl. exact Hlt.
Qed.

(** Property X21.  Whatever is raised during the download, neither [PURGE] nor [BYE] has
    been sent and the connection is as it was. *)
Lemma download_raise_unreleased (fuel : nat) (req_id : Z) (s s' : State) (e : exn) :
  download fuel req_id s = Raise e s' -> s' = downloading req_id s.
Proof.
  rewrite download_eq. destruct (readline 100 _) as [l fd].
  destruct (Py.int l) as [n|]; [|congruence].
  destruct (read_body fuel n EmptyString fd) as [[data fd2]|]; [|discriminate].
  destruct (readline 100 fd2) as [buf fd3]. destruct (_ || _); congruence.
Qed.

(** Claim C6, at the failing input.  The server announces 10 bytes, sends 8
    and closes the connection: whatever the number of turns allowed, the
    reading loop has not ended, so no [Wrong length!] is ever raised. *)
Theorem download_short_read_never_returns (fuel : nat) :
  download fuel 7
    {| self := Demo.client "webdc.eu" 18002;
       world := Demo.server [] ["10" +:+ CRLF +:+ "abcEND" +:+ CRLF] ∅ |} = OutOfFuel.
Proof.
  apply (download_short fuel 7 _ ("10" +:+ CRLF) ("abcEND" +:+ CRLF) [] 10);
    vm_compute; reflexivity.
Qed.

(** ** Release on the error exits *)

Lemma cleanup_eq (req_id : Z) (s : State) : cleanup req_id s = Ret tt (released req_id s).
Proof.
  unfold cleanup, _bye, _writeln, emit, set_sock, bind, released, set_log, set_telnet.
  destruct s as [c [lg rs fs wn hp dk]]; simpl. rewrite <- !app_assoc. reflexivity.
Qed.

(** Every error raised by the check of the status document comes after
    [PURGE], [BYE] and the closing of the connection. *)
Lemma check_raise_released (L : Lib) (req_id : Z) (xml_doc : string) (s s' : State) (e : exn) :
  check L req_id xml_doc s = Raise e s' -> s' = released req_id s.
Proof.
  unfold check. intros H.
  destruct (find _ err_codes) as [code|].
  - unfold bind in H. rewrite cleanup_eq in H.
    destruct (line_message L _); simpl in H; inversion H; reflexivity.
  - destruct (Py.contains _ xml_doc).
    { unfold bind in H. rewrite cleanup_eq in H. simpl in H. inversion H; reflexivity. }
    destruct (_ || _).
    { unfold bind in H. rewrite cleanup_eq in H.
      destruct (line_message L _); simpl in H; inversion H; reflexivity. }
    destruct (negb _).
    { unfold bind in H. rewrite cleanup_eq in H. simpl in H. inversion H; reflexivity. }
    discriminate.
Qed.

(** Claim C1, at the failing input.  The status document is ready and has
    content, the body arrives, but the trailer is not [END]: [_request]
    raises [Wrong length!] after [DOWNLOAD] and sends neither [PURGE] nor
    [BYE]; the connection stays open. *)
Theorem framing_error_skips_release :
  exists s',
    _request Demo.lib 3 Demo.waveform Demo.rdata Demo.bad_trailer =
    Raise (Exception "Wrong length!") s' /\
    Demo.sends (world s') =
      ["HELLO"; "USER test@obspy.org"; "INSTITUTION Anonymous"; Demo.waveform;
       "99 201 GE APE BHZ "; "END"; "STATUS 7"; "DOWNLOAD 7"] /\
    sock (_client (self s')) = true /\
    ~ In Close (log (world s')).
Proof.
  eexists. split; [vm_compute; reflexivity|].
  split; [vm_compute; reflexivity|]. split; [vm_compute; reflexivity|].
  vm_compute. intuition discriminate.
Qed.

(** ** Decryption *)

(** Claim C7.  When the final status document says [encrypted="true"], the
    archive id is read from it and looked up in the key store: with a key the
    result of the request is what the decryptor makes of the downloaded bytes;
    without one the downloaded bytes are returned as they are and a warning is
    recorded, no error raised. *)
Theorem decrypt_uses_keystore (L : Lib) (fuel : nat) (request_type : string)
    (rd : request_data L) (s s1 : State) (xml_doc data : string) (dcid : option string) :
  transfer L fuel request_type rd s = Ret (xml_doc, data) s1 ->
  Py.contains ("encrypted=" +:+ quoted "true") xml_doc = true ->
  volume_dcid L (Py.drop_last3 xml_doc) = Xml dcid ->
  (forall d key plain,
      dcid = Some d ->
      keystore (self s1) (world s1) !! d = Some key ->
      SSLWrapper L key data = Some plain ->
      _request L fuel request_type rd s = Ret plain s1) /\
  ((forall d, dcid = Some d -> keystore (self s1) (world s1) !! d = None) ->
   _request L fuel request_type rd s =
   Ret data (warned_with ("Could not decrypt waveform data for dcid " +:+ Py.fmt_s dcid +:+ ".") s1)).
Proof.
  intros Ht He Hd. unfold _request, bind. rewrite Ht. cbn [fst snd].
  unfold decrypt. rewrite He. unfold bind. rewrite Hd. cbn [of_xml ret].
  split.
  - intros d key plain -> Hk Hp. cbn [mbind option_bind]. rewrite Hk, Hp. reflexivity.
  - intros Hn. destruct dcid as [d|]; cbn [mbind option_bind].
    + rewrite (Hn d eq_refl). reflexivity.
    + reflexivity.
Qed.

Lemma decrypt_uses_keystore_witness :
  let doc := Py.strip (Demo.status_doc "true" ("encrypted=" +:+ quoted "true" +:+
                                               " dcid=" +:+ quoted "BIA")) in
  let known := Demo.encrypted {[ "BIA" := "secret" ]} in
  let unknown := Demo.encrypted {[ "ODC" := "other" ]} in
  let s1 := Demo.final (transfer Demo.lib 3 Demo.waveform Demo.rdata known) in
  let s2 := Demo.final (transfer Demo.lib 3 Demo.waveform Demo.rdata unknown) in
  (transfer Demo.lib 3 Demo.waveform Demo.rdata known = Ret (doc, "abc") s1 /\
   _request Demo.lib 3 Demo.waveform Demo.rdata known = Ret "plain(secret,abc)" s1) /\
  (transfer Demo.lib 3 Demo.waveform Demo.rdata unknown = Ret (doc, "abc") s2 /\
   _request Demo.lib 3 Demo.waveform Demo.rdata unknown =
   Ret "abc" (warned_with "Could not decrypt waveform data for dcid BIA." s2)).
Proof.
  intros doc known unknown s1 s2.
  assert (He : Py.contains ("encrypted=" +:+ quoted "true") doc = true)
    by (vm_compute; reflexivity).
  assert (Hd : volume_dcid Demo.lib (Py.drop_last3 doc) = Xml (Some "BIA"))
    by (vm_compute; reflexivity).
  assert (H1 : transfer Demo.lib 3 Demo.waveform Demo.rdata known = Ret (doc, "abc") s1)
    by (vm_compute; reflexivity).
  assert (H2 : transfer Demo.lib 3 Demo.waveform Demo.rdata unknown = Ret (doc, "abc") s2)
    by (vm_compute; reflexivity).
  split; (split; [assumption|]).
  - apply (proj1 (decrypt_uses_keystore Demo.lib 3 Demo.waveform Demo.rdata known s1 doc "abc"
                    (Some "BIA") H1 He Hd) "BIA" "secret" "plain(secret,abc)");
      vm_compute; reflexivity.
  - apply (proj2 (decrypt_uses_keystore Demo.lib 3 Demo.waveform Demo.rdata unknown s2 doc "abc"
                    (Some "BIA") H2 He Hd)).
    intros d Heq. injection Heq as <-. vm_compute. reflexivity.
Defined.

(** ** [getQC] *)

Lemma fetch_unrouted (L : Lib) (fuel : nat) (request_type : string) (rd : request_data L) :
  _fetch L fuel request_type rd false = _request L fuel request_type rd.
Proof. destruct fuel; reflexivity. Qed.

(** Once the handshake is over, the request type is the next line sent, and
    it stays in the log whatever happens afterwards. *)
Lemma request_sends_type (L : Lib) (fuel : nat) (request_type : string)
    (rd : request_data L) (s s1 : State) :
  _hello s = Ret tt s1 ->
  match _request L fuel request_type rd s with
  | Ret _ s' | Raise _ s' =>
      exists l, log (world s') = (log (world s1) ++ Send request_type :: l)%list
  | OutOfFuel => True
  end.
Proof.
  intros Hh.
  assert (Hk : after
            (let* r := (_writeln (request_line L rd) >> _writeln "END" >> _readln "OK" >>
                        let* req_id := status_id fuel in
                        let* xml_doc := poll fuel req_id 0 None in
                        check L req_id xml_doc >>
                        let* data := download fuel req_id in
                        _writeln ("PURGE " +:+ Py.fmt_d req_id) >> _bye >>
                        ret (xml_doc, data)) in
             decrypt L (fst r) (snd r)) grows).
  { pose proof grows_stable as G.
    repeat first [ apply after_writeln | apply after_readln | apply after_status_id
                 | apply after_poll | apply after_check | apply after_download
                 | apply after_bye | apply after_ret | apply after_decrypt
                 | apply after_seq; [assumption| |intros ?] | assumption ]. }
  specialize (Hk {| self := self s1;
                    world := set_log (log (world s1) ++ [Send request_type])%list (world s1) |}).
  unfold _request, transfer. unfold bind at 1 2. rewrite Hh.
  unfold bind at 2. unfold _writeln at 1, emit at 1.
  unfold bind at 1 in Hk.
  match goal with
  | H : match match ?a with _ => _ end with _ => _ end |- match match ?b with _ => _ end with _ => _ end =>
      change b with a; destruct a as [r s2|e s2|]
  end.
  - destruct (decrypt L (fst r) (snd r) s2) as [x s3|e s3|]; [| |exact I];
      destruct Hk as [l Hl]; exists l; rewrite Hl; simpl; rewrite <- app_assoc; reflexivity.
  - destruct Hk as [l Hl]; exists l; rewrite Hl; simpl; rewrite <- app_assoc; reflexivity.
  - exact I.
Qed.

(** A request is the handshake, the line with the request type, and the
    rest. *)
Lemma request_eq (L : Lib) (fuel : nat) (request_type : string) (rd : request_data L)
    (s : State) :
  _request L fuel request_type rd s =
  match _hello s with
  | Ret _ s1 => after_type L fuel rd (logged (Send request_type) s1)
  | Raise e s' => Raise e s'
  | OutOfFuel => OutOfFuel
  end.
Proof.
  unfold _request, after_type. unfold bind at 1. unfold transfer. unfold bind at 1.
  destruct (_hello s) as [[] s1|e s1|]; reflexivity.
Qed.

(** Claim C8.  Whatever is passed for [logs], the line with the request type
    that [getQC] sends contains [logs=false]: both branches append the same
    token, so the line, and the whole run, is the same for any two values of
    [logs].  Every call does the handshake and, once that is through, sends
    this line next and goes on with the request: a run that ends, with a
    result or an error, has the line in its log right after the handshake,
    and a run that has not ended is in the part of the request that comes
    after the line. *)
Theorem getQC_logs_ignored (L : Lib) (fuel : nat) (network station location channel : string)
    (starttime endtime : utc L) (parameters : string) (outages logs logs' : pyval)
    (s : State) :
  let verb :=
    (if is_True outages then "REQUEST QC outages=true logs=false parameters="
     else "REQUEST QC outages=false logs=false parameters=") +:+ parameters in
  let rd := Build_request_data L starttime endtime [network; station; channel; location] in
  Py.contains "logs=false" verb = true /\
  getQC_rtype parameters outages logs = verb /\
  getQC L fuel network station location channel starttime endtime parameters outages logs s =
  getQC L fuel network station location channel starttime endtime parameters outages logs' s /\
  getQC L fuel network station location channel starttime endtime parameters outages logs s =
  match _hello s with
  | Ret _ s1 => after_type L fuel rd (logged (Send verb) s1)
  | Raise e s' => Raise e s'
  | OutOfFuel => OutOfFuel
  end /\
  forall s1, _hello s = Ret tt s1 ->
    match getQC L fuel network station location channel starttime endtime
            parameters outages logs s with
    | Ret _ s' | Raise _ s' =>
        exists l, log (world s') = (log (world s1) ++ Send verb :: l)%list
    | OutOfFuel => after_type L fuel rd (logged (Send verb) s1) = OutOfFuel
    end.
Proof.
  intros verb rd.
  assert (E : forall l, getQC_rtype parameters outages l = verb).
  { intros l. unfold getQC_rtype, verb. destruct (is_True outages), (is_True l); reflexivity. }
  assert (Q : forall l,
            getQC L fuel network station location channel starttime endtime parameters
              outages l s =
            match _hello s with
            | Ret _ s1 => after_type L fuel rd (logged (Send verb) s1)
            | Raise e s' => Raise e s'
            | OutOfFuel => OutOfFuel
            end).
  { intros l. unfold getQC. rewrite fetch_unrouted, request_eq, (E l). reflexivity. }
  split; [|split; [apply E|split; [|split]]].
  - unfold verb. destruct (is_True outages).
    + exact (contains_intro "logs=false" "REQUEST QC outages=true "
               (" parameters=" +:+ parameters)).
    + exact (contains_intro "logs=false" "REQUEST QC outages=false "
               (" parameters=" +:+ parameters)).
  - rewrite (Q logs), (Q logs'). reflexivity.
  - apply Q.
  - intros s1 Hh.
    pose proof (request_sends_type L fuel verb rd s s1 Hh) as H.
    assert (G : getQC L fuel network station location channel starttime endtime parameters
                  outages logs s = _request L fuel verb rd s)
      by (unfold getQC; rewrite fetch_unrouted, (E logs); reflexivity).
    rewrite G. pose proof (request_eq L fuel verb rd s) as Hq. rewrite Hh in Hq.
    destruct (_request L fuel verb rd s) as [x s'|e s'|];
      [exact H | exact H | symmetry; exact Hq].
Qed.

Lemma getQC_logs_ignored_witness :
  let s := Demo.encrypted ∅ in
  let s1 := Demo.final (_hello s) in
  let s' := Demo.final (getQC Demo.lib 3 "GE" "APE" "" "BHZ" 100 200 "*" (PyBool true)
                          (PyBool true) s) in
  getQC Demo.lib 3 "GE" "APE" "" "BHZ" 100 200 "*" (PyBool true) (PyBool true) s =
  Ret "abc" s' /\
  exists l, log (world s') =
            (log (world s1) ++ Send "REQUEST QC outages=true logs=false parameters=*" :: l)%list.
Proof.
  intros s s1 s'.
  assert (Hh : _hello s = Ret tt s1) by (vm_compute; reflexivity).
  assert (Hq : getQC Demo.lib 3 "GE" "APE" "" "BHZ" 100 200 "*" (PyBool true) (PyBool true) s =
               Ret "abc" s') by (vm_compute; reflexivity).
  split; [exact Hq|].
  pose proof (proj2 (proj2 (proj2 (proj2
                (getQC_logs_ignored Demo.lib 3 "GE" "APE" "" "BHZ" 100 200 "*"
                   (PyBool true) (PyBool true) (PyBool false) s)))) s1 Hh) as H.
  rewrite Hq in H. exact H.
Defined.

(** ** The constructor and the shared key store *)

Lemma bind_ret_inv {A B : Type} (m : M A) (k : A -> M B) (s s' : State) (b : B) :
  bind m k s = Ret b s' -> exists a s1, m s = Ret a s1 /\ k a s1 = Ret b s'.
Proof.
  unfold bind. destruct (m s) as [a s1|e s1|]; try discriminate. eauto.
Qed.

Lemma after_ret_inv {A : Type} (m : M A) (P : State -> State -> Prop) (s s' : State) (a : A) :
  after m P -> m s = Ret a s' -> P s s'.
Proof. intros H E. specialize (H s). rewrite E in H. exact H. Qed.

Lemma same_store_stable : stable same_store.
Proof.
  split.
  - intros s. split; reflexivity.
  - unfold same_store. intros s1 s2 s3 [] []. split; congruence.
  - intros e s. split; reflexivity.
  - intros b s. split; reflexivity.
  - intros m s. split; reflexivity.
  - intros s. unfold read_until. destruct (replies (world s)); split; reflexivity.
  - intros s. unfold makefile. destruct (streams (world s)); split; reflexivity.
Qed.

Lemma ks_insert_eq (m : gmap string string) (k v : string) : <[k:=v]> m !! k = Some v.
Proof. apply lookup_insert_eq. Qed.

Lemma ks_insert_ne (m : gmap string string) (k k' v : string) :
  k <> k' -> <[k:=v]> m !! k' = m !! k'.
Proof. apply lookup_insert_ne. Qed.

(** What reading a key file does to the dictionary [self.dcid_keys] refers
    to: entries already there stay, the others come from the file. *)
Lemma load_keys_lookup (lines : list string) (s s' : State) :
  load_keys lines s = Ret tt s' ->
  self s' = self s /\
  disk (world s') = disk (world s) /\
  forall k,
    keystore (self s) (world s') !! k =
    match keystore (self s) (world s) !! k with
    | Some v => Some v
    | None => file_entry k lines
    end.
Proof.
  revert s. induction lines as [|line rest IH]; intros s H.
  - cbn in H. injection H as <-. repeat split. intros k. cbn.
    destruct (keystore (self s) (world s) !! k); reflexivity.
  - cbn [load_keys] in H. cbn [file_entry].
    destruct (Py.split1 "=" line) as [|key [|value [|x l]]]; try discriminate.
    unfold bind at 1 in H. cbn [get_self] in H.
    apply bind_ret_inv in H as ([] & s1 & H1 & H2).
    apply IH in H2 as (Hs & Hd & Hk).
    destruct (bool_decide (is_Some (keystore (self s) (world s) !! Py.strip key))) eqn:E.
    + injection H1 as <-. repeat split; try assumption.
      intros k. rewrite Hk. apply bool_decide_eq_true in E as [v Hv].
      destruct (String.eqb (Py.strip key) k) eqn:Ek; [|reflexivity].
      apply String.eqb_eq in Ek. subst k. rewrite Hv. reflexivity.
    + unfold store_key in H1. injection H1 as <-. cbn [self world] in *.
      repeat split; try assumption.
      intros k. specialize (Hk k). apply bool_decide_eq_false in E.
      unfold keystore in *. cbn [heap set_heap] in *.
      rewrite (lookup_insert_eq (heap (world s))) in Hk. cbn [default] in Hk.
      match type of Hk with context [id ?x] => change (id x) with x in Hk end.
      rewrite Hk. destruct (String.eqb (Py.strip key) k) eqn:Ek.
      * apply String.eqb_eq in Ek. subst k. rewrite ks_insert_eq.
        destruct (default ∅ (heap (world s) !! dcid_keys (self s)) !! Py.strip key) eqn:Ev;
          [exfalso; apply E; eauto | reflexivity].
      * apply String.eqb_neq in Ek. rewrite ks_insert_ne by exact Ek. reflexivity.
Qed.

Lemma key_file_of_disk (L : Lib) (a : init_args) (w w' : World) :
  disk w' = disk w -> key_file_of L a w' = key_file_of L a w.
Proof. intros H. unfold key_file_of. rewrite H. reflexivity. Qed.

(** The result of a construction that succeeds. *)
Lemma init_ret (L : Lib) (a : init_args) (w : World) (s1 : State) :
  __init__ L a w = Ret tt s1 ->
  dcid_keys (self s1) = default DEFAULT_DCID_KEYS (arg_dcid_keys a) /\
  disk (world s1) = disk w /\
  match key_file_of L a w ≫= (fun f => disk w !! f) with
  | Some (Lines lines) =>
      forall k,
        keystore (self s1) (world s1) !! k =
        match keystore (self s1) w !! k with
        | Some v => Some v
        | None => file_entry k lines
        end
  | _ => heap (world s1) = heap w
  end.
Proof.
  unfold __init__. intros H.
  apply bind_ret_inv in H as ([] & s0 & H0 & H).
  apply bind_ret_inv in H as ([] & sh & Hh & H).
  pose proof (after_ret_inv _ _ _ _ _ (st_emit _ same_target_stable _) H0) as T0.
  pose proof (after_ret_inv _ _ _ _ _ (st_emit _ same_store_stable _) H0) as S0.
  pose proof (after_ret_inv _ _ _ _ _ (after_hello _ same_target_stable) Hh) as T1.
  pose proof (after_ret_inv _ _ _ _ _ (after_hello _ same_store_stable) Hh) as S1.
  destruct T0 as (_ & _ & _ & _ & T0). destruct T1 as (_ & _ & _ & _ & T1).
  destruct S0 as [Sh0 Sd0]. destruct S1 as [Sh1 Sd1]. cbn [self world] in *.
  assert (Ed : disk (world sh) = disk w) by congruence.
  assert (Eh : heap (world sh) = heap w) by congruence.
  assert (Ek : dcid_keys (self sh) = default DEFAULT_DCID_KEYS (arg_dcid_keys a))
    by (rewrite T1, T0; reflexivity).
  rewrite (key_file_of_disk L a _ _ Ed) in H.
  destruct (key_file_of L a w) as [f|]; cbn [mbind option_bind].
  - rewrite Ed in H. destruct (disk w !! f) as [[|lines]|].
    + injection H as <-. auto.
    + apply load_keys_lookup in H as (Hs & Hd & Hk).
      split; [congruence|]. split; [congruence|].
      intros k. specialize (Hk k). unfold keystore in *. rewrite Hs, Eh in *. exact Hk.
    + injection H as <-. auto.
  - injection H as <-. auto.
Qed.

(** Claim C9.  Two clients constructed without [dcid_keys] refer to one and
    the same dictionary, the default created with the function.  What the
    construction of the second reads from its key file shows in the key store
    of the first: an archive id that the first did not know is now known to
    it, with the passphrase of the file. *)
Theorem default_keystore_is_shared (L : Lib) (a1 a2 : init_args) (w : World)
    (s1 s2 : State) (file : string) (lines : list string) :
  arg_dcid_keys a1 = None ->
  arg_dcid_keys a2 = None ->
  __init__ L a1 w = Ret tt s1 ->
  __init__ L a2 (world s1) = Ret tt s2 ->
  key_file_of L a2 (world s1) = Some file ->
  disk (world s1) !! file = Some (Lines lines) ->
  dcid_keys (self s1) = DEFAULT_DCID_KEYS /\
  dcid_keys (self s2) = DEFAULT_DCID_KEYS /\
  keystore (self s1) (world s2) = keystore (self s2) (world s2) /\
  forall k,
    keystore (self s1) (world s2) !! k =
    match keystore (self s1) (world s1) !! k with
    | Some v => Some v
    | None => file_entry k lines
    end.
Proof.
  intros A1 A2 H1 H2 Hf Hl.
  apply init_ret in H1 as (K1 & _ & _). apply init_ret in H2 as (K2 & _ & H2).
  rewrite A1 in K1. rewrite A2 in K2. cbn [default from_option] in K1, K2.
  rewrite Hf in H2. cbn [mbind option_bind] in H2. rewrite Hl in H2.
  assert (E : forall w', keystore (self s1) w' = keystore (self s2) w')
    by (intros w'; unfold keystore; rewrite K1, K2; reflexivity).
  repeat split; try assumption.
  - apply E.
  - intros k. rewrite !E. apply H2.
Qed.

Lemma default_keystore_is_shared_witness :
  let a1 := Demo.args (Some "/tmp/none.txt") in
  let a2 := Demo.args None in
  let s1 := Demo.final (__init__ Demo.lib a1 Demo.home) in
  let s2 := Demo.final (__init__ Demo.lib a2 (world s1)) in
  __init__ Demo.lib a1 Demo.home = Ret tt s1 /\
  __init__ Demo.lib a2 (world s1) = Ret tt s2 /\
  keystore (self s1) (world s1) !! "BIA" = None /\
  keystore (self s1) (world s2) !! "BIA" = Some "OfH9ekhi" /\
  keystore (self s1) (world s2) !! "ODC" = Some "abc".
Proof.
  intros a1 a2 s1 s2.
  assert (H1 : __init__ Demo.lib a1 Demo.home = Ret tt s1) by (vm_compute; reflexivity).
  assert (H2 : __init__ Demo.lib a2 (world s1) = Ret tt s2) by (vm_compute; reflexivity).
  assert (Hf : key_file_of Demo.lib a2 (world s1) = Some "/home/obspy/dcidpasswords.txt")
    by (vm_compute; reflexivity).
  assert (Hl : disk (world s1) !! "/home/obspy/dcidpasswords.txt" =
               Some (Lines ["BIA=OfH9ekhi" +:+ String LF ""; "ODC = abc" +:+ String LF ""]))
    by (vm_compute; reflexivity).
  destruct (default_keystore_is_shared Demo.lib a1 a2 Demo.home s1 s2 _ _
              eq_refl eq_refl H1 H2 Hf Hl) as (_ & _ & _ & Hk).
  split; [exact H1|]. split; [exact H2|].
  split; [vm_compute; reflexivity|].
  split; rewrite Hk; vm_compute; reflexivity.
Defined.

(** ** Matching of routing keys *)

Lemma fnmatch_star (name : string) : Fnmatch.fnmatch name "*" = Some true.
Proof.
  unfold Fnmatch.fnmatch. change (Fnmatch.translate 0 "*") with [Fnmatch.GStar].
  cbn [Fnmatch.compiles forallb andb]. f_equal.
  induction name as [|c name IH]; [reflexivity|].
  simpl in *. rewrite IH. reflexivity.
Qed.

Lemma fnmatch_empty (name : string) : Fnmatch.fnmatch name "" = Some true <-> name = "".
Proof.
  unfold Fnmatch.fnmatch. simpl. destruct name; split; congruence.
Qed.

Lemma translate_literal (pat : string) :
  Fnmatch.literal pat = true ->
  Fnmatch.translate 0 pat = map Fnmatch.GLit (list_ascii_of_string pat).
Proof.
  induction pat as [|c pat IH]; [reflexivity|]. cbn [Fnmatch.literal].
  intros H. apply andb_true_iff in H as [H Hl].
  apply andb_true_iff in H as [H H3]. apply andb_true_iff in H as [H1 H2].
  apply negb_true_iff in H1, H2, H3.
  cbn [Fnmatch.translate list_ascii_of_string map]. rewrite H1, H2, H3, (IH Hl). reflexivity.
Qed.

Lemma matches_literal (pat name : string) :
  Fnmatch.matches (map Fnmatch.GLit (list_ascii_of_string pat)) name = true <-> name = pat.
Proof.
  revert name. induction pat as [|c pat IH]; intros name; simpl.
  - destruct name; split; congruence.
  - destruct name as [|c' name]; [split; congruence|].
    rewrite andb_true_iff, IH. split.
    + intros [E ->]. apply Ascii.eqb_eq in E. congruence.
    + intros [= -> ->]. split; [apply Ascii.eqb_refl | reflexivity].
Qed.

Lemma compiles_literal (l : list ascii) : Fnmatch.compiles (map Fnmatch.GLit l) = true.
Proof. induction l as [|c l IH]; [reflexivity | exact IH]. Qed.

(** A selector without wild cards fits the equal part only. *)
Lemma fnmatch_literal (name pat : string) :
  Fnmatch.literal pat = true -> Fnmatch.fnmatch name pat = Some true <-> name = pat.
Proof.
  intros H. unfold Fnmatch.fnmatch. rewrite (translate_literal _ H), compiles_literal.
  rewrite <- matches_literal. split; [intros [= E]; exact E | intros ->; reflexivity].
Qed.

Lemma part_fits_iff (part sel : string) :
  part_fits part sel = true <->
  part = "" \/ sel = "*" \/ Fnmatch.fnmatch part sel = Some true.
Proof.
  unfold part_fits. rewrite !orb_true_iff, !String.eqb_eq.
  destruct (Fnmatch.fnmatch part sel) as [[|]|]; intuition congruence.
Qed.

(** Without an error the test of a part is the negation of the rule. *)
Lemma skips_inr (part sel : string) (b : bool) :
  skips part sel = inr b -> part_fits part sel = negb b.
Proof.
  unfold skips, part_fits.
  destruct (String.eqb part ""), (String.eqb sel "*"); cbn [negb andb orb];
    try (intros [= <-]; reflexivity).
  destruct (Fnmatch.fnmatch part sel) as [[|]|]; [| |discriminate]; intros [= <-]; reflexivity.
Qed.

Lemma skips_well_formed (part sel : string) :
  Fnmatch.well_formed sel = true -> skips part sel = inr (negb (part_fits part sel)).
Proof.
  unfold skips, part_fits, Fnmatch.fnmatch, Fnmatch.well_formed. intros ->.
  destruct (String.eqb part ""), (String.eqb sel "*"); cbn [negb andb orb]; try reflexivity.
  destruct (Fnmatch.matches _ part); reflexivity.
Qed.

(** A key that is tested without an error is kept exactly when it matches. *)
Lemma key_fits_inr (key net sta cha loc : string) (b : bool) :
  key_fits key net sta cha loc = inr b -> b = key_matches key net sta cha loc.
Proof.
  unfold key_fits, key_matches.
  destruct (Py.split "." key) as [|p0 [|p1 [|p2 [|p3 more]]]]; cbn [nth_error];
    try discriminate;
    repeat match goal with
           | |- context [match skips ?p ?s with _ => _ end] =>
               let E := fresh "E" in
               destruct (skips p s) as [?|[|]] eqn:E; [discriminate| |];
               apply skips_inr in E; cbn [negb] in E; rewrite ?E
           end;
    try discriminate; intros [= <-]; rewrite ?andb_false_r; reflexivity.
Qed.

Lemma key_fits_well_formed (key net sta cha loc : string) :
  (4 <= length (Py.split "." key))%nat ->
  Forall (fun sel => Fnmatch.well_formed sel = true) [net; sta; cha; loc] ->
  key_fits key net sta cha loc = inr (key_matches key net sta cha loc).
Proof.
  intros Hl Hw. unfold key_fits, key_matches.
  destruct (Py.split "." key) as [|p0 [|p1 [|p2 [|p3 more]]]]; simpl in Hl; try lia.
  inversion Hw as [|? ? W0 Hw1]; subst. inversion Hw1 as [|? ? W1 Hw2]; subst.
  inversion Hw2 as [|? ? W2 Hw3]; subst. inversion Hw3 as [|? ? W3 _]; subst.
  cbn [nth_error].
  rewrite (skips_well_formed p0 _ W0), (skips_well_formed p1 _ W1),
    (skips_well_formed p2 _ W3), (skips_well_formed p3 _ W2).
  destruct (part_fits p0 net), (part_fits p1 sta), (part_fits p2 loc), (part_fits p3 cha);
    reflexivity.
Qed.

Lemma key_matches_iff (key net sta cha loc : string) :
  key_matches key net sta cha loc = true <->
  exists p0 p1 p2 p3 more,
    Py.split "." key = p0 :: p1 :: p2 :: p3 :: more /\
    (p0 = "" \/ net = "*" \/ Fnmatch.fnmatch p0 net = Some true) /\
    (p1 = "" \/ sta = "*" \/ Fnmatch.fnmatch p1 sta = Some true) /\
    (p2 = "" \/ loc = "*" \/ Fnmatch.fnmatch p2 loc = Some true) /\
    (p3 = "" \/ cha = "*" \/ Fnmatch.fnmatch p3 cha = Some true).
Proof.
  unfold key_matches.
  destruct (Py.split "." key) as [|p0 [|p1 [|p2 [|p3 more]]]];
    try (split; [discriminate | intros (? & ? & ? & ? & ? & [=] & _)]).
  rewrite !andb_true_iff, !part_fits_iff. split.
  - intros [[[H0 H1] H2] H3]. exists p0, p1, p2, p3, more. auto.
  - intros (q0 & q1 & q2 & q3 & m & [= <- <- <- <- <-] & H0 & H1 & H2 & H3). auto.
Qed.

Lemma fitting_keys_spec (ks keys : list string) (net sta cha loc : string) :
  fitting_keys ks net sta cha loc = inr keys ->
  forall k, In k keys <-> In k ks /\ key_fits k net sta cha loc = inr true.
Proof.
  revert keys. induction ks as [|key rest IH]; intros keys H k.
  - injection H as <-. simpl. tauto.
  - cbn [fitting_keys] in H.
    destruct (key_fits key net sta cha loc) as [e|b] eqn:Ek; [discriminate|].
    destruct (fitting_keys rest net sta cha loc) as [e|keys'] eqn:Er; [discriminate|].
    injection H as <-. specialize (IH keys' eq_refl k). destruct b; simpl; rewrite ?IH.
    + split.
      * intros [<-|[H1 H2]]; auto.
      * intros [[<-|H1] H2]; auto.
    + split.
      * intros [H1 H2]; auto.
      * intros [[<-|H1] H2]; [congruence | auto].
Qed.

(** The keys kept are the matching keys, in the order of the table. *)
Lemma fitting_keys_filter (ks keys : list string) (net sta cha loc : string) :
  fitting_keys ks net sta cha loc = inr keys ->
  keys = List.filter (fun k => key_matches k net sta cha loc) ks.
Proof.
  revert keys. induction ks as [|key rest IH]; intros keys H.
  - injection H as <-. reflexivity.
  - cbn [fitting_keys] in H.
    destruct (key_fits key net sta cha loc) as [e|b] eqn:Ek; [discriminate|].
    destruct (fitting_keys rest net sta cha loc) as [e|keys'] eqn:Er; [discriminate|].
    injection H as <-. apply key_fits_inr in Ek. cbn [List.filter].
    rewrite <- Ek, <- (IH keys' eq_refl). reflexivity.
Qed.

Lemma fitting_keys_well_formed (ks : list string) (net sta cha loc : string) :
  Forall (fun k => (4 <= length (Py.split "." k))%nat) ks ->
  Forall (fun sel => Fnmatch.well_formed sel = true) [net; sta; cha; loc] ->
  exists keys, fitting_keys ks net sta cha loc = inr keys.
Proof.
  intros Hk Hw. induction Hk as [|k ks Hk _ [keys IH]]; [exists []; reflexivity|].
  cbn [fitting_keys]. rewrite (key_fits_well_formed k _ _ _ _ Hk Hw), IH. eauto.
Qed.

Lemma dict_get_in {V : Type} (k : string) (d : list (string * V)) :
  In k (map fst d) -> exists v, dict_get k d = Some v.
Proof.
  induction d as [|[k' v'] d IH]; [intros []|]. cbn [map fst In dict_get].
  destruct (String.eqb k' k) eqn:E; [eauto|].
  intros [->|H]; [rewrite String.eqb_refl in E; discriminate | auto].
Qed.

Lemma dict_get_nodup {V : Type} (k : string) (v : V) (d : list (string * V)) :
  List.NoDup (map fst d) -> In (k, v) d -> dict_get k d = Some v.
Proof.
  induction d as [|[k' v'] d IH]; [intros _ []|]. cbn [map fst In dict_get].
  intros Hn [[= -> ->]|Hi].
  - rewrite String.eqb_refl. reflexivity.
  - apply List.NoDup_cons_iff in Hn as [Hk Hn].
    destruct (String.eqb k' k) eqn:E; [|exact (IH Hn Hi)].
    apply String.eqb_eq in E. subst k'. exfalso. apply Hk.
    change k with (fst (k, v)). apply in_map. exact Hi.
Qed.

Lemma merge_defined (L : Lib) (routes : routing_table L) (keys : list string) :
  (forall k, In k keys -> In k (map fst routes)) ->
  merge L routes keys =
  inr (flat_map (fun k => items_of L (default [] (dict_get k routes))) keys).
Proof.
  induction keys as [|k keys IH]; intros H; [reflexivity|].
  destruct (dict_get_in k routes (H k (or_introl eq_refl))) as [temp Ht].
  cbn [merge flat_map]. rewrite Ht, IH; [reflexivity|].
  intros; apply H; right; assumption.
Qed.

Lemma flat_map_keys (L : Lib) (routes l : routing_table L) (P : string -> bool) :
  (forall k v, In (k, v) l -> dict_get k routes = Some v) ->
  flat_map (fun k => items_of L (default [] (dict_get k routes))) (List.filter P (map fst l)) =
  flat_map (fun kv => items_of L (snd kv)) (List.filter (fun kv => P (fst kv)) l).
Proof.
  induction l as [|[k v] l IH]; intros H; [reflexivity|].
  cbn [map fst List.filter]. destruct (P k).
  - cbn [flat_map snd]. rewrite (H k v (or_introl eq_refl)), IH; [reflexivity|].
    intros; apply H; right; assumption.
  - apply IH. intros; apply H; right; assumption.
Qed.

Lemma filter_map_fst {V : Type} (P : string -> bool) (l : list (string * V)) :
  List.filter P (map fst l) = map fst (List.filter (fun kv => P (fst kv)) l).
Proof.
  induction l as [|[k v] l IH]; [reflexivity|]. cbn [map fst List.filter].
  destruct (P k); cbn [map fst]; rewrite IH; reflexivity.
Qed.

(** What the search for a route returns when it does not fail: nothing when
    no key of the table matches, otherwise the entries of the matching keys,
    in the order of the table, sorted. *)
Lemma findRoute_eq (L : Lib) (routes : routing_table L) (rd : request_data L)
    (net sta cha loc : string) (r : option (list (item L))) :
  firstn 4 (codes L rd ++ [EmptyString; EmptyString])%list = [net; sta; cha; loc] ->
  List.NoDup (map fst routes) ->
  _findRoute L routes rd = inr r ->
  r = match List.filter (fun kv => key_matches (fst kv) net sta cha loc) routes with
      | [] => None
      | fit => Some (sort L (flat_map (fun kv => items_of L (snd kv)) fit))
      end.
Proof.
  intros Hc Hn H. unfold _findRoute in H. rewrite Hc in H.
  destruct (fitting_keys (map fst routes) net sta cha loc) as [e|keys] eqn:Ef; [discriminate|].
  apply fitting_keys_filter in Ef.
  assert (Hm : merge L routes keys =
               inr (flat_map (fun kv => items_of L (snd kv))
                      (List.filter (fun kv => key_matches (fst kv) net sta cha loc) routes))).
  { subst keys. rewrite merge_defined.
    - rewrite (flat_map_keys L routes routes); [reflexivity|].
      intros k v. apply dict_get_nodup. exact Hn.
    - intros k Hk. apply List.filter_In in Hk. apply Hk. }
  rewrite filter_map_fst in Ef. rewrite Hm in H. rewrite Ef in H.
  destruct (List.filter (fun kv => key_matches (fst kv) net sta cha loc) routes);
    cbn [map] in H; injection H as <-; reflexivity.
Qed.

Lemma findRoute_well_formed (L : Lib) (routes : routing_table L) (rd : request_data L)
    (net sta cha loc : string) :
  firstn 4 (codes L rd ++ [EmptyString; EmptyString])%list = [net; sta; cha; loc] ->
  Forall (fun k => (4 <= length (Py.split "." k))%nat) (map fst routes) ->
  Forall (fun sel => Fnmatch.well_formed sel = true) [net; sta; cha; loc] ->
  exists r, _findRoute L routes rd = inr r.
Proof.
  intros Hc Hk Hw. unfold _findRoute. rewrite Hc.
  destruct (fitting_keys_well_formed _ net sta cha loc Hk Hw) as [keys Hf]. rewrite Hf.
  destruct keys as [|k keys]; [eauto|].
  rewrite merge_defined; [eauto|].
  intros x Hx. apply (fitting_keys_spec _ _ _ _ _ _ Hf x). exact Hx.
Qed.

(** ** Order of the candidates *)

Section Order.

Context (L : Lib).

Lemma insert_sorted_perm (x : item L) (l : list (item L)) :
  Permutation (x :: l) (insert_sorted L x l).
Proof.
  induction l as [|y l IH]; simpl; [reflexivity|].
  destruct (sort_key L x <=? sort_key L y); [reflexivity|].
  rewrite perm_swap. apply perm_skip. exact IH.
Qed.

Lemma sort_perm (l : list (item L)) : Permutation l (sort L l).
Proof.
  induction l as [|x l IH]; simpl; [reflexivity|].
  rewrite <- insert_sorted_perm. apply perm_skip. exact IH.
Qed.

Lemma insert_sorted_sorted (x : item L) (l : list (item L)) :
  StronglySorted (fun a b => sort_key L a <= sort_key L b) l ->
  StronglySorted (fun a b => sort_key L a <= sort_key L b) (insert_sorted L x l).
Proof.
  induction l as [|y l IH]; intros H; simpl.
  - constructor; constructor.
  - destruct (sort_key L x <=? sort_key L y) eqn:E.
    + apply Z.leb_le in E. constructor; [exact H|].
      apply StronglySorted_inv in H as [_ Hy].
      constructor; [exact E|].
      eapply Forall_impl; [exact Hy|]. simpl. intros; lia.
    + apply Z.leb_gt in E. apply StronglySorted_inv in H as [Hl Hy].
      constructor; [apply IH; exact Hl|].
      apply (Permutation_Forall (insert_sorted_perm x l)).
      constructor; [lia | exact Hy].
Qed.

Lemma sort_sorted (l : list (item L)) :
  StronglySorted (fun a b => sort_key L a <= sort_key L b) (sort L l).
Proof.
  induction l as [|x l IH]; simpl; [constructor | apply insert_sorted_sorted, IH].
Qed.

Lemma sorted_lookup (l : list (item L)) (i j : nat) (x y : item L) :
  StronglySorted (fun a b => sort_key L a <= sort_key L b) l ->
  l !! i = Some x -> l !! j = Some y -> (i < j)%nat ->
  sort_key L x <= sort_key L y.
Proof.
  intros H. revert i j. induction H as [|a l Hl IH Ha]; intros i j Hi Hj Hij.
  - discriminate.
  - destruct i as [|i], j as [|j]; try lia; simpl in Hi, Hj.
    + injection Hi as <-. rewrite Forall_forall in Ha. apply Ha.
      eapply list_elem_of_lookup_2. exact Hj.
    + apply (IH i j); [assumption|assumption|lia].
Qed.

(** The sort is stable: candidates with the same key stay in the order in
    which they were merged. *)
Lemma insert_sorted_stable (k : Z) (x : item L) (l : list (item L)) :
  List.filter (fun y => sort_key L y =? k) (insert_sorted L x l) =
  List.filter (fun y => sort_key L y =? k) (x :: l).
Proof.
  induction l as [|y l IH]; [reflexivity|]. cbn [insert_sorted].
  destruct (sort_key L x <=? sort_key L y) eqn:E; [reflexivity|].
  apply Z.leb_gt in E. cbn [List.filter] in *. rewrite IH.
  destruct (sort_key L x =? k) eqn:Ex, (sort_key L y =? k) eqn:Ey; try reflexivity.
  apply Z.eqb_eq in Ex, Ey. lia.
Qed.

Lemma sort_stable (k : Z) (l : list (item L)) :
  List.filter (fun y => sort_key L y =? k) (sort L l) =
  List.filter (fun y => sort_key L y =? k) l.
Proof.
  induction l as [|x l IH]; [reflexivity|]. cbn [sort].
  rewrite insert_sorted_stable. cbn [List.filter]. rewrite IH. reflexivity.
Qed.

(** Claim C3, as amended.  The candidates are the entries of the matching
    keys, merged in the order of the table and sorted ascending by their key,
    the priority of an entry and 1000 for the node that answered; the sort is
    stable, so candidates with equal keys stay in the order of the merge, and
    of two candidates with different keys the one with the smaller key comes
    first.  An entry whose priority is absent from the answer, or is not a
    number, has priority -1; it therefore comes before every entry with a
    larger priority, not after. *)
Theorem findRoute_sorted (routes : routing_table L) (rd : request_data L)
    (net sta cha loc : string) (out : list (item L)) :
  firstn 4 (codes L rd ++ [EmptyString; EmptyString])%list = [net; sta; cha; loc] ->
  List.NoDup (map fst routes) ->
  _findRoute L routes rd = inr (Some out) ->
  let merged :=
    flat_map (fun kv => items_of L (snd kv))
      (List.filter (fun kv => key_matches (fst kv) net sta cha loc) routes) in
  Permutation merged out /\
  StronglySorted (fun a b => sort_key L a <= sort_key L b) out /\
  (forall k, List.filter (fun x => sort_key L x =? k) out =
             List.filter (fun x => sort_key L x =? k) merged) /\
  (forall i j x y,
      out !! i = Some x -> out !! j = Some y ->
      sort_key L x < sort_key L y -> (i < j)%nat) /\
  (forall node e,
      arclink_entry L node = inr e ->
      priority L e = default (-1) (node "priority" ≫= Py.int)).
Proof.
  intros Hc Hn H merged. apply (findRoute_eq L routes rd net sta cha loc _ Hc Hn) in H.
  fold merged in H.
  assert (E : out = sort L merged).
  { unfold merged in *.
    destruct (List.filter (fun kv => key_matches (fst kv) net sta cha loc) routes);
      [discriminate | injection H as ->; reflexivity]. }
  clear H. subst out.
  split; [apply sort_perm|]. split; [apply sort_sorted|]. split; [|split].
  - intros k. apply sort_stable.
  - intros i j x y Hi Hj Hlt.
    destruct (Nat.lt_trichotomy i j) as [Hij|[Hij|Hij]]; [exact Hij| |].
    + subst j. rewrite Hi in Hj. injection Hj as <-. lia.
    + pose proof (sorted_lookup _ _ _ _ _ (sort_sorted merged) Hj Hi Hij). lia.
  - intros node e He. unfold arclink_entry in He.
    destruct (UTCDateTime L (node "start")); [|discriminate].
    destruct (match node "end" with Some (String c e0) => _ | _ => _ end); [|discriminate].
    destruct (node "address"); [|discriminate].
    destruct (nth_error _ 1); [|discriminate].
    destruct (Py.int (Py.strip _)); [|discriminate].
    injection He as <-. reflexivity.
Qed.

End Order.

Lemma findRoute_sorted_witness :
  let e1 := Build_RouteEntry Routed.lib 1 0 None "h1.example.org" 18001 in
  let e2 := Build_RouteEntry Routed.lib (-1) 0 None "h2.example.org" 18002 in
  let e3 := Build_RouteEntry Routed.lib 1 0 None "h3.example.org" 18003 in
  let routes := [("GE.APE..", [e1; e2]); ("GE.XYZ..", [e2]); ("GE...BHZ", [e3])] in
  let out := [Node Routed.lib e2; Node Routed.lib e1; Node Routed.lib e3] in
  _findRoute Routed.lib routes Routed.rdata = inr (Some out) /\
  Permutation [Node Routed.lib e1; Node Routed.lib e2; Node Routed.lib e3] out /\
  List.filter (fun x => sort_key Routed.lib x =? 1) out =
  [Node Routed.lib e1; Node Routed.lib e3].
Proof.
  intros e1 e2 e3 routes out.
  assert (H : _findRoute Routed.lib routes Routed.rdata = inr (Some out))
    by (vm_compute; reflexivity).
  assert (Hn : List.NoDup (map fst routes)).
  { repeat constructor; simpl; intuition discriminate. }
  destruct (findRoute_sorted Routed.lib routes Routed.rdata "GE" "APE" "BHZ" "" out
              eq_refl Hn H) as (Hp & _ & Hs & _).
  split; [exact H|]. split; [exact Hp | exact (Hs 1)].
Defined.

(** Claim C4, as amended.  For a table whose keys have four parts and a
    selector whose fields are patterns that compile, the search does not
    fail, and the keys it uses are exactly those of which each part is empty,
    or meets the field [*], or fits the field read as a shell pattern: the
    first part against the network, the second against the station, the third
    against the location and the fourth against the channel.  No route is
    found exactly when no key is of this kind, and the candidates are the
    entries of the keys of this kind and nothing else.  So a field [*]
    accepts every part and an empty part is accepted by every field; an empty
    field accepts the empty part only, and a field without wild cards accepts
    the equal part only. *)
Theorem key_fits_iff (L : Lib) (routes : routing_table L) (rd : request_data L)
    (net sta cha loc : string) :
  firstn 4 (codes L rd ++ [EmptyString; EmptyString])%list = [net; sta; cha; loc] ->
  List.NoDup (map fst routes) ->
  Forall (fun key => (4 <= length (Py.split "." key))%nat) (map fst routes) ->
  Forall (fun sel => Fnmatch.well_formed sel = true) [net; sta; cha; loc] ->
  let ok := fun part sel => part = "" \/ sel = "*" \/ Fnmatch.fnmatch part sel = Some true in
  let fits := fun key =>
    exists p0 p1 p2 p3 more,
      Py.split "." key = p0 :: p1 :: p2 :: p3 :: more /\
      ok p0 net /\ ok p1 sta /\ ok p2 loc /\ ok p3 cha in
  (forall key, In key (map fst routes) ->
     (key_fits key net sta cha loc = inr true <-> fits key) /\
     (key_fits key net sta cha loc = inr false <-> ~ fits key)) /\
  (exists r, _findRoute L routes rd = inr r /\
     (r = None <-> forall key, In key (map fst routes) -> ~ fits key) /\
     (forall out, r = Some out ->
        forall x, In x out <->
          exists key entries,
            In (key, entries) routes /\ fits key /\ In x (items_of L entries))) /\
  (forall part, Fnmatch.fnmatch part "*" = Some true) /\
  (forall part, Fnmatch.fnmatch part "" = Some true <-> part = "") /\
  (forall part sel, Fnmatch.literal sel = true ->
     Fnmatch.fnmatch part sel = Some true <-> part = sel).
Proof.
  intros Hc Hn Hk Hw ok fits.
  assert (Hm : forall key, key_matches key net sta cha loc = true <-> fits key)
    by (intros key; apply key_matches_iff).
  assert (Hf : forall key, In key (map fst routes) ->
                 key_fits key net sta cha loc = inr (key_matches key net sta cha loc)).
  { intros key Hi. apply key_fits_well_formed; [|exact Hw].
    rewrite Forall_forall in Hk. apply Hk, list_elem_of_In, Hi. }
  split; [|split; [|split; [|split]]].
  - intros key Hi. rewrite (Hf key Hi), <- Hm.
    destruct (key_matches key net sta cha loc); split; split; intros H;
      first [reflexivity | discriminate | congruence | exfalso; apply H; reflexivity].
  - destruct (findRoute_well_formed L routes rd net sta cha loc Hc Hk Hw) as [r Hr].
    exists r. split; [exact Hr|].
    apply (findRoute_eq L routes rd net sta cha loc r Hc Hn) in Hr.
    destruct (List.filter (fun kv => key_matches (fst kv) net sta cha loc) routes)
      as [|kv fit] eqn:Efit.
    + subst r. split; [|intros out [=]].
      split; [|reflexivity]. intros _ key Hi Hfit.
      apply in_map_iff in Hi as ([k v] & <- & Hi). apply Hm in Hfit.
      assert (Hin : In (k, v) (List.filter (fun kv => key_matches (fst kv) net sta cha loc)
                                 routes)) by (apply List.filter_In; auto).
      rewrite Efit in Hin. exact Hin.
    + subst r. split.
      * split; [discriminate|]. intros Hno. exfalso.
        assert (Hin : In kv (List.filter (fun kv => key_matches (fst kv) net sta cha loc)
                               routes)) by (rewrite Efit; left; reflexivity).
        apply List.filter_In in Hin as [Hin Hkm].
        apply (Hno (fst kv)); [apply in_map; exact Hin | apply Hm; exact Hkm].
      * intros out Ho x.
        assert (E : out = sort L (flat_map (fun kv => items_of L (snd kv)) (kv :: fit)))
          by congruence.
        rewrite E, <- Efit. clear Ho E.
        split.
        -- intros Hx. apply (Permutation_in _ (Permutation_sym (sort_perm L _))) in Hx.
           apply in_flat_map in Hx as ([k v] & Hin & Hx).
           apply List.filter_In in Hin as [Hin Hkm].
           exists k, v. split; [exact Hin|]. split; [apply Hm; exact Hkm | exact Hx].
        -- intros (k & v & Hin & Hfit & Hx).
           apply (Permutation_in _ (sort_perm L _)). apply in_flat_map.
           exists (k, v). split; [|exact Hx].
           apply List.filter_In. split; [exact Hin | apply Hm; exact Hfit].
  - apply fnmatch_star.
  - apply fnmatch_empty.
  - intros part sel. apply fnmatch_literal.
Qed.

Lemma key_fits_iff_witness :
  let e1 := Build_RouteEntry Routed.lib 1 0 None "h1.example.org" 18001 in
  let e2 := Build_RouteEntry Routed.lib (-1) 0 None "h2.example.org" 18002 in
  let routes := [("GE.APE..BH?", [e1]); ("GE.APE.00.BHZ", [e2]); ("GE.APE.BHZ.", [e2])] in
  key_fits "GE.APE..BH?" "GE" "APE" "BHZ" "" = inr false /\
  exists r, _findRoute Routed.lib routes Routed.rdata = inr r /\ r = None.
Proof.
  intros e1 e2 routes.
  assert (Hn : List.NoDup (map fst routes)).
  { repeat constructor; simpl; intuition discriminate. }
  assert (Hk : Forall (fun key => (4 <= length (Py.split "." key))%nat) (map fst routes)).
  { repeat constructor. }
  assert (Hw : Forall (fun sel => Fnmatch.well_formed sel = true) ["GE"; "APE"; "BHZ"; ""]).
  { repeat constructor. }
  destruct (key_fits_iff Routed.lib routes Routed.rdata "GE" "APE" "BHZ" "" eq_refl Hn Hk Hw)
    as (Hkey & (r & Hr & Hnone & _) & _).
  assert (Hno : forall key, In key (map fst routes) ->
            ~ exists p0 p1 p2 p3 more,
                Py.split "." key = p0 :: p1 :: p2 :: p3 :: more /\
                (p0 = "" \/ "GE" = "*" \/ Fnmatch.fnmatch p0 "GE" = Some true) /\
                (p1 = "" \/ "APE" = "*" \/ Fnmatch.fnmatch p1 "APE" = Some true) /\
                (p2 = "" \/ "" = "*" \/ Fnmatch.fnmatch p2 "" = Some true) /\
                (p3 = "" \/ "BHZ" = "*" \/ Fnmatch.fnmatch p3 "BHZ" = Some true)).
  { intros key Hi (p0 & p1 & p2 & p3 & more & Hs & H0 & H1 & H2 & H3).
    simpl in Hi. destruct Hi as [<-|[<-|[<-|[]]]]; injection Hs as <- <- <- <- <-.
    - destruct H3 as [H3|[H3|H3]]; discriminate.
    - destruct H2 as [H2|[H2|H2]]; discriminate.
    - destruct H2 as [H2|[H2|H2]]; discriminate. }
  split.
  - apply (proj2 (Hkey "GE.APE..BH?" (or_introl eq_refl))). apply Hno. left. reflexivity.
  - exists r. split; [exact Hr | apply Hnone; exact Hno].
Defined.

(** Claim C4 as stated fails.  The selector of a waveform request with an
    empty location field does not accept the key part [00]: the key is passed
    over and no route is found.  A key part [*] is not accepted by the
    field [GE] either. *)
Lemma empty_selector_field_rejects_key :
  codes Demo.lib Demo.rdata = ["GE"; "APE"; "BHZ"; ""] /\
  key_fits "GE.APE.00.BHZ" "GE" "APE" "BHZ" "" = inr false /\
  _findRoute Demo.lib [("GE.APE.00.BHZ", [])] Demo.rdata = inr None /\
  key_fits "*.APE..BHZ" "GE" "APE" "BHZ" "" = inr false.
Proof. repeat split; vm_compute; reflexivity. Qed.

(** ** A selector that is not a pattern *)

Lemma skips_malformed (part sel : string) :
  part <> "" -> Fnmatch.well_formed sel = false -> skips part sel = inl (Builtin "re.error").
Proof.
  intros Hp Hw. unfold skips, Fnmatch.fnmatch. unfold Fnmatch.well_formed in Hw.
  apply String.eqb_neq in Hp. rewrite Hp, Hw.
  destruct (String.eqb sel "*") eqn:E; [|reflexivity].
  apply String.eqb_eq in E. subst sel. discriminate Hw.
Qed.

Lemma key_fits_malformed (key net sta cha loc : string) :
  (4 <= length (Py.split "." key))%nat ->
  Fnmatch.well_formed net = false ->
  Forall (fun sel => Fnmatch.well_formed sel = true) [sta; cha; loc] ->
  (hd EmptyString (Py.split "." key) <> "" ->
   key_fits key net sta cha loc = inl (Builtin "re.error")) /\
  (hd EmptyString (Py.split "." key) = "" -> exists b, key_fits key net sta cha loc = inr b).
Proof.
  intros Hl Hn Hw. unfold key_fits.
  destruct (Py.split "." key) as [|p0 [|p1 [|p2 [|p3 more]]]]; simpl in Hl; try lia.
  inversion Hw as [|? ? W1 Hw2]; subst. inversion Hw2 as [|? ? W2 Hw3]; subst.
  inversion Hw3 as [|? ? W3 _]; subst.
  cbn [nth_error hd]. split.
  - intros Hp. rewrite (skips_malformed p0 net Hp Hn). reflexivity.
  - intros ->. change (skips "" net) with (@inr exn bool false). cbv iota.
    rewrite (skips_well_formed p1 _ W1), (skips_well_formed p2 _ W3),
      (skips_well_formed p3 _ W2).
    destruct (part_fits p1 sta), (part_fits p2 loc), (part_fits p3 cha); cbn [negb]; eauto.
Qed.

Lemma fitting_keys_malformed (ks : list string) (net sta cha loc key : string) :
  Forall (fun k => (4 <= length (Py.split "." k))%nat) ks ->
  Fnmatch.well_formed net = false ->
  Forall (fun sel => Fnmatch.well_formed sel = true) [sta; cha; loc] ->
  In key ks -> hd EmptyString (Py.split "." key) <> "" ->
  fitting_keys ks net sta cha loc = inl (Builtin "re.error").
Proof.
  intros Hk Hn Hw Hi Hp. induction Hk as [|k ks Hk4 _ IH]; [destruct Hi|].
  destruct (key_fits_malformed k net sta cha loc Hk4 Hn Hw) as [Hbad Hgood].
  cbn [fitting_keys].
  destruct (String.eqb (hd EmptyString (Py.split "." k)) "") eqn:E.
  - apply String.eqb_eq in E. destruct (Hgood E) as [b Hb]. rewrite Hb.
    destruct Hi as [<-|Hi]; [contradiction|]. rewrite (IH Hi). reflexivity.
  - apply String.eqb_neq in E. rewrite (Hbad E). reflexivity.
Qed.

(** Property X22.  A network field with a bracket set whose range has its
    ends out of order is not a pattern: when the table has a key whose first
    part is not empty, the search for a route fails with [re.error], whatever
    the other keys are.  (The field [*] and an empty first part are never
    compiled.) *)
Theorem findRoute_malformed_network (L : Lib) (routes : routing_table L)
    (rd : request_data L) (net sta cha loc key : string) :
  firstn 4 (codes L rd ++ [EmptyString; EmptyString])%list = [net; sta; cha; loc] ->
  Forall (fun k => (4 <= length (Py.split "." k))%nat) (map fst routes) ->
  Fnmatch.well_formed net = false ->
  Forall (fun sel => Fnmatch.well_formed sel = true) [sta; cha; loc] ->
  In key (map fst routes) ->
  hd EmptyString (Py.split "." key) <> "" ->
  _findRoute L routes rd = inl (Builtin "re.error").
Proof.
  intros Hc Hk Hn Hw Hi Hp. unfold _findRoute. rewrite Hc.
  rewrite (fitting_keys_malformed _ net sta cha loc key Hk Hn Hw Hi Hp). reflexivity.
Qed.

Lemma findRoute_malformed_network_witness :
  Fnmatch.fnmatch "GE" "[z-a]" = None /\
  _findRoute Routed.lib [("...", []); ("GE.APE..", [])]
    (Build_request_data Routed.lib 100 200 ["[z-a]"; "APE"]) = inl (Builtin "re.error").
Proof.
  split; [reflexivity|].
  apply (findRoute_malformed_network Routed.lib [("...", []); ("GE.APE..", [])]
           (Build_request_data Routed.lib 100 200 ["[z-a]"; "APE"])
           "[z-a]" "APE" "" "" "GE.APE.." eq_refl).
  - repeat constructor.
  - reflexivity.
  - repeat constructor.
  - right. left. reflexivity.
  - discriminate.
Defined.

(** Claim C3 as stated fails.  Of the two nodes of this route the second has
    no priority in the answer of the server; it is decoded with priority -1
    and is the first candidate, before the node with priority 1. *)
Lemma missing_priority_sorts_first :
  let e1 := Build_RouteEntry Demo.lib 1 0 None "h1.example.org" 18001 in
  let e2 := Build_RouteEntry Demo.lib (-1) 0 None "h2.example.org" 18002 in
  Demo.first_node "priority" = Some "1" /\
  Demo.second_node "priority" = None /\
  arclink_entry Demo.lib Demo.first_node = inr e1 /\
  arclink_entry Demo.lib Demo.second_node = inr e2 /\
  routing_dict Demo.lib _ROUTING_NS_1_0 [Demo.ape_route] [] = inr [("GE.APE..", [e1; e2])] /\
  _findRoute Demo.lib [("GE.APE..", [e1; e2])] Demo.rdata =
  inr (Some [Node Demo.lib e2; Node Demo.lib e1]).
Proof. cbv zeta. repeat split; vm_compute; reflexivity. Qed.

(** ** Dispatch *)

Section Dispatch.

Context (L : Lib).

Lemma after_getRouting (P : State -> State -> Prop) (HP : stable P)
    (fetch : string -> request_data L -> bool -> M string)
    (network station : string) (t0 t1 : utc L) (modified_after : option (utc L)) :
  (forall rt rd, after (fetch rt rd false) P) ->
  after (getRouting L fetch network station t0 t1 modified_after) P.
Proof.
  intros Hf. unfold getRouting.
  apply after_seq; [exact HP|apply Hf|]. intros result.
  apply after_seq; [exact HP|apply after_of_xml; exact HP|]. intros xml_doc.
  destruct (bool_decide _); [apply after_of_sum; exact HP|].
  destruct (bool_decide _); [apply after_of_sum; exact HP|apply after_raise; exact HP].
Qed.

Lemma getRouting_same_target (n : nat) (network station : string) (t0 t1 : utc L)
    (s s1 : State) (routes : routing_table L) :
  getRouting L (_fetch L n) network station t0 t1 None s = Ret routes s1 ->
  same_target s s1.
Proof.
  apply after_ret_inv. apply after_getRouting; [apply same_target_stable|].
  intros rt rd. rewrite fetch_unrouted. apply after_request, same_target_stable.
Qed.

(** What [_fetch] does when the routing table has no key for the request. *)
Lemma fetch_no_candidates (n : nat) (request_type : string) (rd : request_data L)
    (net sta : string) (more : list string) (s s1 : State) (routes : routing_table L) :
  codes L rd = net :: sta :: more ->
  getRouting L (_fetch L n) net sta (starttime L rd) (endtime L rd) None s = Ret routes s1 ->
  _findRoute L routes rd = inr None ->
  _fetch L (S n) request_type rd true s =
  if negb (String.eqb (host (_client (self s))) (init_host (self s)))
     && negb (port (_client (self s)) =? init_port (self s))
  then _fetch L n request_type rd true (at_origin s1)
  else Raise (ArcLinkException ("Could not find route to " +:+ net +:+ "." +:+ sta)) s1.
Proof.
  intros Hc Hr Hf.
  destruct (getRouting_same_target _ _ _ _ _ _ _ _ Hr) as (Eh & Ep & Eih & Eip & _).
  cbn [_fetch negb]. rewrite Hc. cbn [nth_error lift]. unfold bind at 1 2, ret at 1 2.
  unfold bind at 1. rewrite Hr. unfold bind at 1. rewrite Hf. cbn [of_sum ret].
  unfold bind at 1, get_self. rewrite <- Eh, <- Ep, <- Eih, <- Eip.
  destruct (negb _ && negb _).
  - unfold bind, set_endpoint, at_origin. reflexivity.
  - unfold no_route. rewrite Hc. reflexivity.
Qed.

(** With the port of the origin, another host is not enough for the
    fall-back: the request fails at once. *)
Lemma fetch_same_port_no_fallback (n : nat) (request_type : string) (rd : request_data L)
    (net sta : string) (more : list string) (s s1 : State) (routes : routing_table L) :
  codes L rd = net :: sta :: more ->
  getRouting L (_fetch L n) net sta (starttime L rd) (endtime L rd) None s = Ret routes s1 ->
  _findRoute L routes rd = inr None ->
  port (_client (self s)) = init_port (self s) ->
  _fetch L (S n) request_type rd true s =
  Raise (ArcLinkException ("Could not find route to " +:+ net +:+ "." +:+ sta)) s1.
Proof.
  intros Hc Hr Hf Hp. rewrite (fetch_no_candidates _ _ _ _ _ _ _ _ _ Hc Hr Hf).
  rewrite Hp, Z.eqb_refl, andb_false_r. reflexivity.
Qed.

(** Property X16.  The fall-back happens once: at the origin a second empty answer ends the
    dispatch with the routing error. *)
Lemma fetch_falls_back_once (n : nat) (request_type : string) (rd : request_data L)
    (net sta : string) (more : list string) (s s1 s2 : State) (r1 r2 : routing_table L) :
  codes L rd = net :: sta :: more ->
  host (_client (self s)) <> init_host (self s) ->
  port (_client (self s)) <> init_port (self s) ->
  getRouting L (_fetch L (S n)) net sta (starttime L rd) (endtime L rd) None s = Ret r1 s1 ->
  _findRoute L r1 rd = inr None ->
  getRouting L (_fetch L n) net sta (starttime L rd) (endtime L rd) None (at_origin s1) =
  Ret r2 s2 ->
  _findRoute L r2 rd = inr None ->
  _fetch L (S (S n)) request_type rd true s =
  Raise (ArcLinkException ("Could not find route to " +:+ net +:+ "." +:+ sta)) s2.
Proof.
  intros Hc Hh Hp H1 F1 H2 F2.
  rewrite (fetch_no_candidates _ _ _ _ _ _ _ _ _ Hc H1 F1).
  apply String.eqb_neq in Hh. apply Z.eqb_neq in Hp. rewrite Hh, Hp. cbn [negb andb].
  rewrite (fetch_no_candidates _ _ _ _ _ _ _ _ _ Hc H2 F2).
  cbn [at_origin self _client set_telnet host init_host]. rewrite String.eqb_refl. reflexivity.
Qed.

End Dispatch.

(** Claim C2, at the failing input.  The client has been sent to another
    host that listens on the port of the origin.  The routing table has no
    key for the request; the client does not go back to the origin but fails
    at once, after the one routing request to the other host. *)
Theorem fetch_other_host_same_port_fails_at_once :
  exists s',
    _fetch Demo.lib 4 Demo.waveform Demo.rdata true (Demo.moved "eida.example.org" 18002) =
    Raise (ArcLinkException "Could not find route to GE.APE") s' /\
    host (_client (self s')) = "eida.example.org" /\
    init_host (self s') = "webdc.eu" /\
    port (_client (self s')) = init_port (self s') /\
    Demo.connects (world s') = [("eida.example.org", 18002)].
Proof.
  eexists. split; [vm_compute; reflexivity|]. repeat split; vm_compute; reflexivity.
Qed.

(** With another host and another port the client does go back, once. *)
Example fetch_other_host_other_port_falls_back :
  exists s',
    _fetch Demo.lib 4 Demo.waveform Demo.rdata true (Demo.moved "eida.example.org" 18001) =
    Raise (ArcLinkException "Could not find route to GE.APE") s' /\
    Demo.connects (world s') = [("eida.example.org", 18001); ("webdc.eu", 18002)].
Proof.
  eexists. split; vm_compute; reflexivity.
Qed.

(** ** Sessions run on the test bench *)

Example strip_line : Py.strip (" OK" +:+ CRLF) = "OK".
Proof. reflexivity. Qed.

Example int_of_line :
  Py.int " 42 " = Some 42 /\ Py.int "-7" = Some (-7) /\ Py.int "4x" = None /\ Py.int "" = None.
Proof. repeat split; reflexivity. Qed.

Example fnmatch_cases :
  Fnmatch.fnmatch "EHZ" "EH*" = Some true /\ Fnmatch.fnmatch "00" "" = Some false /\
  Fnmatch.fnmatch "*" "BW" = Some false /\ Fnmatch.fnmatch "BHZ" "[BE]H?" = Some true /\
  Fnmatch.fnmatch "BHZ" "[!B]HZ" = Some false /\ Fnmatch.fnmatch "[a" "[a" = Some true /\
  Fnmatch.fnmatch "b" "[a-c]" = Some true /\ Fnmatch.fnmatch "]" "[]]" = Some true /\
  Fnmatch.fnmatch "EHZ" "[!B]HZ" = Some true /\ Fnmatch.fnmatch "d" "[a-c]" = Some false /\
  Fnmatch.fnmatch "-" "[a-]" = Some true /\ Fnmatch.fnmatch "GE" "GE" = Some true /\
  Fnmatch.fnmatch "b" "[c-a]" = None /\ Fnmatch.fnmatch "" "[c-a]" = None /\
  Fnmatch.fnmatch "b" "[!c-a]" = None /\ Fnmatch.fnmatch "b" "[a-a]" = Some false /\
  Fnmatch.fnmatch "^" "[^-a]" = Some true /\ Fnmatch.fnmatch "x" "x[c-a" = Some false.
Proof. repeat split; reflexivity. Qed.

Example split_cases :
  Py.split "." "GE.APE..BHZ" = ["GE"; "APE"; ""; "BHZ"] /\
  Py.split1 "=" "BIA=a=b" = ["BIA"; "a=b"] /\ Py.split1 "=" "BIA" = ["BIA"].
Proof. repeat split; reflexivity. Qed.

(** A status document with [status="ERROR"]: [PURGE] and [BYE] go out before
    the error is raised. *)
Example status_error_is_released :
  exists s',
    _request Demo.lib 3 Demo.waveform Demo.rdata
      {| self := Demo.client "webdc.eu" 18002;
         world := Demo.server (Demo.greeting "7" ++
                               [Demo.nl ("<arclink><request ready=" +:+ quoted "true" +:+
                                         "><volume status=" +:+ quoted "ERROR" +:+
                                         "/></request></arclink>END")])%list [] ∅ |} =
    Raise (ArcLinkException "ERROR access denied") s' /\
    Demo.sends (world s') =
      ["HELLO"; "USER test@obspy.org"; "INSTITUTION Anonymous"; Demo.waveform;
       "99 201 GE APE BHZ "; "END"; "STATUS 7"; "PURGE 7"; "BYE"] /\
    sock (_client (self s')) = false.
Proof.
  eexists. split; [vm_compute; reflexivity|]. split; vm_compute; reflexivity.
Qed.

(** Three documents that are not ready, with changes in between, then a
    ready one: four rounds of [STATUS], then the download. *)
Example four_rounds_then_download :
  exists s',
    _request Demo.lib 5 Demo.waveform Demo.rdata
      {| self := Demo.client "webdc.eu" 18002;
         world := Demo.server (Demo.greeting "7" ++
                               [Demo.waiting; Demo.waiting; Demo.waiting;
                                Demo.status_doc "true" ""])%list
                              ["3" +:+ CRLF +:+ "abcEND" +:+ CRLF] ∅ |} = Ret "abc" s' /\
    Demo.sends (world s') =
      ["HELLO"; "USER test@obspy.org"; "INSTITUTION Anonymous"; Demo.waveform;
       "99 201 GE APE BHZ "; "END"; "STATUS 7"; "STATUS 7"; "STATUS 7"; "STATUS 7";
       "DOWNLOAD 7"; "PURGE 7"; "BYE"].
Proof.
  eexists. split; vm_compute; reflexivity.
Qed.

(** * Further properties of the engine *)

(** ** Handshake *)

Lemma contains_empty (h : string) : Py.contains "" h = true.
Proof. destruct h; reflexivity. Qed.

(** Property X1.  A read without sentinel cannot fail: the empty sentinel is in every
    answer, also in the empty answer of a silent connection. *)
Theorem readln_without_sentinel_returns (s : State) :
  _readln "" s = Ret (answer 0 s) (popped s).
Proof.
  rewrite readln_eq. cbv zeta. rewrite contains_empty.
  unfold answer, popped. destruct (replies (world s)); reflexivity.
Qed.

Lemma bind_emit {A : Type} (e : event) (k : unit -> M A) (s : State) :
  bind (emit e) k s = k tt (logged e s).
Proof. reflexivity. Qed.

Lemma bind_writeln {A : Type} (buffer : string) (k : unit -> M A) (s : State) :
  bind (_writeln buffer) k s = k tt (logged (Send buffer) s).
Proof. reflexivity. Qed.

Lemma bind_readln {A : Type} (value : string) (k : string -> M A) (s : State) :
  bind (_readln value) k s =
  if Py.contains value (answer 0 s) then k (answer 0 s) (popped s)
  else Raise (timeout_msg value (answer 0 s)) (popped s).
Proof.
  unfold bind at 1. rewrite readln_eq. cbv zeta. unfold answer, popped, timeout_msg.
  replace (nth 0 (replies (world s)) EmptyString) with (hd EmptyString (replies (world s)))
    by (destruct (replies (world s)); reflexivity).
  destruct (Py.contains value _); reflexivity.
Qed.

Lemma answer_popped (i : nat) (s : State) : answer i (popped s) = answer (S i) s.
Proof.
  unfold answer, popped. cbn [world replies set_replies].
  destruct (replies (world s)); [destruct i|]; reflexivity.
Qed.

Lemma answer_logged (i : nat) (e : event) (s : State) : answer i (logged e s) = answer i s.
Proof. reflexivity. Qed.

Lemma bind_assoc {A B C : Type} (m : M A) (f : A -> M B) (k : B -> M C) (s : State) :
  bind (bind m f) k s = bind m (fun a => bind (f a) k) s.
Proof. unfold bind. destruct (m s); reflexivity. Qed.

Lemma bind_get_self {A : Type} (k : Client -> M A) (s : State) :
  bind get_self k s = k (self s) s.
Proof. reflexivity. Qed.

Lemma bind_set_sock {A : Type} (b : bool) (k : unit -> M A) (s : State) :
  bind (set_sock b) k s = k tt (socked b s).
Proof. reflexivity. Qed.

Lemma bind_ret {A B : Type} (a : A) (k : A -> M B) (s : State) : bind (ret a) k s = k a s.
Proof. reflexivity. Qed.

Lemma answer_socked (i : nat) (b : bool) (s : State) : answer i (socked b s) = answer i s.
Proof. reflexivity. Qed.

Lemma writeln_if (b : bool) (x y : string) :
  (if b then _writeln x else _writeln y) = _writeln (if b then x else y).
Proof. destruct b; reflexivity. Qed.

Lemma hello_eq (s : State) :
  _hello s =
  if Py.contains ")" (answer 0 s) then
    if Py.contains "OK" (answer 2 s) then
      if Py.contains "OK" (answer 3 s) then Ret tt (handshaken s)
      else Raise (timeout_msg "OK" (answer 3 s)) (handshake_cut 4 4 s)
    else Raise (timeout_msg "OK" (answer 2 s)) (handshake_cut 3 3 s)
  else Raise (timeout_msg ")" (answer 0 s)) (handshake_cut 2 1 s).
Proof.
  unfold _hello, _reconnect.
  rewrite bind_assoc, bind_get_self, bind_assoc, bind_emit, bind_set_sock, bind_writeln.
  rewrite bind_readln, answer_logged, answer_socked, answer_logged.
  destruct (Py.contains ")" (answer 0 s)).
  - rewrite bind_readln, contains_empty, bind_get_self, writeln_if, bind_writeln, bind_readln.
    rewrite answer_logged, !answer_popped, answer_logged, answer_socked, answer_logged.
    destruct (Py.contains "OK" (answer 2 s)).
    + rewrite bind_writeln, bind_readln.
      rewrite answer_logged, !answer_popped, answer_logged, !answer_popped, answer_logged,
        answer_socked, answer_logged.
      destruct (Py.contains "OK" (answer 3 s)).
      * unfold ret. f_equal. destruct s as [c [lg rs fs wn hp dk]]. state_eq.
        destruct rs as [|? [|? [|? [|? ?]]]]; reflexivity.
      * f_equal. destruct s as [c [lg rs fs wn hp dk]]. state_eq.
        destruct rs as [|? [|? [|? [|? ?]]]]; reflexivity.
    + f_equal. destruct s as [c [lg rs fs wn hp dk]]. state_eq.
      destruct rs as [|? [|? [|? ?]]]; reflexivity.
  - f_equal. destruct s as [c [lg rs fs wn hp dk]]. state_eq.
    destruct rs as [|? ?]; reflexivity.
Qed.


(** ** Waiting for the request id *)

Lemma bye_eq (s : State) : _bye s = Ret tt (said_bye s).
Proof. reflexivity. Qed.

Lemma status_id_step (n : nat) (s : State) :
  status_id (S n) s =
  match Py.int (answer 0 s) with
  | Some req_id => Ret req_id (popped s)
  | None =>
      if Py.contains "ERROR" (answer 0 s) then
        Raise (ArcLinkException "Error requesting status id") (said_bye (popped s))
      else status_id n (popped s)
  end.
Proof.
  cbn [status_id]. rewrite bind_readln, contains_empty.
  destruct (Py.int (answer 0 s)); [reflexivity|].
  destruct (Py.contains "ERROR" (answer 0 s)); reflexivity.
Qed.

Lemma consumed_0 (s : State) : consumed 0 s = s.
Proof. destruct s as [c [lg rs fs wn hp dk]]. reflexivity. Qed.

Lemma consumed_popped (k : nat) (s : State) : consumed k (popped s) = consumed (S k) s.
Proof.
  destruct s as [c [lg rs fs wn hp dk]]. unfold consumed, popped, set_replies.
  cbn [self world replies log streams warned heap disk].
  destruct rs; [destruct k|]; reflexivity.
Qed.

Lemma popped_consumed (k : nat) (s : State) : popped (consumed k s) = consumed (S k) s.
Proof.
  destruct s as [c [lg rs fs wn hp dk]]. unfold consumed, popped, set_replies.
  cbn [self world replies log streams warned heap disk].
  f_equal. f_equal. revert rs. induction k as [|k IH]; intros rs.
  - destruct rs; reflexivity.
  - destruct rs as [|r rs]; [reflexivity|]. exact (IH rs).
Qed.

Lemma status_id_noise (k n : nat) (s : State) :
  (forall i, (i < k)%nat -> is_noise (answer i s) = true) ->
  status_id (k + n) s = status_id n (consumed k s).
Proof.
  revert s. induction k as [|k IH]; intros s H.
  - rewrite consumed_0. reflexivity.
  - change (S k + n)%nat with (S (k + n)). rewrite status_id_step.
    pose proof (H 0%nat ltac:(lia)) as H0. unfold is_noise in H0.
    destruct (Py.int (answer 0 s)); [discriminate|].
    apply negb_true_iff in H0. rewrite H0, IH, consumed_popped; [reflexivity|].
    intros i Hi. rewrite answer_popped. apply H. lia.
Qed.

Lemma answer_consumed (k : nat) (s : State) : answer 0 (consumed k s) = answer k s.
Proof.
  unfold answer, consumed. cbn [world replies set_replies].
  generalize (replies (world s)). induction k as [|k IH]; intros l; [reflexivity|].
  destruct l as [|r rs]; [reflexivity|]. exact (IH rs).
Qed.

(** Property X3.  Lines that are neither a number nor an error report are passed over; the
    first line that reads as an integer is the request id.  Nothing is sent
    meanwhile. *)
Theorem status_id_returns_first_integer (fuel k : nat) (req_id : Z) (s : State) :
  (forall i, (i < k)%nat -> is_noise (answer i s) = true) ->
  Py.int (answer k s) = Some req_id ->
  (k < fuel)%nat ->
  status_id fuel s = Ret req_id (consumed (S k) s).
Proof.
  intros Hn Hk Hf. replace fuel with (k + S (fuel - S k))%nat by lia.
  rewrite (status_id_noise _ _ _ Hn), status_id_step, answer_consumed, Hk, popped_consumed.
  reflexivity.
Qed.

(** Property X4.  A line with [ERROR] before any request id ends the request: [BYE] is
    sent, the connection closed and the error raised; there is no [PURGE],
    for there is no request id to purge. *)
Theorem status_id_error_says_bye (fuel k : nat) (s : State) :
  (forall i, (i < k)%nat -> is_noise (answer i s) = true) ->
  Py.int (answer k s) = None ->
  Py.contains "ERROR" (answer k s) = true ->
  (k < fuel)%nat ->
  status_id fuel s =
  Raise (ArcLinkException "Error requesting status id") (said_bye (consumed (S k) s)).
Proof.
  intros Hn Hk He Hf. replace fuel with (k + S (fuel - S k))%nat by lia.
  rewrite (status_id_noise _ _ _ Hn), status_id_step, answer_consumed, Hk, He, popped_consumed.
  reflexivity.
Qed.

(** Property X5.  The wait for the request id has no time-out of its own: as long as the
    server sends neither a number nor [ERROR], and also when it sends nothing
    more at all, the loop goes on. *)
Theorem status_id_waits_forever (fuel : nat) (s : State) :
  Forall (fun r => is_noise (Py.strip r) = true) (replies (world s)) ->
  status_id fuel s = OutOfFuel.
Proof.
  intros H.
  assert (Hn : forall i, is_noise (answer i s) = true).
  { intros i. unfold answer. revert i.
    induction H as [|r rs Hr _ IH]; intros [|i]; try reflexivity; [exact Hr | apply IH]. }
  replace fuel with (fuel + 0)%nat by lia.
  rewrite status_id_noise; [reflexivity | intros; apply Hn].
Qed.

(** ** Polling, in general *)

Lemma polled_popped (req_id : Z) (s : State) :
  popped (logged (status_cmd req_id) s) = polled 1 req_id s.
Proof.
  destruct s as [c [lg rs fs wn hp dk]]. unfold popped, logged, polled, set_replies, set_log.
  cbn [self world replies log streams warned heap disk]. destruct rs; reflexivity.
Qed.

Lemma answer_polled (i k : nat) (req_id : Z) (s : State) :
  answer i (polled k req_id s) = answer (k + i) s.
Proof.
  unfold answer, polled. cbn [world replies set_replies set_log].
  generalize (replies (world s)). induction k as [|k IH]; intros l; [reflexivity|].
  destruct l as [|r rs]; [destruct i; reflexivity|]. exact (IH rs).
Qed.

Lemma poll_step (n : nat) (req_id j : Z) (old : option string) (s : State) :
  poll (S n) req_id j old s =
  let doc := answer 0 s in
  if Py.contains "END" doc then
    if Py.contains ("ready=" +:+ quoted "true") doc then Ret doc (polled 1 req_id s)
    else
      let j' := if bool_decide (old = Some doc) then j + 1 else 0 in
      if MAX_REQUESTS <? j' then Ret doc (warned_with stall_warning (polled 1 req_id s))
      else poll n req_id j' (Some doc) (polled 1 req_id s)
  else Raise (timeout_msg "END" doc) (polled 1 req_id s).
Proof.
  cbn [poll]. rewrite bind_writeln, bind_readln, answer_logged. cbv zeta.
  fold (status_cmd req_id). rewrite polled_popped.
  destruct (Py.contains "END" (answer 0 s)); [|reflexivity].
  destruct (Py.contains _ (answer 0 s)); [reflexivity|].
  destruct (bool_decide (old = Some (answer 0 s))) eqn:E.
  - apply bool_decide_eq_true in E. subst old.
    destruct (MAX_REQUESTS <? j + 1); reflexivity.
  - destruct (MAX_REQUESTS <? 0); reflexivity.
Qed.


Lemma polled_0 (req_id : Z) (s : State) : polled 0 req_id s = s.
Proof.
  destruct s as [c [lg rs fs wn hp dk]]. unfold polled, set_replies, set_log. simpl.
  rewrite app_nil_r. reflexivity.
Qed.

Lemma heard_polled (i : nat) (req_id : Z) (s : State) (before : list string) :
  (heard i (polled 1 req_id s) ++ answer 0 s :: before)%list = (heard (S i) s ++ before)%list.
Proof.
  induction i as [|i IH]; [reflexivity|].
  change (heard (S i) (polled 1 req_id s))
    with (answer i (polled 1 req_id s) :: heard i (polled 1 req_id s)).
  rewrite <- app_comm_cons, IH, answer_polled. reflexivity.
Qed.

Lemma goes_on_polled (i : nat) (req_id : Z) (s : State) (before : list string) :
  goes_on (answer 0 s :: before) (polled 1 req_id s) i <-> goes_on before s (S i).
Proof.
  unfold goes_on. rewrite answer_polled, heard_polled. reflexivity.
Qed.

(** The counter of the loop is the number of repeats of the document just
    read. *)
Lemma tracks_step (before : list string) (j : Z) (old : option string) (doc : string) :
  tracks before j old ->
  (if bool_decide (old = Some doc) then j + 1 else 0) = repeats doc before.
Proof.
  destruct before as [|d rest]; intros [-> ->]; cbn [repeats].
  - rewrite bool_decide_eq_false_2 by discriminate. reflexivity.
  - destruct (String.eqb d doc) eqn:E.
    + apply String.eqb_eq in E. subst d.
      rewrite bool_decide_eq_true_2 by reflexivity. lia.
    + apply String.eqb_neq in E. rewrite bool_decide_eq_false_2 by congruence. reflexivity.
Qed.

Lemma goes_on_first (before : list string) (s : State) :
  goes_on before s 0 <->
  Py.contains "END" (answer 0 s) = true /\
  Py.contains ("ready=" +:+ quoted "true") (answer 0 s) = false /\
  repeats (answer 0 s) before <= MAX_REQUESTS.
Proof. reflexivity. Qed.

(** As long as the answers are complete, not ready and not repeated too
    often, the loop goes on, and its counter is the number of repeats. *)
Lemma poll_prefix (req_id : Z) (k fuel : nat) :
  forall before j old s,
    tracks before j old ->
    (forall i, (i < k)%nat -> goes_on before s i) ->
    exists j' old',
      tracks (heard k s ++ before) j' old' /\
      poll (k + fuel) req_id j old s = poll fuel req_id j' old' (polled k req_id s).
Proof.
  induction k as [|k IH]; intros before j old s Ht H.
  - exists j, old. rewrite polled_0. auto.
  - change (S k + fuel)%nat with (S (k + fuel)). rewrite poll_step. cbv zeta.
    destruct (proj1 (goes_on_first before s) (H 0%nat ltac:(lia))) as (He & Hr & Hm).
    rewrite He, Hr, (tracks_step before j old (answer 0 s) Ht).
    replace (MAX_REQUESTS <? repeats (answer 0 s) before) with false
      by (symmetry; apply Z.ltb_ge; exact Hm).
    destruct (IH (answer 0 s :: before) (repeats (answer 0 s) before) (Some (answer 0 s))
                (polled 1 req_id s)) as (j' & old' & Ht' & Ep).
    + split; reflexivity.
    + intros i Hi. apply goes_on_polled. apply H. lia.
    + exists j', old'. rewrite heard_polled in Ht'. rewrite polled_succ in Ep. auto.
Qed.

(** Claim C5, as amended.  Each status document is compared with the one
    read just before it: the counter of the loop is the number of documents
    immediately before this one that are equal to it, so a document that
    differs from its predecessor sets it back to zero.  While the documents
    end in [END], are not ready and have been repeated at most 50 times, the
    loop goes on; at the first document repeated more than 50 times polling
    is given up, with the warning and with this document as the result.  The
    first document has no repeat, so 52 identical documents that are not
    ready end the polling; after 51 of them the client still asks again. *)
Theorem poll_stall_counter (fuel k : nat) (req_id : Z) (s : State) :
  (k < fuel)%nat ->
  (forall i, (i < k)%nat ->
     Py.contains "END" (answer i s) = true /\
     Py.contains ("ready=" +:+ quoted "true") (answer i s) = false /\
     repeats (answer i s) (heard i s) <= 50) ->
  Py.contains "END" (answer k s) = true ->
  Py.contains ("ready=" +:+ quoted "true") (answer k s) = false ->
  (50 < repeats (answer k s) (heard k s) ->
   poll fuel req_id 0 None s =
   Ret (answer k s) (warned_with stall_warning (polled (S k) req_id s))) /\
  (repeats (answer k s) (heard k s) <= 50 ->
   poll fuel req_id 0 None s =
   poll (fuel - S k) req_id (repeats (answer k s) (heard k s)) (Some (answer k s))
     (polled (S k) req_id s)).
Proof.
  intros Hf H He Hr.
  destruct (poll_prefix req_id k (fuel - k) [] 0 None s) as (j' & old' & Ht & Ep).
  - split; reflexivity.
  - intros i Hi. unfold goes_on. rewrite app_nil_r. apply H. exact Hi.
  - rewrite app_nil_r in Ht. replace (k + (fuel - k))%nat with fuel in Ep by lia.
    rewrite Ep. replace (fuel - k)%nat with (S (fuel - S k)) by lia.
    rewrite poll_step. cbv zeta.
    rewrite answer_polled, Nat.add_0_r, He, Hr.
    rewrite (tracks_step (heard k s) j' old' (answer k s) Ht).
    rewrite polled_add, Nat.add_1_r.
    split; intros Hm.
    + replace (MAX_REQUESTS <? repeats (answer k s) (heard k s)) with true
        by (symmetry; apply Z.ltb_lt; exact Hm).
      reflexivity.
    + replace (MAX_REQUESTS <? repeats (answer k s) (heard k s)) with false
        by (symmetry; apply Z.ltb_ge; exact Hm).
      reflexivity.
Qed.

Lemma poll_stall_counter_witness :
  let s := {| self := Demo.client "webdc.eu" 18002;
              world := Demo.server (repeat Demo.waiting 52 ++ [Demo.waiting])%list [] ∅ |} in
  repeats (answer 51 s) (heard 51 s) = 51 /\
  poll 52 7 0 None s =
  Ret (Py.strip Demo.waiting) (warned_with stall_warning (polled 52 7 s)).
Proof.
  intros s. split; [vm_compute; reflexivity|].
  apply (proj1 (poll_stall_counter 52 51 7 s ltac:(lia)
                  ltac:(intros i Hi;
                        do 51 (destruct i as [|i];
                               [split; [vm_compute; reflexivity
                                       |split; [vm_compute; reflexivity
                                               |vm_compute; discriminate]]|]);
                        lia)
                  ltac:(vm_compute; reflexivity) ltac:(vm_compute; reflexivity))).
  vm_compute. reflexivity.
Defined.



(** ** The check of the status document *)

Lemma check_pass (L : Lib) (req_id : Z) (xml_doc : string) (s : State) :
  passes xml_doc = true -> check L req_id xml_doc s = Ret tt s.
Proof.
  unfold passes, check. destruct (find _ err_codes); [discriminate|].
  intros H. apply andb_true_iff in H as [H H3]. apply andb_true_iff in H as [H1 H2].
  apply negb_true_iff in H1, H2. rewrite H1, H2, H3. reflexivity.
Qed.

Lemma check_ret (L : Lib) (req_id : Z) (xml_doc : string) (s s' : State) :
  check L req_id xml_doc s = Ret tt s' -> passes xml_doc = true /\ s' = s.
Proof.
  unfold passes, check. destruct (find _ err_codes).
  - unfold bind. rewrite cleanup_eq. destruct (line_message L _); discriminate.
  - destruct (Py.contains ("status=" +:+ quoted "NODATA") xml_doc).
    { unfold bind. rewrite cleanup_eq. discriminate. }
    destruct (_ || _).
    { unfold bind. rewrite cleanup_eq. destruct (line_message L _); discriminate. }
    destruct (Py.contains "<line content" xml_doc); cbn [negb andb].
    + intros [= <-]. auto.
    + unfold bind. rewrite cleanup_eq. discriminate.
Qed.

(** Property X7.  The check of the final status document has two ways out.  A document with
    content and without any error mark passes, and nothing is sent.  Every
    other document ends the request with an exception, raised after [PURGE]
    for the request id, [BYE] and the closing of the connection. *)
Theorem check_outcome (L : Lib) (req_id : Z) (xml_doc : string) (s : State) :
  match check L req_id xml_doc s with
  | Ret _ s' => passes xml_doc = true /\ s' = s
  | Raise _ s' => passes xml_doc = false /\ s' = released req_id s
  | OutOfFuel => False
  end.
Proof.
  destruct (check L req_id xml_doc s) as [[] s'|e s'|] eqn:E.
  - apply check_ret in E. exact E.
  - split; [|eapply check_raise_released; exact E].
    destruct (passes xml_doc) eqn:P; [|reflexivity].
    rewrite (check_pass L req_id _ s P) in E. discriminate.
  - destruct (passes xml_doc) eqn:P.
    + rewrite (check_pass L req_id _ s P) in E. discriminate.
    + unfold check in E. destruct (find _ err_codes).
      * unfold bind in E. rewrite cleanup_eq in E. destruct (line_message L _); discriminate.
      * destruct (Py.contains ("status=" +:+ quoted "NODATA") xml_doc).
        { unfold bind in E. rewrite cleanup_eq in E. discriminate. }
        destruct (_ || _).
        { unfold bind in E. rewrite cleanup_eq in E.
          destruct (line_message L _); discriminate. }
        destruct (negb _); [|discriminate].
        unfold bind in E. rewrite cleanup_eq in E. discriminate.
Qed.

Lemma find_first {A : Type} (f : A -> bool) (pre post : list A) (x : A) :
  Forall (fun y => f y = false) pre -> f x = true -> find f (pre ++ x :: post) = Some x.
Proof.
  induction 1 as [|y pre Hy _ IH]; intros Hx; simpl.
  - rewrite Hx. reflexivity.
  - rewrite Hy. apply IH, Hx.
Qed.

(** Property X8.  Of several terminal status codes in one document the first in the order
    [DENIED], [CANCELLED], [CANCEL], [ERROR], [RETRY], [WARN], [UNSET] names
    the error; its text is the message of the status line, [None] when the
    line has none.  A terminal code also goes before [NODATA]. *)
Theorem check_first_code_names_error (L : Lib) (req_id : Z) (xml_doc : string) (s : State)
    (pre post : list string) (err_code : string) (msg : option string) :
  err_codes = (pre ++ err_code :: post)%list ->
  Forall (fun c => Py.contains ("status=" +:+ quoted c) xml_doc = false) pre ->
  Py.contains ("status=" +:+ quoted err_code) xml_doc = true ->
  line_message L (Py.drop_last3 xml_doc) = Xml msg ->
  check L req_id xml_doc s =
  Raise (ArcLinkException (err_code +:+ " " +:+ Py.fmt_s msg)) (released req_id s).
Proof.
  intros He Hp Hc Hm. unfold check. rewrite He.
  rewrite (find_first (fun c => Py.contains ("status=" +:+ quoted c) xml_doc) pre post err_code Hp Hc).
  unfold bind. rewrite cleanup_eq, Hm. reflexivity.
Qed.

Lemma check_first_code_names_error_witness :
  let doc := "<volume status=" +:+ quoted "ERROR" +:+ "><line status=" +:+ quoted "DENIED" +:+
             " status=" +:+ quoted "NODATA" +:+ "/></volume>END" in
  let s := Demo.encrypted ∅ in
  err_codes = (["DENIED"; "CANCELLED"; "CANCEL"] ++ "ERROR" :: ["RETRY"; "WARN"; "UNSET"])%list /\
  check Demo.lib 7 doc s = Raise (ArcLinkException "DENIED access denied") (released 7 s).
Proof.
  cbv zeta. split; [reflexivity|].
  apply (check_first_code_names_error Demo.lib 7 _ _ [] ["CANCELLED"; "CANCEL"; "ERROR"; "RETRY"; "WARN"; "UNSET"]
           "DENIED" (Some "access denied")).
  - reflexivity.
  - constructor.
  - vm_compute. reflexivity.
  - reflexivity.
Defined.

(** ** The length line of the download *)

(** Property X9.  A length line that is not a number raises [ValueError]; a negative length
    raises [Wrong length!] whatever follows, without a byte of the body being
    read.  In both cases [DOWNLOAD] has been sent and nothing after it. *)
Theorem download_bad_length (fuel : nat) (req_id : Z) (s : State)
    (l rest : string) (fs : list string) :
  streams (world s) = (l +:+ rest) :: fs ->
  line_within 100 l = true ->
  (Py.int l = None ->
   download fuel req_id s = Raise (Builtin "ValueError") (downloading req_id s)) /\
  (forall n, Py.int l = Some n -> n < 0 ->
   download fuel req_id s = Raise (Exception "Wrong length!") (downloading req_id s)).
Proof.
  intros Hs Hl. split.
  - intros Hn. rewrite download_eq, Hs. cbn [hd].
    rewrite (readline_line _ _ _ Hl), Hn. reflexivity.
  - intros n Hn Hneg. rewrite download_eq, Hs. cbn [hd].
    rewrite (readline_line _ _ _ Hl), Hn.
    assert (Hb : read_body fuel n EmptyString rest = Some (EmptyString, rest)).
    { destruct fuel; simpl; replace (len "" <? n) with false; try reflexivity;
        symmetry; apply Z.ltb_ge; unfold len; simpl; lia. }
    rewrite Hb. destruct (readline 100 rest) as [buf fd].
    replace (len "" =? n) with false by (symmetry; apply Z.eqb_neq; unfold len; simpl; lia).
    rewrite orb_true_r. reflexivity.
Qed.

Lemma download_bad_length_witness :
  let s := {| self := Demo.client "webdc.eu" 18002;
              world := Demo.server [] ["-3" +:+ CRLF +:+ "abcEND" +:+ CRLF] ∅ |} in
  line_within 100 ("-3" +:+ CRLF) = true /\ Py.int ("-3" +:+ CRLF) = Some (-3) /\
  download 5 7 s = Raise (Exception "Wrong length!") (downloading 7 s).
Proof.
  cbv zeta. split; [reflexivity|]. split; [reflexivity|].
  apply (proj2 (download_bad_length 5 7
                  {| self := Demo.client "webdc.eu" 18002;
                     world := Demo.server [] ["-3" +:+ CRLF +:+ "abcEND" +:+ CRLF] ∅ |}
                  ("-3" +:+ CRLF) ("abcEND" +:+ CRLF) []
                  eq_refl eq_refl) (-3)); [reflexivity | lia].
Defined.

(** ** A request that runs to its end *)

Lemma answer_handshaken (i : nat) (s : State) : answer i (handshaken s) = answer (4 + i) s.
Proof.
  unfold answer, handshaken. cbn [world replies set_replies set_log].
  generalize (replies (world s)).
  intros [|? [|? [|? [|? ?]]]]; try reflexivity; destruct i; reflexivity.
Qed.

Lemma bind_bye {A : Type} (k : unit -> M A) (s : State) :
  bind _bye k s = k tt (said_bye s).
Proof. reflexivity. Qed.

Lemma transfer_completes (L : Lib) (fuel : nat) (request_type : string) (rd : request_data L)
    (s : State) (req_id : Z) (l body t more : string) (fs : list string) :
  Py.contains ")" (answer 0 s) = true ->
  Py.contains "OK" (answer 2 s) = true ->
  Py.contains "OK" (answer 3 s) = true ->
  Py.contains "OK" (answer 4 s) = true ->
  Py.int (answer 5 s) = Some req_id ->
  Py.contains "END" (answer 6 s) = true ->
  Py.contains ("ready=" +:+ quoted "true") (answer 6 s) = true ->
  passes (answer 6 s) = true ->
  streams (world s) = (l +:+ body +:+ t +:+ more) :: fs ->
  line_within 100 l = true ->
  Py.int l = Some (len body) ->
  line_within 100 t = true ->
  Py.strip t = "END" ->
  (String.length body < fuel)%nat ->
  transfer L fuel request_type rd s =
  Ret (answer 6 s, body) (completed request_type (request_line L rd) req_id s).
Proof.
  intros H0 H2 H3 H4 H5 H6 Hr Hp Hs Hl Hn Ht He Hf.
  destruct fuel as [|n]; [lia|].
  unfold transfer. unfold bind at 1. rewrite hello_eq, H0, H2, H3.
  rewrite !bind_writeln, bind_readln.
  rewrite !answer_logged, answer_handshaken. cbn [Nat.add]. rewrite H4.
  unfold bind at 1. rewrite status_id_step.
  rewrite answer_popped, !answer_logged, answer_handshaken. cbn [Nat.add]. rewrite H5.
  unfold bind at 1. rewrite poll_step. cbv zeta.
  rewrite !answer_popped, !answer_logged, answer_handshaken. cbn [Nat.add]. rewrite H6, Hr.
  unfold bind at 1. rewrite (check_pass L req_id _ _ Hp).
  unfold bind at 1.
  rewrite (download_frame (S n) req_id _ l body t more fs); try assumption; [|lia].
  rewrite bind_writeln, bind_bye. unfold ret. f_equal.
  clear. destruct s as [c [lg rs fs' wn hp dk]].
  states_open. repeat rewrite <- app_assoc. cbv beta iota delta [app].
  destruct rs as [|? [|? [|? [|? [|? [|? [|? ?]]]]]]]; reflexivity.
Qed.

(** Property X10.  The whole life of a request on a server that answers as expected:
    handshake, [OK] after the request, the request id, one status document
    that is ready and has content, and a well-formed frame.  The result is
    the body of the frame.  The client has sent, in this order and nothing
    else, the three lines of the handshake, the request, one [STATUS], one
    [DOWNLOAD], one [PURGE] for the same id and [BYE], and has closed the
    connection. *)
Theorem request_completes (L : Lib) (fuel : nat) (request_type : string) (rd : request_data L)
    (s : State) (req_id : Z) (l body t more : string) (fs : list string) :
  Py.contains ")" (answer 0 s) = true ->
  Py.contains "OK" (answer 2 s) = true ->
  Py.contains "OK" (answer 3 s) = true ->
  Py.contains "OK" (answer 4 s) = true ->
  Py.int (answer 5 s) = Some req_id ->
  Py.contains "END" (answer 6 s) = true ->
  Py.contains ("ready=" +:+ quoted "true") (answer 6 s) = true ->
  passes (answer 6 s) = true ->
  Py.contains ("encrypted=" +:+ quoted "true") (answer 6 s) = false ->
  streams (world s) = (l +:+ body +:+ t +:+ more) :: fs ->
  line_within 100 l = true ->
  Py.int l = Some (len body) ->
  line_within 100 t = true ->
  Py.strip t = "END" ->
  (String.length body < fuel)%nat ->
  _request L fuel request_type rd s =
  Ret body (completed request_type (request_line L rd) req_id s).
Proof.
  intros H0 H2 H3 H4 H5 H6 Hr Hp Hx Hs Hl Hn Ht He Hf.
  unfold _request. unfold bind at 1.
  rewrite (transfer_completes L fuel request_type rd s req_id l body t more fs); try assumption.
  cbn [fst snd]. unfold decrypt. rewrite Hx. reflexivity.
Qed.

Lemma request_completes_witness :
  let s := {| self := Demo.client "webdc.eu" 18002;
              world := Demo.server (Demo.greeting "7" ++ [Demo.status_doc "true" ""])%list
                                   ["3" +:+ CRLF +:+ "abcEND" +:+ CRLF] ∅ |} in
  streams (world s) = (("3" +:+ CRLF) +:+ "abc" +:+ ("END" +:+ CRLF) +:+ "") :: [] /\
  _request Demo.lib 4 Demo.waveform Demo.rdata s =
  Ret "abc" (completed Demo.waveform (request_line Demo.lib Demo.rdata) 7 s).
Proof.
  cbv zeta. split; [reflexivity|].
  apply (request_completes Demo.lib 4 Demo.waveform Demo.rdata
           {| self := Demo.client "webdc.eu" 18002;
              world := Demo.server (Demo.greeting "7" ++ [Demo.status_doc "true" ""])%list
                                   ["3" +:+ CRLF +:+ "abcEND" +:+ CRLF] ∅ |} 7
           ("3" +:+ CRLF) "abc" ("END" +:+ CRLF) "" []);
    vm_compute; reflexivity.
Defined.

(** ** Routing tables and their keys *)

Lemma split_nonempty (sep : ascii) (s : string) : Py.split sep s <> [].
Proof.
  induction s as [|c s IH]; simpl; [discriminate|].
  destruct (Ascii.eqb c sep); [discriminate|].
  destruct (Py.split sep s); [contradiction | discriminate].
Qed.

Lemma split_app_sep (sep : ascii) (a b : string) :
  Py.split sep (a +:+ String sep b) = (Py.split sep a ++ Py.split sep b)%list.
Proof.
  induction a as [|c a IH]; sapp.
  - simpl. rewrite Ascii.eqb_refl. reflexivity.
  - cbn [Py.split]. destruct (Ascii.eqb c sep).
    + rewrite IH. reflexivity.
    + rewrite IH. pose proof (split_nonempty sep a) as Hn.
      destruct (Py.split sep a); [contradiction | reflexivity].
Qed.

Lemma split_length (sep : ascii) (s : string) : (1 <= length (Py.split sep s))%nat.
Proof.
  pose proof (split_nonempty sep s). destruct (Py.split sep s); [contradiction | simpl; lia].
Qed.

Lemma split_free (sep : ascii) (s : string) :
  free_of sep s = true -> Py.split sep s = [s].
Proof.
  induction s as [|c s IH]; [reflexivity|]. cbn [free_of Py.split].
  intros H. apply andb_true_iff in H as [Hc Hs]. apply negb_true_iff in Hc.
  rewrite Hc, (IH Hs). reflexivity.
Qed.

Lemma route_id_parts (xml_ns : string) (route : RouteElem) (id : string) :
  route_id xml_ns route = inr id -> (4 <= length (Py.split "." id))%nat.
Proof.
  unfold route_id. destruct (String.eqb xml_ns _ROUTING_NS_0_1).
  - destruct (rget route "net_code") as [n|]; [|discriminate].
    destruct (rget route "sta_code") as [s|]; [|discriminate].
    intros [= <-].
    change (n +:+ "." +:+ s +:+ "..") with (n +:+ String "." (s +:+ String "." (String "." ""))).
    rewrite !split_app_sep, !length_app.
    pose proof (split_length "." n). pose proof (split_length "." s).
    change (length (Py.split "." (String "." ""))) with 2%nat. lia.
  - destruct (rget route "networkCode") as [n|]; [|discriminate].
    destruct (rget route "stationCode") as [s|]; [|discriminate].
    destruct (rget route "locationCode") as [l|]; [|discriminate].
    destruct (rget route "streamCode") as [c|]; [|discriminate].
    intros [= <-].
    change (n +:+ "." +:+ s +:+ "." +:+ l +:+ "." +:+ c)
      with (n +:+ String "." (s +:+ String "." (l +:+ String "." c))).
    rewrite !split_app_sep, !length_app.
    pose proof (split_length "." n). pose proof (split_length "." s).
    pose proof (split_length "." l). pose proof (split_length "." c). lia.
Qed.

Lemma dict_set_keys {V : Type} (k : string) (v : V) (d : list (string * V)) (k' : string) :
  In k' (map fst (dict_set k v d)) -> k' = k \/ In k' (map fst d).
Proof.
  induction d as [|[x y] d IH]; cbn [dict_set map fst In].
  - intros [<-|[]]. auto.
  - destruct (String.eqb x k) eqn:E; cbn [map fst In].
    + intros [<-|H]; auto.
    + intros [<-|H]; auto. destruct (IH H); auto.
Qed.

Lemma routing_dict_keys (L : Lib) (xml_ns : string) (elems : list RouteElem)
    (acc table : routing_table L) :
  routing_dict L xml_ns elems acc = inr table ->
  (forall k, In k (map fst acc) -> (4 <= length (Py.split "." k))%nat) ->
  forall k, In k (map fst table) -> (4 <= length (Py.split "." k))%nat.
Proof.
  revert acc. induction elems as [|route elems IH]; intros acc H Ha.
  - injection H as <-. exact Ha.
  - cbn [routing_dict] in H.
    destruct (route_id xml_ns route) as [e|id] eqn:Ei; [discriminate|].
    destruct (arclink_entries L (arclinks route xml_ns)) as [e|l]; [discriminate|].
    apply (IH _ H). intros k Hk. apply dict_set_keys in Hk as [->|Hk]; [|auto].
    eapply route_id_parts. exact Ei.
Qed.

(** Property X11.  A table decoded from a routing answer never makes the search
    for a route fail on its keys: they have four parts, so no part is missing,
    and every key kept is a key of the table.  With a selector whose fields
    are patterns that compile, the search returns the candidates or finds
    none. *)
Theorem routing_then_matching_total (L : Lib) (xml_ns : string) (elems : list RouteElem)
    (table : routing_table L) (rd : request_data L) (net sta cha loc : string) :
  routing_dict L xml_ns elems [] = inr table ->
  firstn 4 (codes L rd ++ [EmptyString; EmptyString])%list = [net; sta; cha; loc] ->
  Forall (fun sel => Fnmatch.well_formed sel = true) [net; sta; cha; loc] ->
  exists r, _findRoute L table rd = inr r.
Proof.
  intros Ht Hc Hw. apply (findRoute_well_formed L table rd net sta cha loc Hc); [|exact Hw].
  apply Forall_forall. intros k Hk. apply list_elem_of_In in Hk.
  apply (routing_dict_keys L xml_ns elems [] table Ht); [intros ? []|exact Hk].
Qed.

Lemma routing_then_matching_total_witness :
  routing_dict Routed.lib _ROUTING_NS_1_0 [Demo.ape_route] [] =
  inr [("GE.APE..", [Routed.first_entry; Routed.second_entry])] /\
  exists r, _findRoute Routed.lib [("GE.APE..", [Routed.first_entry; Routed.second_entry])]
              Routed.rdata = inr r.
Proof.
  assert (H : routing_dict Routed.lib _ROUTING_NS_1_0 [Demo.ape_route] [] =
              inr [("GE.APE..", [Routed.first_entry; Routed.second_entry])]) by reflexivity.
  split; [exact H|].
  apply (routing_then_matching_total Routed.lib _ROUTING_NS_1_0 [Demo.ape_route] _ Routed.rdata
           "GE" "APE" "BHZ" "" H eq_refl).
  repeat constructor.
Defined.

Lemma merge_nonempty (L : Lib) (routes : routing_table L) (k : string) (keys : list string)
    (out : list (item L)) :
  merge L routes (k :: keys) = inr out -> out <> [].
Proof.
  cbn [merge]. destruct (dict_get k routes) as [temp|]; [|discriminate].
  destruct (merge L routes keys) as [e|out']; [discriminate|].
  intros [= <-]. destruct temp; discriminate.
Qed.

(** Property X12.  When the search finds a route at all, there is at least one candidate:
    a key without nodes gives the mark of the node that answered, so the
    loop over the candidates in [_fetch] is entered. *)
Theorem findRoute_candidates_nonempty (L : Lib) (routes : routing_table L)
    (rd : request_data L) (out : list (item L)) :
  _findRoute L routes rd = inr (Some out) -> out <> [].
Proof.
  unfold _findRoute.
  destruct (firstn 4 _) as [|net [|sta [|cha [|loc [|x l]]]]]; try discriminate.
  destruct (fitting_keys _ net sta cha loc) as [e|keys]; [discriminate|].
  destruct keys as [|k keys]; [discriminate|].
  destruct (merge L routes (k :: keys)) as [e|merged] eqn:Em; [discriminate|].
  intros [= <-] Hn. apply merge_nonempty in Em.
  pose proof (Permutation_length (sort_perm L merged)) as Hl. rewrite Hn in Hl.
  destruct merged; [contradiction | discriminate].
Qed.

Lemma findRoute_candidates_nonempty_witness :
  _findRoute Routed.lib [("GE.APE..", [])] Routed.rdata = inr (Some [Here Routed.lib]) /\
  [Here Routed.lib] <> [].
Proof.
  assert (H : _findRoute Routed.lib [("GE.APE..", [])] Routed.rdata =
              inr (Some [Here Routed.lib])) by reflexivity.
  split; [exact H|].
  exact (findRoute_candidates_nonempty Routed.lib _ _ _ H).
Defined.

Lemma status_id_returns_first_integer_witness :
  let s := {| self := Demo.client "webdc.eu" 18002;
              world := Demo.server [Demo.nl "queued"; Demo.nl "7"; Demo.nl "8"] [] ∅ |} in
  status_id 5 s = Ret 7 (consumed 2 s).
Proof.
  cbv zeta. apply (status_id_returns_first_integer 5 1 7).
  - intros [|i] Hi; [reflexivity | lia].
  - reflexivity.
  - lia.
Defined.

Lemma status_id_error_says_bye_witness :
  let s := {| self := Demo.client "webdc.eu" 18002;
              world := Demo.server [Demo.nl "queued"; Demo.nl "ERROR"; Demo.nl "8"] [] ∅ |} in
  status_id 5 s =
  Raise (ArcLinkException "Error requesting status id") (said_bye (consumed 2 s)).
Proof.
  cbv zeta. apply (status_id_error_says_bye 5 1).
  - intros [|i] Hi; [reflexivity | lia].
  - reflexivity.
  - reflexivity.
  - lia.
Defined.

Lemma status_id_waits_forever_witness :
  status_id 7 {| self := Demo.client "webdc.eu" 18002;
                 world := Demo.server [Demo.nl "queued"; Demo.nl "still queued"] [] ∅ |} =
  OutOfFuel.
Proof.
  apply (status_id_waits_forever 7). repeat constructor.
Defined.

(** ** Decoding the routing answer *)

(** Property X13.  Of an address attribute with several addresses, separated by commas, the
    first alone is decoded; the others have no influence on the entry, and an
    error in them is not noticed. *)
Theorem arclink_entry_first_address (L : Lib) (node : string -> option string)
    (a rest : string) :
  node "address" = Some (a +:+ String "," rest) ->
  free_of "," a = true ->
  arclink_entry L node =
  arclink_entry L (fun k => if String.eqb k "address" then Some a else node k).
Proof.
  intros Hn Hf. unfold arclink_entry.
  change (String.eqb "priority" "address") with false.
  change (String.eqb "start" "address") with false.
  change (String.eqb "end" "address") with false.
  change (String.eqb "address" "address") with true.
  cbv iota. rewrite Hn, split_app_sep, (split_free _ _ Hf). reflexivity.
Qed.

Lemma arclink_entry_first_address_witness :
  arclink_entry Routed.lib
    (Demo.attrs [("start", "0"); ("address", "h1.example.org:18001,h9.example.org:x")]) =
  inr (Build_RouteEntry Routed.lib (-1) 0 None "h1.example.org" 18001).
Proof.
  rewrite (arclink_entry_first_address Routed.lib _ "h1.example.org:18001" "h9.example.org:x"
             eq_refl eq_refl).
  reflexivity.
Defined.

Lemma dict_get_set_eq {V : Type} (k : string) (v : V) (d : list (string * V)) :
  dict_get k (dict_set k v d) = Some v.
Proof.
  induction d as [|[x y] d IH]; cbn [dict_set dict_get].
  - rewrite String.eqb_refl. reflexivity.
  - destruct (String.eqb x k) eqn:E; cbn [dict_get].
    + rewrite String.eqb_refl. reflexivity.
    + rewrite E. exact IH.
Qed.

Lemma dict_get_set_ne {V : Type} (k k' : string) (v : V) (d : list (string * V)) :
  k <> k' -> dict_get k' (dict_set k v d) = dict_get k' d.
Proof.
  intros Hk. apply String.eqb_neq in Hk.
  induction d as [|[x y] d IH]; cbn [dict_set dict_get].
  - rewrite Hk. reflexivity.
  - destruct (String.eqb x k) eqn:E; cbn [dict_get].
    + apply String.eqb_eq in E. subst x. rewrite Hk. reflexivity.
    + rewrite IH. reflexivity.
Qed.

Lemma routing_dict_keeps (L : Lib) (xml_ns id : string) (post : list RouteElem)
    (acc table : routing_table L) :
  routing_dict L xml_ns post acc = inr table ->
  Forall (fun r => route_id xml_ns r <> inr id) post ->
  dict_get id table = dict_get id acc.
Proof.
  revert acc. induction post as [|r post IH]; intros acc H Hp.
  - injection H as <-. reflexivity.
  - cbn [routing_dict] in H. inversion Hp as [|? ? Hr Hp']; subst.
    destruct (route_id xml_ns r) as [e|id'] eqn:Ei; [discriminate|].
    destruct (arclink_entries L (arclinks r xml_ns)) as [e|l]; [discriminate|].
    rewrite (IH _ H Hp'). apply dict_get_set_ne. congruence.
Qed.

(** Property X14.  Routes with the same id are not merged: the nodes of the last one in the
    answer are the entry of the table, those of the earlier ones are gone. *)
Theorem routing_dict_last_wins (L : Lib) (xml_ns id : string) (pre post : list RouteElem)
    (route : RouteElem) (acc table : routing_table L) :
  routing_dict L xml_ns (pre ++ route :: post) acc = inr table ->
  route_id xml_ns route = inr id ->
  Forall (fun r => route_id xml_ns r <> inr id) post ->
  exists l, arclink_entries L (arclinks route xml_ns) = inr l /\ dict_get id table = Some l.
Proof.
  revert acc. induction pre as [|r pre IH]; intros acc H Hi Hp.
  - cbn [app routing_dict] in H. rewrite Hi in H.
    destruct (arclink_entries L (arclinks route xml_ns)) as [e|l]; [discriminate|].
    exists l. split; [reflexivity|].
    rewrite (routing_dict_keeps L xml_ns id post _ _ H Hp). apply dict_get_set_eq.
  - cbn [app routing_dict] in H.
    destruct (route_id xml_ns r) as [e|id']; [discriminate|].
    destruct (arclink_entries L (arclinks r xml_ns)) as [e|l]; [discriminate|].
    exact (IH _ H Hi Hp).
Qed.

Lemma routing_dict_last_wins_witness :
  let again := {| rget := rget Demo.ape_route; arclinks := fun _ => [Demo.first_node] |} in
  routing_dict Routed.lib _ROUTING_NS_1_0 [Demo.ape_route; again] [] =
  inr [("GE.APE..", [Routed.first_entry])] /\
  exists l, arclink_entries Routed.lib (arclinks again _ROUTING_NS_1_0) = inr l /\
            dict_get "GE.APE.." [("GE.APE..", [Routed.first_entry])] = Some l.
Proof.
  intros again.
  assert (H : routing_dict Routed.lib _ROUTING_NS_1_0 ([Demo.ape_route] ++ again :: []) [] =
              inr [("GE.APE..", [Routed.first_entry])]) by reflexivity.
  split; [exact H|].
  exact (routing_dict_last_wins Routed.lib _ROUTING_NS_1_0 "GE.APE.." [Demo.ape_route] []
           again [] _ H eq_refl (List.Forall_nil _)).
Defined.

(** ** Dispatch to the first candidate *)

(** Property X15.  With a route found, [_fetch] sends the request to the first candidate and
    to no other: the outcome, error included, is that of this one request.
    When the candidate is the mark of the answering node, or the node the
    client is connected to, the request goes there; otherwise the client is
    pointed at the candidate and the connection opened, before [_request]
    opens it a second time in its handshake. *)
Theorem fetch_uses_first_candidate (L : Lib) (n : nat) (request_type : string)
    (rd : request_data L) (net sta : string) (more : list string) (s s1 : State)
    (routes : routing_table L) (first : item L) (rest : list (item L)) :
  codes L rd = net :: sta :: more ->
  getRouting L (_fetch L n) net sta (starttime L rd) (endtime L rd) None s = Ret routes s1 ->
  _findRoute L routes rd = inr (Some (first :: rest)) ->
  _fetch L (S n) request_type rd true s =
  _request L (S n) request_type rd
    match first with
    | Here _ => s1
    | Node _ e =>
        if String.eqb (r_host L e) (host (_client (self s)))
           && (r_port L e =? port (_client (self s)))
        then s1 else retargeted (r_host L e) (r_port L e) s1
    end.
Proof.
  intros Hc Hr Hf.
  destruct (getRouting_same_target _ _ _ _ _ _ _ _ _ Hr) as (Eh & Ep & _).
  cbn [_fetch negb]. rewrite Hc. cbn [nth_error lift]. unfold bind at 1 2, ret at 1 2.
  unfold bind at 1. rewrite Hr. unfold bind at 1. rewrite Hf. cbn [of_sum ret].
  destruct first as [|e]; [reflexivity|].
  unfold bind at 1, get_self. rewrite <- Eh, <- Ep.
  destruct (String.eqb _ _ && (_ =? _)); reflexivity.
Qed.

Lemma fetch_uses_first_candidate_witness :
  let s := Demo.moved "webdc.eu" 18002 in
  let s1 := Demo.final (getRouting Routed.lib (_fetch Routed.lib 3) "GE" "APE" 100 200 None s) in
  _fetch Routed.lib 4 Demo.waveform Routed.rdata true s =
  _request Routed.lib 4 Demo.waveform Routed.rdata (retargeted "h2.example.org" 18002 s1) /\
  Demo.connects (world (Demo.final (_fetch Routed.lib 4 Demo.waveform Routed.rdata true s))) =
  [("webdc.eu", 18002); ("h2.example.org", 18002); ("h2.example.org", 18002)].
Proof.
  intros s s1.
  assert (Hr : getRouting Routed.lib (_fetch Routed.lib 3) "GE" "APE"
                 (starttime Routed.lib Routed.rdata) (endtime Routed.lib Routed.rdata) None s =
               Ret [("GE.APE..", [Routed.first_entry; Routed.second_entry])] s1)
    by (vm_compute; reflexivity).
  assert (Hf : _findRoute Routed.lib [("GE.APE..", [Routed.first_entry; Routed.second_entry])]
                 Routed.rdata =
               inr (Some [Node Routed.lib Routed.second_entry; Node Routed.lib Routed.first_entry]))
    by (vm_compute; reflexivity).
  pose proof (fetch_uses_first_candidate Routed.lib 3 Demo.waveform Routed.rdata "GE" "APE"
                ["BHZ"; ""] s s1 _ _ _ eq_refl Hr Hf) as H.
  split; [exact H | vm_compute; reflexivity].
Defined.

Lemma fetch_falls_back_once_witness :
  let s := Demo.moved "eida.example.org" 18001 in
  let s1 := Demo.final (getRouting Routed.nowhere (_fetch Routed.nowhere 3) "GE" "APE" 100 200
                          None s) in
  let s2 := Demo.final (getRouting Routed.nowhere (_fetch Routed.nowhere 2) "GE" "APE" 100 200
                          None (at_origin s1)) in
  _fetch Routed.nowhere 4 Demo.waveform Routed.nowhere_rdata true s =
  Raise (ArcLinkException "Could not find route to GE.APE") s2 /\
  Demo.connects (world s2) = [("eida.example.org", 18001); ("webdc.eu", 18002)].
Proof.
  intros s s1 s2.
  assert (H1 : getRouting Routed.nowhere (_fetch Routed.nowhere 3) "GE" "APE"
                 (starttime Routed.nowhere Routed.nowhere_rdata)
                 (endtime Routed.nowhere Routed.nowhere_rdata) None s =
               Ret [] s1) by (vm_compute; reflexivity).
  assert (H2 : getRouting Routed.nowhere (_fetch Routed.nowhere 2) "GE" "APE"
                 (starttime Routed.nowhere Routed.nowhere_rdata)
                 (endtime Routed.nowhere Routed.nowhere_rdata) None
                 (at_origin s1) = Ret [] s2) by (vm_compute; reflexivity).
  split; [|vm_compute; reflexivity].
  apply (fetch_falls_back_once Routed.nowhere 2 Demo.waveform Routed.nowhere_rdata "GE" "APE"
           ["BHZ"; ""] s s1 s2 [] [] eq_refl);
    [discriminate | discriminate | exact H1 | reflexivity | exact H2 | reflexivity].
Defined.

(** ** The constructor and the key file *)

Lemma keystore_same (c c' : Client) (w w' : World) :
  dcid_keys c = dcid_keys c' -> heap w = heap w' -> keystore c w = keystore c' w'.
Proof. intros Hc Hw. unfold keystore. rewrite Hc, Hw. reflexivity. Qed.

(** Property X17.  What is in the dictionary of keys before the construction stays as it
    is: a key given by the caller, or left in the default dictionary by an
    earlier client, is never replaced by the entry of the key file. *)
Theorem init_keeps_known_keys (L : Lib) (a : init_args) (w : World) (s1 : State)
    (k v : string) :
  __init__ L a w = Ret tt s1 ->
  keystore (new_client a) w !! k = Some v ->
  keystore (self s1) (world s1) !! k = Some v.
Proof.
  intros H Hk. apply init_ret in H as (Hd & _ & H).
  assert (E : keystore (self s1) w = keystore (new_client a) w)
    by (apply keystore_same; [exact Hd | reflexivity]).
  destruct (key_file_of L a w ≫= (fun f => disk w !! f)) as [[|lines]|].
  - rewrite (keystore_same (self s1) (self s1) (world s1) w eq_refl H), E. exact Hk.
  - rewrite H, E, Hk. reflexivity.
  - rewrite (keystore_same (self s1) (self s1) (world s1) w eq_refl H), E. exact Hk.
Qed.

Lemma init_keeps_known_keys_witness :
  let w := keyed Demo.home {[ "BIA" := "mine" ]} in
  let s1 := Demo.final (__init__ Demo.lib (Demo.args None) w) in
  file_entry "BIA" ["BIA=OfH9ekhi" +:+ String LF ""; "ODC = abc" +:+ String LF ""] =
  Some "OfH9ekhi" /\
  keystore (self s1) (world s1) !! "BIA" = Some "mine".
Proof.
  intros w s1. split; [reflexivity|].
  assert (H : __init__ Demo.lib (Demo.args None) w = Ret tt s1) by (vm_compute; reflexivity).
  apply (init_keeps_known_keys Demo.lib (Demo.args None) w s1 "BIA" "mine" H).
  vm_compute. reflexivity.
Defined.

Lemma split1_free (sep : ascii) (s : string) :
  free_of sep s = true -> Py.split1 sep s = [s].
Proof.
  induction s as [|c s IH]; [reflexivity|]. cbn [free_of Py.split1].
  intros H. apply andb_true_iff in H as [Hc Hs]. apply negb_true_iff in Hc.
  rewrite Hc, (IH Hs). reflexivity.
Qed.

Lemma load_keys_bad_line (pre post : list string) (bad : string) (s s1 : State) :
  load_keys pre s = Ret tt s1 ->
  free_of "=" bad = true ->
  load_keys (pre ++ bad :: post) s = Raise (Builtin "ValueError") s1.
Proof.
  revert s. induction pre as [|line pre IH]; intros s H Hb.
  - injection H as <-. cbn [app load_keys]. rewrite (split1_free _ _ Hb). reflexivity.
  - cbn [app load_keys] in *.
    destruct (Py.split1 "=" line) as [|key [|value [|x l]]]; try discriminate.
    unfold bind at 1 in H. unfold bind at 1. cbn [get_self] in *.
    unfold bind at 1 in H. unfold bind at 1.
    destruct (if bool_decide _ then _ else _) as [[] s0|e s0|]; try discriminate.
    exact (IH _ H Hb).
Qed.

(** Property X18.  A line without [=] in the key file, an empty last line for one, makes the
    construction fail with [ValueError].  The keys of the lines before it are
    in the dictionary by then, and stay there. *)
Theorem init_bad_key_line (L : Lib) (a : init_args) (w : World) (sh s1 : State)
    (name : string) (pre post : list string) (bad : string) :
  _hello (logged (Connect (arg_host a) (arg_port a)) {| self := new_client a; world := w |}) =
  Ret tt sh ->
  key_file_of L a w = Some name ->
  disk w !! name = Some (Lines (pre ++ bad :: post)) ->
  free_of "=" bad = true ->
  load_keys pre sh = Ret tt s1 ->
  __init__ L a w = Raise (Builtin "ValueError") s1.
Proof.
  intros Hh Hf Hd Hb Hl. unfold __init__. rewrite bind_emit.
  unfold bind at 1. rewrite Hh.
  pose proof (after_ret_inv _ _ _ _ _ (after_hello _ same_store_stable) Hh) as [_ Sd].
  cbn [logged world self set_log disk] in Sd.
  rewrite (key_file_of_disk L a _ _ Sd), Hf, Sd, Hd.
  exact (load_keys_bad_line pre post bad sh s1 Hl Hb).
Qed.

Lemma init_bad_key_line_witness :
  let w := {| log := []; replies := replies Demo.home; streams := []; warned := [];
              heap := heap Demo.home;
              disk := {[ "/home/obspy/dcidpasswords.txt" :=
                           Lines ["BIA=OfH9ekhi" +:+ String LF ""; String LF ""] ]} |} in
  let s1 := Demo.final (__init__ Demo.lib (Demo.args None) w) in
  __init__ Demo.lib (Demo.args None) w = Raise (Builtin "ValueError") s1 /\
  keystore (self s1) (world s1) !! "BIA" = Some "OfH9ekhi".
Proof.
  intros w s1. split; [|vm_compute; reflexivity].
  apply (init_bad_key_line Demo.lib (Demo.args None) w
           (Demo.final (_hello (logged (Connect "webdc.eu" 18002)
                                  {| self := new_client (Demo.args None); world := w |})))
           s1 "/home/obspy/dcidpasswords.txt" ["BIA=OfH9ekhi" +:+ String LF ""] []
           (String LF ""));
    vm_compute; reflexivity.
Defined.

(** ** Waveforms written to a file *)

Lemma endswith_refl (s : string) : endswith s s = true.
Proof. destruct s; cbn [endswith]; rewrite String.eqb_refl; reflexivity. Qed.

Lemma endswith_app (a b : string) : endswith (a +:+ b) b = true.
Proof.
  induction a as [|c a IH]; sapp; [apply endswith_refl|].
  cbn [endswith]. rewrite IH. apply orb_true_r.
Qed.

Lemma endswith_inv (s suffix : string) :
  endswith s suffix = true -> exists a, s = a +:+ suffix.
Proof.
  induction s as [|c s IH]; cbn [endswith]; intros H.
  - rewrite orb_false_r in H. apply String.eqb_eq in H. exists EmptyString. exact H.
  - apply orb_true_iff in H as [H|H].
    + apply String.eqb_eq in H. exists EmptyString. exact H.
    + destruct (IH H) as [a ->]. exists (String c a). reflexivity.
Qed.

Lemma endswith_tail (s a b : string) :
  endswith s (a +:+ b) = true -> endswith s b = true.
Proof.
  intros H. apply endswith_inv in H as [x ->].
  rewrite <- str_app_assoc. apply endswith_app.
Qed.

Lemma with_suffix_name (f suffix : string) :
  exists f', with_suffix (FileName f) suffix = FileName f' /\
             endswith f' suffix = true /\
             (endswith f suffix = true -> f' = f).
Proof.
  unfold with_suffix. destruct (endswith f suffix) eqn:E; cbn [negb].
  - exists f. auto.
  - exists (f +:+ suffix). split; [reflexivity|]. split; [apply endswith_app | discriminate].
Qed.

(** Property X19.  Data that comes back encrypted is written as it was received, whatever
    [unpack] says: it is never handed to [bz2]; with [unpack] set the user is
    warned.  The name of the file ends in [.openssl], in [.bz2.openssl] when
    compression was asked for and [bz2] is at hand; a name that ends so
    already is left as it is. *)
Theorem saveWaveform_encrypted (L : Lib) (bz2 : option (string -> option string))
    (fuel : nat) (f network station location channel : string) (t0 t1 : utc L)
    (format : string) (compressed route unpack : bool) (s s1 : State) (data : string) :
  let packed := compressed && bool_decide (is_Some bz2) in
  let suffix := if packed then ".bz2.openssl" else ".openssl" in
  _fetch L fuel (waveform_rtype format packed)
    (Build_request_data L t0 t1 [network; station; channel; location]) route s = Ret data s1 ->
  String.prefix "Salted__" data = true ->
  exists f',
    saveWaveform L bz2 fuel (FileName f) network station location channel t0 t1 format
      compressed route unpack s =
    Ret {| w_file := FileName f'; w_data := data |}
        (if unpack then warned_with "Cannot unpack encrypted waveforms." s1 else s1) /\
    endswith f' ".openssl" = true /\
    endswith f' suffix = true /\
    (endswith f suffix = true -> f' = f).
Proof.
  intros packed suffix Hf Hp.
  destruct (with_suffix_name f suffix) as (f' & Hw & He & Hk).
  exists f'. split; [|split; [|split; assumption]].
  - unfold saveWaveform. fold packed.
    replace (if packed then ("REQUEST WAVEFORM format=" +:+ format) +:+ " compression=bzip2"
             else "REQUEST WAVEFORM format=" +:+ format)
      with (waveform_rtype format packed)
      by reflexivity.
    unfold bind at 1. rewrite Hf, Hp.
    replace (if packed then with_suffix (FileName f) ".bz2.openssl"
             else with_suffix (FileName f) ".openssl")
      with (FileName f') by (rewrite <- Hw; unfold suffix; destruct packed; reflexivity).
    destruct s1 as [c [lg rs fs wn hp dk]]. destruct unpack; reflexivity.
  - unfold suffix in He. destruct packed; [|exact He].
    exact (endswith_tail f' ".bz2" ".openssl" He).
Qed.

Lemma saveWaveform_encrypted_witness :
  let s := {| self := Demo.client "webdc.eu" 18002;
              world := Demo.server (Demo.greeting "7" ++ [Demo.status_doc "true" ""])%list
                                   ["11" +:+ CRLF +:+ "Salted__abcEND" +:+ CRLF] ∅ |} in
  let s1 := Demo.final (_fetch Routed.lib 4 (waveform_rtype "MSEED" true) Routed.rdata false s) in
  exists f',
    saveWaveform Routed.lib (Some (fun _ => None)) 4 (FileName "GE.APE.bz2") "GE" "APE" "" "BHZ"
      100 200 "MSEED" true false true s =
    Ret {| w_file := FileName f'; w_data := "Salted__abc" |}
        (warned_with "Cannot unpack encrypted waveforms." s1) /\
    endswith f' ".bz2.openssl" = true.
Proof.
  intros s s1.
  assert (Hf : _fetch Routed.lib 4
                 (waveform_rtype "MSEED"
                    (true && bool_decide (is_Some (Some (fun _ : string => @None string)))))
                 (Build_request_data Routed.lib 100 200 ["GE"; "APE"; "BHZ"; ""]) false s =
               Ret "Salted__abc" s1) by (vm_compute; reflexivity).
  destruct (saveWaveform_encrypted Routed.lib (Some (fun _ => None)) 4 "GE.APE.bz2" "GE" "APE"
              "" "BHZ" 100 200 "MSEED" true false true s s1 "Salted__abc" Hf eq_refl)
    as (f' & H & _ & He & _).
  exists f'. split; [exact H | exact He].
Defined.

(** Property X20.  Compressed data saved with [unpack] off is written as it was received,
    under a name that ends in [.bz2]; nothing is decompressed. *)
Theorem saveWaveform_packed (L : Lib) (decompress : string -> option string)
    (fuel : nat) (f network station location channel : string) (t0 t1 : utc L)
    (format : string) (route : bool) (s s1 : State) (data : string) :
  _fetch L fuel (waveform_rtype format true)
    (Build_request_data L t0 t1 [network; station; channel; location]) route s = Ret data s1 ->
  String.prefix "Salted__" data = false ->
  exists f',
    saveWaveform L (Some decompress) fuel (FileName f) network station location channel t0 t1
      format true route false s =
    Ret {| w_file := FileName f'; w_data := data |} s1 /\
    endswith f' ".bz2" = true /\
    (endswith f ".bz2" = true -> f' = f).
Proof.
  intros Hf Hp.
  destruct (with_suffix_name f ".bz2") as (f' & Hw & He & Hk).
  exists f'. split; [|split; assumption].
  unfold saveWaveform.
  replace (true && bool_decide (is_Some (Some decompress))) with true by reflexivity.
  cbv iota.
  replace (("REQUEST WAVEFORM format=" +:+ format) +:+ " compression=bzip2")
    with (waveform_rtype format true) by reflexivity.
  unfold bind at 1. rewrite Hf, Hp, Hw. reflexivity.
Qed.

Lemma saveWaveform_packed_witness :
  let s := {| self := Demo.client "webdc.eu" 18002;
              world := Demo.server (Demo.greeting "7" ++ [Demo.status_doc "true" ""])%list
                                   ["3" +:+ CRLF +:+ "BZhEND" +:+ CRLF] ∅ |} in
  let s1 := Demo.final (_fetch Routed.lib 4 (waveform_rtype "MSEED" true) Routed.rdata false s) in
  exists f',
    saveWaveform Routed.lib (Some (fun _ => None)) 4 (FileName "GE.APE") "GE" "APE" "" "BHZ"
      100 200 "MSEED" true false false s =
    Ret {| w_file := FileName f'; w_data := "BZh" |} s1 /\
    endswith f' ".bz2" = true.
Proof.
  intros s s1.
  assert (Hf : _fetch Routed.lib 4 (waveform_rtype "MSEED" true)
                 (Build_request_data Routed.lib 100 200 ["GE"; "APE"; "BHZ"; ""]) false s =
               Ret "BZh" s1) by (vm_compute; reflexivity).
  destruct (saveWaveform_packed Routed.lib (fun _ => None) 4 "GE.APE" "GE" "APE"
              "" "BHZ" 100 200 "MSEED" false s s1 "BZh" Hf eq_refl)
    as (f' & H & He & _).
  exists f'. split; [exact H | exact He].
Defined.

(** ** The download phase releases nothing *)

Lemma download_raise_unreleased_witness :
  let s := {| self := Demo.client "webdc.eu" 18002;
              world := Demo.server [] ["3" +:+ CRLF +:+ "abcXYZ" +:+ CRLF] ∅ |} in
  download 5 7 s = Raise (Exception "Wrong length!") (downloading 7 s).
Proof.
  intros s.
  assert (H : download 5 7 s = Raise (Exception "Wrong length!") (Demo.final (download 5 7 s)))
    by (vm_compute; reflexivity).
  rewrite <- (download_raise_unreleased 5 7 s _ _ H). exact H.
Defined.
